(** * AegisAI ACP providers: validation, evidence and heuristic synthesis

    A shallow embedding of the two provider scripts of the repository
    (the Base-only provider that consults the resources server, and the
    earlier five-job provider) together with the part of the JavaScript
    runtime they rely on.

    Conventions of the embedding.
    - A JavaScript number is an exact rational extended with [NaN] and the
      two infinities; the 53-bit rounding of binary64 and the signed zero
      are not modelled.  Every finite result is kept in lowest terms.
    - A JavaScript string is a [string] of bytes; white space, letter case
      and digits are those of the ASCII range.
    - A JavaScript object is a finite map from property names to values.
    - Code that may raise a [TypeError] lives in the [completion] monad.
    - The outside world (clock, environment variables, HTTP replies of the
      resources server) is an explicit [World] argument. *)

From Stdlib Require Import QArith Qround Qabs ZArith String Ascii List Lqa Lia Bool.
From stdpp Require Import gmap strings list fin_maps pretty.

Close Scope Q_scope.
#[local] Open Scope string_scope.
#[local] Set Warnings "-register-all".

(* ===================================================================== *)
(** ** The JavaScript runtime used by the providers *)
(* ===================================================================== *)

Module JS.

(** *** Numbers *)

Inductive number :=
| NaN
| PInf
| NInf
| Fin (q : Q).

Definition fin (q : Q) : number := Fin (Qred q).
Definition of_Z (z : Z) : number := Fin (inject_Z z).

Definition isFinite (n : number) : bool :=
  match n with Fin _ => true | _ => false end.

Definition Qltb (a b : Q) : bool :=
  match Qcompare a b with Lt => true | _ => false end.

(** [a < b] on numbers; any comparison with [NaN] is false. *)
Definition num_ltb (a b : number) : bool :=
  match a, b with
  | NaN, _ | _, NaN => false
  | PInf, _ => false
  | _, NInf => false
  | NInf, _ => true
  | _, PInf => true
  | Fin x, Fin y => Qltb x y
  end.

Definition num_eqb (a b : number) : bool :=
  match a, b with
  | PInf, PInf | NInf, NInf => true
  | Fin x, Fin y => Qeq_bool x y
  | _, _ => false
  end.

Definition num_gtb (a b : number) : bool := num_ltb b a.
Definition num_leb (a b : number) : bool := num_ltb a b || num_eqb a b.
Definition num_geb (a b : number) : bool := num_leb b a.

Definition num_neg (a : number) : number :=
  match a with
  | NaN => NaN | PInf => NInf | NInf => PInf
  | Fin q => fin (- q)
  end.

Definition num_add (a b : number) : number :=
  match a, b with
  | NaN, _ | _, NaN => NaN
  | PInf, NInf | NInf, PInf => NaN
  | PInf, _ | _, PInf => PInf
  | NInf, _ | _, NInf => NInf
  | Fin x, Fin y => fin (x + y)
  end.

Definition num_sub (a b : number) : number := num_add a (num_neg b).

(** Sign of a number that is not [NaN]: [Lt] negative, [Eq] zero. *)
Definition num_sign (a : number) : comparison :=
  match a with
  | NaN => Eq | PInf => Gt | NInf => Lt
  | Fin q => Qcompare q 0
  end.

Definition signed_inf (s1 s2 : comparison) : number :=
  match s1, s2 with
  | Eq, _ | _, Eq => NaN
  | Gt, Gt | Lt, Lt => PInf
  | _, _ => NInf
  end.

Definition num_mul (a b : number) : number :=
  match a, b with
  | NaN, _ | _, NaN => NaN
  | Fin x, Fin y => fin (x * y)
  | _, _ => signed_inf (num_sign a) (num_sign b)
  end.

Definition num_div (a b : number) : number :=
  match a, b with
  | NaN, _ | _, NaN => NaN
  | Fin x, Fin y =>
      if Qeq_bool y 0 then signed_inf (Qcompare x 0) Gt
      else fin (x / y)
  | Fin _, _ => of_Z 0
  | _, Fin y =>
      signed_inf (num_sign a) (if Qeq_bool y 0 then Gt else Qcompare y 0)
  | _, _ => NaN
  end.

(** [Math.round]: the nearest integer, halves towards plus infinity. *)
Definition Math_round (a : number) : number :=
  match a with
  | Fin q => of_Z (Qfloor (q + (1 # 2)))
  | _ => a
  end.

(** [Math.trunc]: the integer part, towards zero. *)
Definition Math_trunc (a : number) : number :=
  match a with
  | Fin q => of_Z (Z.quot (Qnum q) (Zpos (Qden q)))
  | _ => a
  end.

Definition Math_max (a b : number) : number :=
  match a, b with
  | NaN, _ | _, NaN => NaN
  | _, _ => if num_ltb a b then b else a
  end.

Definition Math_min (a b : number) : number :=
  match a, b with
  | NaN, _ | _, NaN => NaN
  | _, _ => if num_ltb b a then b else a
  end.

(** *** Strings *)

Definition chars (s : string) : list ascii := list_ascii_of_string s.
Definition text (l : list ascii) : string := string_of_list_ascii l.

Definition code (c : ascii) : N := N_of_ascii c.

Definition is_white (c : ascii) : bool :=
  let n := code c in ((9 <=? n) && (n <=? 13))%N || (n =? 32)%N.

Definition is_digit (c : ascii) : bool :=
  let n := code c in ((48 <=? n) && (n <=? 57))%N.

Definition lower_char (c : ascii) : ascii :=
  let n := code c in
  if ((65 <=? n) && (n <=? 90))%N then ascii_of_N (n + 32) else c.

Definition upper_char (c : ascii) : ascii :=
  let n := code c in
  if ((97 <=? n) && (n <=? 122))%N then ascii_of_N (n - 32) else c.

Definition toLowerCase (s : string) : string := text (map lower_char (chars s)).
Definition toUpperCase (s : string) : string := text (map upper_char (chars s)).

Fixpoint drop_white (l : list ascii) : list ascii :=
  match l with
  | c :: l' => if is_white c then drop_white l' else l
  | [] => []
  end.

Definition trim_chars (l : list ascii) : list ascii :=
  rev (drop_white (rev (drop_white l))).

Definition trim (s : string) : string := text (trim_chars (chars s)).

(** [s.replace(/,/g, "")]. *)
Definition is_comma (c : ascii) : bool := (code c =? 44)%N.
Definition remove_commas (s : string) : string :=
  text (List.filter (fun c => negb (is_comma c)) (chars s)).

(** [parts.join(sep)] on an array of strings. *)
Fixpoint join (sep : string) (parts : list string) : string :=
  match parts with
  | [] => ""
  | [p] => p
  | p :: rest => p ++ sep ++ join sep rest
  end.

(** [allowed.includes(v)] for an array of strings and a string [v]. *)
Definition includes (allowed : list string) (v : string) : bool :=
  existsb (String.eqb v) allowed.

(** *** Numeric strings

    [Number(s)] follows the StringNumericLiteral grammar: optional white
    space around an optionally signed decimal literal (digits, fraction,
    exponent), [Infinity], or an unsigned literal with a radix prefix;
    the empty string is [0] and anything else is [NaN]. *)

Fixpoint span_digits (l : list ascii) : list ascii * list ascii :=
  match l with
  | c :: l' =>
      if is_digit c then let '(ds, rest) := span_digits l' in (c :: ds, rest)
      else ([], l)
  | [] => ([], [])
  end.

Definition digit_val (c : ascii) : Z := Z.of_N (code c) - 48.

Definition digits_to_Z (ds : list ascii) : Z :=
  fold_left (fun acc c => 10 * acc + digit_val c)%Z ds 0%Z.

Definition pow10 (e : Z) : Q :=
  if (0 <=? e)%Z then inject_Z (10 ^ e) else (1 / inject_Z (10 ^ (- e)))%Q.

Definition parse_exponent (l : list ascii) : option Z :=
  match l with
  | [] => Some 0%Z
  | c :: l' =>
      if (code c =? 101)%N || (code c =? 69)%N then
        let '(neg, l'') :=
          match l' with
          | "+"%char :: r => (false, r)
          | "-"%char :: r => (true, r)
          | _ => (false, l')
          end in
        match span_digits l'' with
        | (d :: ds, []) =>
            let e := digits_to_Z (d :: ds) in
            Some (if neg : bool then (- e)%Z else e)
        | _ => None
        end
      else None
  end.

Definition parse_unsigned_decimal (l : list ascii) : option number :=
  if String.eqb (text l) "Infinity" then Some PInf
  else
    let '(ip, r1) := span_digits l in
    let '(fp, r2) :=
      match r1 with
      | "."%char :: r => span_digits r
      | _ => ([], r1)
      end in
    match (ip ++ fp)%list, parse_exponent r2 with
    | _ :: _, Some e =>
        Some (fin (inject_Z (digits_to_Z (ip ++ fp)%list)
                   * pow10 (e - Z.of_nat (length fp))))
    | _, _ => None
    end.

Definition radix_digit (radix : Z) (c : ascii) : option Z :=
  let n := Z.of_N (code c) in
  let d :=
    if ((48 <=? n) && (n <=? 57))%Z then (n - 48)%Z
    else if ((97 <=? n) && (n <=? 102))%Z then (n - 87)%Z
    else if ((65 <=? n) && (n <=? 70))%Z then (n - 55)%Z
    else radix in
  if (d <? radix)%Z then Some d else None.

Fixpoint parse_radix_go (radix acc : Z) (l : list ascii) : option Z :=
  match l with
  | [] => Some acc
  | c :: l' =>
      match radix_digit radix c with
      | Some d => parse_radix_go radix (radix * acc + d)%Z l'
      | None => None
      end
  end.

Definition parse_radix (radix : Z) (l : list ascii) : option number :=
  match l with
  | [] => None
  | _ => of_Z <$> parse_radix_go radix 0%Z l
  end.

Definition radix_of_prefix (c : ascii) : option Z :=
  let n := code c in
  if (n =? 120)%N || (n =? 88)%N then Some 16%Z
  else if (n =? 111)%N || (n =? 79)%N then Some 8%Z
  else if (n =? 98)%N || (n =? 66)%N then Some 2%Z
  else None.

Definition parse_numeric (l : list ascii) : option number :=
  match l with
  | [] => Some (of_Z 0)
  | "+"%char :: r => parse_unsigned_decimal r
  | "-"%char :: r => num_neg <$> parse_unsigned_decimal r
  | "0"%char :: p :: r =>
      match radix_of_prefix p with
      | Some radix => parse_radix radix r
      | None => parse_unsigned_decimal l
      end
  | _ => parse_unsigned_decimal l
  end.

Definition Number_of_string (s : string) : number :=
  default NaN (parse_numeric (trim_chars (chars s))).

(** *** Printing numbers

    [String(n)] is exact for integers and for terminating decimals; a
    fraction that does not terminate is cut after twenty digits. *)

Fixpoint fraction_digits (fuel : nat) (r d : Z) : string :=
  match fuel with
  | O => ""
  | S fuel' =>
      if (r =? 0)%Z then ""
      else pretty (10 * r / d)%Z ++ fraction_digits fuel' ((10 * r) mod d)%Z d
  end.

Definition Number_toString (n : number) : string :=
  match n with
  | NaN => "NaN"
  | PInf => "Infinity"
  | NInf => "-Infinity"
  | Fin q =>
      let z := Z.abs (Qnum q) in
      let d := Zpos (Qden q) in
      let r := (z mod d)%Z in
      (if (Qnum q <? 0)%Z then "-" else "")
      ++ pretty (z / d)%Z
      ++ (if (r =? 0)%Z then "" else "." ++ fraction_digits 20 r d)
  end.

Fixpoint zeros (n : nat) : string :=
  match n with O => "" | S n' => "0" ++ zeros n' end.

(** [x.toFixed(fd)]: the decimal with [fd] fraction digits closest to [x],
    the larger one on a tie. *)
Definition toFixed (fd : nat) (x : number) : string :=
  match x with
  | Fin q =>
      if Qle_bool (inject_Z (10 ^ 21)) (Qabs q) then Number_toString x
      else
        let scale := (10 ^ Z.of_nat fd)%Z in
        let n := Qfloor (Qabs q * inject_Z scale + (1 # 2)) in
        let fp := pretty (n mod scale)%Z in
        (if Qltb q 0 then "-" else "")
        ++ pretty (n / scale)%Z
        ++ match fd with
           | O => ""
           | _ => "." ++ zeros (fd - String.length fp) ++ fp
           end
  | _ => Number_toString x
  end.

(** *** Values *)

Inductive value :=
| VUndef
| VNull
| VBool (b : bool)
| VNum (n : number)
| VStr (s : string)
| VArr (items : list value)
| VObj (props : gmap string value).

Abbreviation obj := (gmap string value).

Definition num (z : Z) : value := VNum (of_Z z).

(** Property read on an object: an absent property is [undefined]. *)
Definition getp (o : obj) (k : string) : value := default VUndef (o !! k).

(** An object literal. *)
Definition object (fields : list (string * value)) : value :=
  VObj (list_to_map fields).

(** Property read on the value of an object literal or of a reply. *)
Definition prop (k : string) (v : value) : value :=
  match v with
  | VObj o => getp o k
  | _ => VUndef
  end.

Definition typeof (v : value) : string :=
  match v with
  | VUndef => "undefined"
  | VNull | VArr _ | VObj _ => "object"
  | VBool _ => "boolean"
  | VNum _ => "number"
  | VStr _ => "string"
  end.

Definition truthy (v : value) : bool :=
  match v with
  | VUndef | VNull => false
  | VBool b => b
  | VNum NaN => false
  | VNum (Fin q) => negb (Qeq_bool q 0)
  | VNum _ => true
  | VStr s => negb (String.eqb s "")
  | VArr _ | VObj _ => true
  end.

(** [v == null]. *)
Definition nullish (v : value) : bool :=
  match v with VUndef | VNull => true | _ => false end.

(** [a || b] and [a ?? b]. *)
Definition or_else (a b : value) : value := if truthy a then a else b.
Definition coalesce (a b : value) : value := if nullish a then b else a.

(** [String(v)]. *)
Fixpoint ToString (v : value) : string :=
  match v with
  | VUndef => "undefined"
  | VNull => "null"
  | VBool true => "true"
  | VBool false => "false"
  | VNum n => Number_toString n
  | VStr s => s
  | VArr items =>
      join "," (map (fun x => if nullish x then "" else ToString x) items)
  | VObj _ => "[object Object]"
  end.

(** [Number(v)], also the coercion applied by the arithmetic operators. *)
Definition ToNumber (v : value) : number :=
  match v with
  | VUndef => NaN
  | VNull => of_Z 0
  | VBool true => of_Z 1
  | VBool false => of_Z 0
  | VNum n => n
  | VStr s => Number_of_string s
  | VArr _ | VObj _ => Number_of_string (ToString v)
  end.

(** [a < b] and [a > b] on values: two strings compare by code units,
    anything else numerically. *)
Definition ToPrimitive (v : value) : value :=
  match v with
  | VArr _ | VObj _ => VStr (ToString v)
  | _ => v
  end.

Definition js_lt (a b : value) : bool :=
  match ToPrimitive a, ToPrimitive b with
  | VStr s, VStr t => String.ltb s t
  | pa, pb => num_ltb (ToNumber pa) (ToNumber pb)
  end.

Definition js_gt (a b : value) : bool := js_lt b a.

Definition js_ge (a b : value) : bool :=
  match ToPrimitive a, ToPrimitive b with
  | VStr s, VStr t => negb (String.ltb s t)
  | pa, pb => num_geb (ToNumber pa) (ToNumber pb)
  end.

(** [a === b]; arrays and objects of parsed JSON are distinct references. *)
Definition strict_eq (a b : value) : bool :=
  match a, b with
  | VUndef, VUndef | VNull, VNull => true
  | VBool x, VBool y => Bool.eqb x y
  | VNum x, VNum y => num_eqb x y
  | VStr x, VStr y => String.eqb x y
  | _, _ => false
  end.

(** [v === s] for a string constant [s]. *)
Definition is_string (s : string) (v : value) : bool :=
  match v with VStr t => String.eqb t s | _ => false end.

(** [typeof v === "string" && v.trim().length > 0]. *)
Definition isNonEmptyString (v : value) : bool :=
  match v with
  | VStr s => (0 <? String.length (trim s))%nat
  | _ => false
  end.

(** *** Completions *)

Inductive completion (A : Type) :=
| Normal (a : A)
| Throw (error : string).
Arguments Normal {A} a.
Arguments Throw {A} error.

#[global] Instance completion_ret : MRet completion := fun A a => Normal a.
#[global] Instance completion_bind : MBind completion := fun A B k c =>
  match c with
  | Normal a => k a
  | Throw e => Throw e
  end.

(** [v.k] on an arbitrary value: reading a property of [undefined] or
    [null] raises. *)
Definition member (v : value) (k : string) : completion value :=
  match v with
  | VUndef | VNull => Throw "TypeError: cannot read properties of undefined or null"
  | VObj o => Normal (getp o k)
  | _ => Normal VUndef
  end.

End JS.

Import JS.

(* ===================================================================== *)
(** ** The Base-only provider (three jobs, two resources) *)
(* ===================================================================== *)

Module Base.

Definition AGENT_VERSION : string := "1.0.0".
Definition SUPPORTED_CHAINS : list string := ["base"; "base-sepolia"].

(** *** The world outside the provider *)

(** Body of a resource reply, [{ok, message, data}]. *)
Record Body (D : Type) := {
  body_ok : bool;
  message : value;
  data : option D
}.
Arguments body_ok {D} _.
Arguments message {D} _.
Arguments data {D} _.

(** What [safeFetchJson] returns: [{ok, status, json, error}]. *)
Record Reply (D : Type) := {
  r_ok : bool;
  r_status : Z;
  r_json : option (Body D);
  r_error : option string
}.
Arguments r_ok {D} _.
Arguments r_status {D} _.
Arguments r_json {D} _.
Arguments r_error {D} _.

(** Data of the venue-depth resource: [{venues: [...], best_by_depth}]. *)
Record DepthData := {
  venues : list obj;
  best_by_depth : option obj
}.

Record World := {
  ACP_CHAIN : string;
  nowIso : string;
  (** GET /resources/base-gas-profile, with the optional [eth_usd]. *)
  gas_profile : option string -> Reply obj;
  (** GET /resources/base-venue-depth?asset_in=&asset_out=&notional_usd= *)
  venue_depth : string -> string -> string -> Reply DepthData
}.

(** *** Utility helpers *)

Definition isObj (v : value) : bool :=
  match v with VObj _ => true | _ => false end.

Definition oneOf (v : string) (allowed : list string) : bool := includes allowed v.

Definition pushErr (errors : list string) (field message : string) : list string :=
  (errors ++ [(field ++ ": " ++ message)%string])%list.

(** [if (failed) pushErr(errors, field, message)]. *)
Definition check (failed : bool) (field message : string) (errors : list string)
  : list string :=
  if failed then pushErr errors field message else errors.

Definition toNumber (v : value) : number :=
  match v with
  | VNum n => if isFinite n then n else NaN
  | VStr s =>
      let cleaned := remove_commas (trim s) in
      if String.eqb cleaned "" then NaN
      else
        let n := Number_of_string cleaned in
        if isFinite n then n else NaN
  | _ => NaN
  end.

Definition toInt (v : value) : number :=
  let n := toNumber v in
  if isFinite n then Math_trunc n else NaN.

Definition clamp (n a b : number) : number := Math_max a (Math_min b n).

(** *** Evidence *)

Inductive EvidenceStatus :=
| freshness_seconds (s : Z)
| error (e : value).

Record Evidence := {
  source : string;
  outcome : EvidenceStatus
}.

Definition evidence_value (e : Evidence) : value :=
  match outcome e with
  | freshness_seconds s =>
      object [("source", VStr (source e)); ("freshness_seconds", num s)]
  | error msg =>
      object [("source", VStr (source e)); ("error", msg)]
  end.

Definition confidenceFromEvidence (evidence : option (list Evidence)) : string :=
  let src : gset string := list_to_set (map source (default [] evidence)) in
  let hasGas := bool_decide ("resources/base-gas-profile" ∈ src) in
  let hasDepth := bool_decide ("resources/base-venue-depth" ∈ src) in
  if hasGas && hasDepth then "high"
  else if hasGas || hasDepth then "medium"
  else "low".

(** *** Resource fetch functions *)

Record Fetched (D : Type) := {
  f_ok : bool;
  f_evidence : list Evidence;
  f_data : option D
}.
Arguments f_ok {D} _.
Arguments f_evidence {D} _.
Arguments f_data {D} _.

(** [r.error || r.json?.message || "unavailable"]. *)
Definition failure_reason {D} (r : Reply D) : value :=
  or_else
    (or_else (from_option VStr VUndef (r_error r))
             (from_option message VUndef (r_json r)))
    (VStr "unavailable").

Definition fetched_from {D} (label : string) (r : Reply D) : Fetched D :=
  if negb (r_ok r) || negb (from_option body_ok false (r_json r)) then
    {| f_ok := false;
       f_evidence := [ {| source := label; outcome := error (failure_reason r) |} ];
       f_data := None |}
  else
    {| f_ok := true;
       f_evidence := [ {| source := label; outcome := freshness_seconds 60 |} ];
       f_data := r_json r ≫= data |}.

Definition fetchBaseGasProfile (w : World) (ethUsdOpt : option number) : Fetched obj :=
  let eth_usd :=
    match ethUsdOpt with
    | Some n => if isFinite n then Some (Number_toString n) else None
    | None => None
    end in
  fetched_from "resources/base-gas-profile" (gas_profile w eth_usd).

Definition fetchBaseVenueDepth (w : World) (assetIn assetOut notionalUsd : value)
  : Fetched DepthData :=
  fetched_from "resources/base-venue-depth"
    (venue_depth w (ToString assetIn) (ToString assetOut) (ToString notionalUsd)).

(** *** Validations *)

Record Validation := {
  ok : bool;
  errors : list string
}.

Definition finish (errors : list string) : Validation :=
  {| ok := (length errors =? 0)%nat; errors := errors |}.

Definition validateBaseChain (req : obj) (errors : list string) : obj * list string :=
  if negb (isNonEmptyString (getp req "chain")) then
    (req, pushErr errors "chain" "must be a non-empty string")
  else
    let c := toLowerCase (ToString (getp req "chain")) in
    let errors :=
      check (negb (includes SUPPORTED_CHAINS c))
        "chain" ("must be one of: " ++ join ", " SUPPORTED_CHAINS) errors in
    (<["chain" := VStr c]> req, errors).

(** [!Number.isFinite(n) || n < lo || n > hi]. *)
Definition out_of_range (n lo hi : number) : bool :=
  negb (isFinite n) || num_ltb n lo || num_gtb n hi.

Definition validatePreTradeRiskPack (req : obj) : obj * Validation :=
  let errors := [] in
  let errors :=
    check (negb (isNonEmptyString (getp req "client_agent_id")))
      "client_agent_id" "must be a non-empty string" errors in
  let '(req, errors) := validateBaseChain req errors in
  let errors :=
    check (negb (isNonEmptyString (getp req "asset_in")))
      "asset_in" "must be token symbol or address" errors in
  let errors :=
    check (negb (isNonEmptyString (getp req "asset_out")))
      "asset_out" "must be token symbol or address" errors in
  let side := toLowerCase (ToString (or_else (getp req "side") (VStr ""))) in
  let errors :=
    check (negb (oneOf side ["buy"; "sell"]))
      "side" "must be 'buy' or 'sell'" errors in
  let req := <["side" := VStr side]> req in
  let notional := toNumber (getp req "notional_value_usd") in
  let errors :=
    check (negb (isFinite notional) || num_leb notional (of_Z 0))
      "notional_value_usd" "must be a positive number (numeric string allowed)"
      errors in
  let req := <["notional_value_usd" := VNum notional]> req in
  let venue :=
    toLowerCase (ToString (or_else (getp req "execution_venue") (VStr "unknown"))) in
  let allowedVenues := ["aerodrome"; "uniswap_v3"; "uniswap_v2"; "unknown"] in
  let errors :=
    check (negb (includes allowedVenues venue))
      "execution_venue" ("must be one of: " ++ join ", " allowedVenues) errors in
  let req := <["execution_venue" := VStr venue]> req in
  let slip := toInt (getp req "max_slippage_bps") in
  let errors :=
    check (out_of_range slip (of_Z 1) (of_Z 2000))
      "max_slippage_bps" "must be integer 1..2000 (e.g., 50 = 0.50%)" errors in
  let req := <["max_slippage_bps" := VNum slip]> req in
  let urgency := toLowerCase (ToString (or_else (getp req "urgency") (VStr "normal"))) in
  let errors :=
    check (negb (oneOf urgency ["low"; "normal"; "high"]))
      "urgency" "must be low/normal/high" errors in
  let req := <["urgency" := VStr urgency]> req in
  let lev := toNumber (coalesce (getp req "leverage") (num 1)) in
  let errors :=
    check (negb (isFinite lev) || num_ltb lev (of_Z 1))
      "leverage" "must be >= 1 (1 for spot)" errors in
  let req := <["leverage" := VNum lev]> req in
  let horizon :=
    if nullish (getp req "time_horizon_minutes") then None
    else Some (toInt (getp req "time_horizon_minutes")) in
  let errors :=
    match horizon with
    | Some h =>
        check (out_of_range h (of_Z 1) (of_Z 10080))
          "time_horizon_minutes" "must be integer 1..10080 (optional)" errors
    | None => errors
    end in
  let req :=
    match horizon with
    | Some h => <["time_horizon_minutes" := VNum h]> req
    | None => req
    end in
  (req, finish errors).

Definition validateExecutionQuoteAndRoute (req : obj) : obj * Validation :=
  let errors := [] in
  let errors :=
    check (negb (isNonEmptyString (getp req "client_agent_id")))
      "client_agent_id" "must be a non-empty string" errors in
  let '(req, errors) := validateBaseChain req errors in
  let errors :=
    check (negb (isNonEmptyString (getp req "asset_in")))
      "asset_in" "must be token symbol or address" errors in
  let errors :=
    check (negb (isNonEmptyString (getp req "asset_out")))
      "asset_out" "must be token symbol or address" errors in
  let notional := toNumber (getp req "notional_value_usd") in
  let errors :=
    check (negb (isFinite notional) || num_leb notional (of_Z 0))
      "notional_value_usd" "must be a positive number (numeric string allowed)"
      errors in
  let req := <["notional_value_usd" := VNum notional]> req in
  let slip := toInt (getp req "max_slippage_bps") in
  let errors :=
    check (out_of_range slip (of_Z 1) (of_Z 2000))
      "max_slippage_bps" "must be integer 1..2000" errors in
  let req := <["max_slippage_bps" := VNum slip]> req in
  let '(req, errors) :=
    if negb (nullish (getp req "allowed_venues")) then
      match getp req "allowed_venues" with
      | VArr [] =>
          (req, pushErr errors "allowed_venues" "must be a non-empty array if provided")
      | VArr items =>
          let lower := map (fun v => toLowerCase (ToString v)) items in
          let allowed := ["aerodrome"; "uniswap_v3"; "uniswap_v2"] in
          let bad := List.filter (fun v => negb (includes allowed v)) lower in
          let errors :=
            check (0 <? length bad)%nat
              "allowed_venues" ("unsupported: " ++ join ", " bad) errors in
          (<["allowed_venues" := VArr (map VStr lower)]> req, errors)
      | _ =>
          (req, pushErr errors "allowed_venues" "must be a non-empty array if provided")
      end
    else
      (<["allowed_venues" := VArr [VStr "uniswap_v3"; VStr "aerodrome"]]> req, errors) in
  let req :=
    <["prefer_stable_routes" := VBool (truthy (getp req "prefer_stable_routes"))]> req in
  let deadline :=
    if nullish (getp req "deadline_seconds") then of_Z 180
    else toInt (getp req "deadline_seconds") in
  let errors :=
    check (out_of_range deadline (of_Z 60) (of_Z 3600))
      "deadline_seconds" "must be integer 60..3600 (default 180)" errors in
  let req := <["deadline_seconds" := VNum deadline]> req in
  (req, finish errors).

Definition validateMarketIntel (req : obj) : obj * Validation :=
  let errors := [] in
  let errors :=
    check (negb (isNonEmptyString (getp req "client_agent_id")))
      "client_agent_id" "must be a non-empty string" errors in
  let '(req, errors) := validateBaseChain req errors in
  let lb := toInt (getp req "lookback_minutes") in
  let errors :=
    check (out_of_range lb (of_Z 5) (of_Z 43200))
      "lookback_minutes" "must be integer 5..43200" errors in
  let req := <["lookback_minutes" := VNum lb]> req in
  let minN :=
    if negb (nullish (getp req "minimum_notional_usd")) then
      toNumber (getp req "minimum_notional_usd")
    else toNumber (getp req "min_notional_usd") in
  let errors :=
    check (negb (isFinite minN) || num_leb minN (of_Z 0))
      "minimum_notional_usd" "must be a positive number (numeric string allowed)"
      errors in
  let req := <["minimum_notional_usd" := VNum minN]> req in
  let '(req, errors) :=
    if negb (nullish (getp req "focus_assets")) then
      match getp req "focus_assets" with
      | VArr items =>
          let kept :=
            List.filter (fun x => truthy (VStr x))
              (map (fun x => trim (ToString x)) items) in
          (<["focus_assets" := VArr (map VStr kept)]> req, errors)
      | _ => (req, pushErr errors "focus_assets" "must be array(string) if provided")
      end
    else (<["focus_assets" := VArr []]> req, errors) in
  let sev := toLowerCase (ToString (or_else (getp req "severity_floor") (VStr "info"))) in
  let allowed := ["info"; "low"; "medium"; "high"; "critical"] in
  let errors :=
    check (negb (includes allowed sev))
      "severity_floor" ("must be one of: " ++ join ", " allowed) errors in
  let req := <["severity_floor" := VStr sev]> req in
  (req, finish errors).

(** *** Deliverable builders *)

Definition strings (l : list string) : value := VArr (map VStr l).

Definition invalidDeliverable (w : World) (jobName : string) (validation : Validation)
  : value :=
  object [
    ("job_name", VStr jobName);
    ("agent_version", VStr AGENT_VERSION);
    ("chain", VStr (ACP_CHAIN w));
    ("validation_passed", VBool false);
    ("validation_errors", strings (errors validation));
    ("decision", VStr "REJECT");
    ("risk_score", num 0);
    ("recommended_size_factor", num 0);
    ("confidence_level", VStr "low");
    ("key_risks", strings ["Input validation failed; no analysis performed."]);
    ("evidence", VArr []);
    ("assumptions", strings ["No analysis performed due to invalid input."]);
    ("timestamp_utc", VStr (nowIso w))
  ].

(** [o?.k] for an object that may be [null]. *)
Definition opt_prop (o : option obj) (k : string) : value :=
  from_option (fun m => getp m k) VUndef o.

Definition or_null (o : option obj) : value := from_option VObj VNull o.

(** The conservative slippage estimate used when no venue depth is known. *)
Definition fallbackSlipBps (req : obj) : number :=
  clamp (Math_round (num_mul (num_div (ToNumber (getp req "notional_value_usd"))
                                      (of_Z 50000)) (of_Z 80)))
        (of_Z 15) (of_Z 180).

(** [Math.min(req.max_slippage_bps, Math.max(20, Math.round(est * 0.85)))]. *)
Definition recommendedMaxSlip (req : obj) (est : value) : number :=
  Math_min (ToNumber (getp req "max_slippage_bps"))
           (Math_max (of_Z 20) (Math_round (num_mul (ToNumber est) (Fin (17 # 20))))).

Definition when (b : bool) (s : string) : list string := if b then [s] else [].

(** Score components (transparent heuristic). *)
Definition sizeScore (req : obj) : number :=
  clamp (Math_round (num_mul (num_div (ToNumber (getp req "notional_value_usd"))
                                      (of_Z 100000)) (of_Z 25)))
        (of_Z 0) (of_Z 35).

Definition slipScore (estSlipBps : value) : number :=
  clamp (Math_round (num_mul (num_div (ToNumber estSlipBps) (of_Z 100)) (of_Z 40)))
        (of_Z 5) (of_Z 45).

Definition gasScore (congestion : value) : number :=
  if is_string "high" congestion then of_Z 18
  else if is_string "elevated" congestion then of_Z 10
  else of_Z 6.

Definition levScore (req : obj) : number :=
  if js_gt (getp req "leverage") (num 1) then
    clamp (Math_round (num_mul (num_sub (ToNumber (getp req "leverage")) (of_Z 1))
                               (of_Z 20)))
          (of_Z 0) (of_Z 30)
  else of_Z 0.

Definition riskScore (req : obj) (estSlipBps congestion : value) : number :=
  clamp (num_add (num_add (num_add (sizeScore req) (slipScore estSlipBps))
                          (gasScore congestion))
                 (levScore req))
        (of_Z 0) (of_Z 100).

(** Decision logic: the decision and the size factor. *)
Definition decide (req : obj) (estSlipBps : value) (riskScore : number)
  : string * number :=
  let decision := "APPROVE" in
  let sizeFactor := of_Z 1 in
  let '(decision, sizeFactor) :=
    if js_gt estSlipBps (getp req "max_slippage_bps") then
      ("SIZE_DOWN",
       clamp (num_div (ToNumber (getp req "max_slippage_bps")) (ToNumber estSlipBps))
             (Fin (1 # 5)) (Fin (4 # 5)))
    else (decision, sizeFactor) in
  let '(decision, sizeFactor) :=
    if num_geb riskScore (of_Z 80) then ("REJECT", of_Z 0)
    else (decision, sizeFactor) in
  (decision, sizeFactor).

Definition buildPreTradeRiskPackDeliverable (w : World) (req : obj)
    (validation : Validation) : value :=
  if negb (ok validation) then invalidDeliverable w "pre_trade_risk_pack" validation
  else
  let timestamp := nowIso w in
  let ethUsd := toNumber (getp req "eth_usd") in
  let gasR := fetchBaseGasProfile w (if isFinite ethUsd then Some ethUsd else None) in
  let evidence := f_evidence gasR in
  let depthR :=
    fetchBaseVenueDepth w (getp req "asset_in") (getp req "asset_out")
      (getp req "notional_value_usd") in
  let evidence := (evidence ++ f_evidence depthR)%list in
  let confidence := confidenceFromEvidence (Some evidence) in
  (* Venue depth response *)
  let venues := from_option venues [] (f_data depthR) in
  let best := f_data depthR ≫= best_by_depth in
  let assumptions :=
    when (negb (truthy (or_null best)))
      "No venue depth returned from subgraphs. Falling back to conservative estimates." in
  let estSlipBps :=
    coalesce (opt_prop best "estimated_slippage_bps") (VNum (fallbackSlipBps req)) in
  let depthUsd := coalesce (opt_prop best "depth_usd") (num 300000) in
  (* Gas analysis *)
  let gas := default ∅ (f_data gasR) in
  let congestion := or_else (getp gas "congestion_level") (VStr "unknown") in
  let suggestedMaxFeeWei :=
    if negb (nullish (getp gas "suggested_max_fee_gwei")) then
      num_mul (ToNumber (getp gas "suggested_max_fee_gwei")) (of_Z 1000000000)
    else of_Z 2500000000 in
  (* Score components and decision logic *)
  let riskScore := riskScore req estSlipBps congestion in
  let verdict := decide req estSlipBps riskScore in
  let decision := verdict.1 in
  let sizeFactor := verdict.2 in
  (* Split suggestion *)
  let splitCount :=
    if js_gt (getp req "notional_value_usd") (num 75000) then 3%Z
    else if js_gt (getp req "notional_value_usd") (num 30000) then 2%Z
    else 1%Z in
  let recommendedMaxSlip := recommendedMaxSlip req estSlipBps in
  let keyRisks :=
    (when (js_ge estSlipBps (num 60))
       "Slippage increases materially at this size; split execution recommended."
     ++ when (is_string "elevated" congestion || is_string "high" congestion)
       "Gas regime elevated; prefer batching or waiting for calmer blocks."
     ++ when (js_gt (getp req "leverage") (num 1))
       "Leverage amplifies liquidation and execution sensitivity."
     ++ when (negb (truthy (or_null best)))
       "Venue depth data unavailable; results rely on conservative fallback.")%list in
  let differs_from_best (v : value) := negb (strict_eq v (opt_prop best "venue")) in
  let fallbackVenues :=
    List.filter (fun v => truthy v && differs_from_best v)
      (map (fun v => getp v "venue") venues) in
  object [
    ("job_name", VStr "pre_trade_risk_pack");
    ("agent_version", VStr AGENT_VERSION);
    ("chain", getp req "chain");
    ("validation_passed", VBool true);
    ("validation_errors", VArr []);
    ("decision", VStr decision);
    ("risk_score", VNum riskScore);
    ("recommended_size_factor", VNum (Number_of_string (toFixed 2 sizeFactor)));
    ("confidence_level", VStr confidence);
    ("key_risks", strings keyRisks);
    ("execution_plan", object [
      ("recommended_venue",
       or_else (or_else (opt_prop best "venue") (getp req "execution_venue"))
               (VStr "unknown"));
      ("fallback_venues",
       VArr (if (0 <? length fallbackVenues)%nat then fallbackVenues
             else List.filter differs_from_best [VStr "uniswap_v3"; VStr "aerodrome"]));
      ("recommended_split_count", num splitCount);
      ("recommended_max_slippage_bps", VNum recommendedMaxSlip);
      ("deadline_seconds", num 180);
      ("notes",
       VStr (if String.eqb decision "APPROVE" then
               "Proceed with standard protection parameters."
             else if String.eqb decision "SIZE_DOWN" then
               "Reduce size and/or split into clips; re-check depth if market moves."
             else
               "Do not execute under current conditions without explicit risk sign-off."))
    ]);
    ("liquidity_analysis", object [
      ("pair",
       VStr (toUpperCase (ToString (getp req "asset_in")) ++ "/"
             ++ toUpperCase (ToString (getp req "asset_out"))));
      ("notional_usd", getp req "notional_value_usd");
      ("best_by_depth", or_null best);
      ("venues_considered", VArr (map VObj venues));
      ("estimated_liquidity_depth_usd", depthUsd);
      ("estimated_slippage_bps_at_size", estSlipBps);
      ("price_impact_estimate_bps",
       VNum (clamp (Math_round (num_mul (ToNumber estSlipBps) (Fin (7 # 10))))
                   (of_Z 5) (of_Z 250)))
    ]);
    ("gas_analysis", object [
      ("congestion_level", congestion);
      ("suggested_max_fee_gwei", coalesce (getp gas "suggested_max_fee_gwei") VNull);
      ("median_priority_fee_gwei", coalesce (getp gas "median_priority_fee_gwei") VNull);
      ("base_fee_gwei", coalesce (getp gas "base_fee_gwei") VNull);
      ("estimated_gas_units", num 180000);
      ("estimated_gas_price_wei", VNum (Math_round suggestedMaxFeeWei));
      ("cost_estimates", or_else (getp gas "cost_estimates") VNull)
    ]);
    ("scenario_analysis", VArr [
      object [
        ("scenario", VStr "gas_spike_30pct");
        ("impact",
         VStr "Higher inclusion cost; can reduce net edge on small-margin trades.");
        ("recommendation",
         VStr (if is_string "high" (getp req "urgency")
               then "Proceed but accept higher cost." else "Wait or split order."))
      ];
      object [
        ("scenario", VStr "liquidity_drop_20pct");
        ("impact", VStr "Slippage can exceed cap at full size.");
        ("recommendation",
         VStr "Increase split count and re-run base_venue_depth before each clip.")
      ];
      object [
        ("scenario", VStr "fast_price_move");
        ("impact", VStr "MinOut may be hit; trade could revert under tight slippage.");
        ("recommendation", VStr "Split execution and re-quote each clip.")
      ]
    ]);
    ("evidence", VArr (map evidence_value evidence));
    ("assumptions",
     strings (if (0 <? length assumptions)%nat then assumptions
              else ["No additional assumptions."]));
    ("timestamp_utc", VStr timestamp)
  ].

(** Stable sort by decreasing [Number(v.depth_usd || 0)], as
    [.sort((a, b) => Number(b.depth_usd || 0) - Number(a.depth_usd || 0))]. *)
Definition depth_of (v : obj) : number :=
  ToNumber (or_else (getp v "depth_usd") (num 0)).

Definition sorts_after (a b : obj) : bool :=
  num_gtb (num_sub (depth_of b) (depth_of a)) (of_Z 0).

Fixpoint insert_by_depth (a : obj) (l : list obj) : list obj :=
  match l with
  | [] => [a]
  | b :: l' => if sorts_after a b then b :: insert_by_depth a l' else a :: l
  end.

Definition sort_by_depth (l : list obj) : list obj := foldr insert_by_depth [] l.

(** [(v || []).map(f)]: only an array has [map]. *)
Definition array_items (v : value) : completion (list value) :=
  match or_else v (VArr []) with
  | VArr items => Normal items
  | _ => Throw "TypeError: map is not a function"
  end.

(** [for (const item of v || [])]: arrays and strings are iterable. *)
Definition iterate (v : value) : completion (list value) :=
  match or_else v (VArr []) with
  | VArr items => Normal items
  | VStr s => Normal (map (fun c => VStr (String c "")) (chars s))
  | _ => Throw "TypeError: object is not iterable"
  end.

Definition buildExecutionQuoteAndRouteDeliverable (w : World) (req : obj)
    (validation : Validation) : completion value :=
  if negb (ok validation) then
    mret (invalidDeliverable w "execution_quote_and_route" validation)
  else
  let timestamp := nowIso w in
  let depthR :=
    fetchBaseVenueDepth w (getp req "asset_in") (getp req "asset_out")
      (getp req "notional_value_usd") in
  let evidence := f_evidence depthR in
  let venues := from_option venues [] (f_data depthR) in
  let best := f_data depthR ≫= best_by_depth in
  (* If caller restricts venues, pick best among allowed *)
  listed ← array_items (getp req "allowed_venues");
  let allowed : gset string :=
    list_to_set (map (fun v => toLowerCase (ToString v)) listed) in
  let ranked :=
    sort_by_depth
      (List.filter
         (fun v => (size allowed =? 0)%nat
                   || bool_decide (toLowerCase (ToString (getp v "venue")) ∈ allowed))
         venues) in
  let chosen := match head ranked with Some v => Some v | None => best end in
  let fallback :=
    List.filter truthy (map (fun v => getp v "venue") (take 3 (drop 1 ranked))) in
  let estSlip :=
    coalesce (opt_prop chosen "estimated_slippage_bps") (VNum (fallbackSlipBps req)) in
  let impact :=
    clamp (Math_round (num_mul (ToNumber estSlip) (Fin (7 # 10)))) (of_Z 5) (of_Z 250) in
  let warnings :=
    (when (negb (truthy (or_null chosen)))
       "No venue depth returned; using fallback estimates."
     ++ when (js_gt estSlip (getp req "max_slippage_bps"))
       "Estimated slippage may exceed cap; reduce size or split.")%list in
  let split :=
    if js_gt (getp req "notional_value_usd") (num 60000) then 3%Z
    else if js_gt (getp req "notional_value_usd") (num 25000) then 2%Z
    else 1%Z in
  let recommendedMaxSlip := recommendedMaxSlip req estSlip in
  let differs_from_chosen (v : value) := negb (strict_eq v (opt_prop chosen "venue")) in
  mret (object [
    ("job_name", VStr "execution_quote_and_route");
    ("agent_version", VStr AGENT_VERSION);
    ("chain", getp req "chain");
    ("validation_passed", VBool true);
    ("validation_errors", VArr []);
    ("best_venue", or_else (opt_prop chosen "venue") (VStr "unknown"));
    ("fallback_venues",
     VArr (if (0 <? length fallback)%nat then fallback
           else List.filter differs_from_chosen [VStr "aerodrome"; VStr "uniswap_v3"]));
    ("estimated_slippage_bps", VNum (Math_round (ToNumber estSlip)));
    ("estimated_price_impact_bps", VNum impact);
    ("recommended_max_slippage_bps", VNum recommendedMaxSlip);
    ("recommended_split_count", num split);
    ("safety_parameters", object [
      ("deadline_seconds", getp req "deadline_seconds");
      ("min_out_strategy",
       VStr "minOut = quote * (1 - recommended_max_slippage_bps/10000)");
      ("retry_policy",
       VStr "If revert due to slippage, reduce size by 20% and retry once.")
    ]);
    ("warnings", strings warnings);
    ("evidence", VArr (map evidence_value evidence));
    ("timestamp_utc", VStr timestamp)
  ]).

Definition buildMarketIntelDeliverable (w : World) (req : obj)
    (validation : Validation) : completion value :=
  if negb (ok validation) then
    mret (invalidDeliverable w "market_intelligence_feed" validation)
  else
  let timestamp := nowIso w in
  let gasR := fetchBaseGasProfile w None in
  let evidence := f_evidence gasR in
  let gas := default ∅ (f_data gasR) in
  let congestion := or_else (getp gas "congestion_level") (VStr "unknown") in
  let volatility :=
    coalesce (prop "volatility_ratio" (getp gas "variance_hint")) (num 0) in
  let alerts :=
    if js_gt volatility (VNum (Fin (1 # 4))) then
      [ object [
          ("id", VStr "gas_variance");
          ("severity",
           VStr (if js_gt volatility (VNum (Fin (1 # 2))) then "high" else "medium"));
          ("title", VStr "Gas variance elevated vs recent median");
          ("description",
           VStr "Fee variance is elevated; execution cost and inclusion may fluctuate.");
          ("recommended_action",
           VStr (if is_string "high" (getp req "severity_floor")
                    || is_string "critical" (getp req "severity_floor")
                 then "If urgent, proceed with higher max fee; otherwise split or wait."
                 else "Wait or split execution to reduce revert/cost risk."))
        ] ]
    else [] in
  items ← iterate (getp req "focus_assets");
  let watchlist_summary : obj :=
    fold_left
      (fun summary item =>
         <[ToString item :=
             object [("note", VStr "normal"); ("risk_flag", VBool false)]]> summary)
      items ∅ in
  let regime :=
    object [
      ("gas_regime", congestion);
      ("liquidity_regime", VStr "venue-specific");
      ("risk_note",
       VStr (if is_string "high" congestion then
               "Network stress detected; reduce clip size, widen timing window, and be careful with tight slippage."
             else if is_string "elevated" congestion then
               "Moderate congestion; standard execution with mild caution."
             else
               "No broad network stress detected; normal execution recommended."))
    ] in
  mret (object [
    ("job_name", VStr "market_intelligence_feed");
    ("agent_version", VStr AGENT_VERSION);
    ("chain", getp req "chain");
    ("validation_passed", VBool true);
    ("validation_errors", VArr []);
    ("regime", regime);
    ("alerts", VArr alerts);
    ("stats", object [
      ("lookback_minutes", getp req "lookback_minutes");
      ("minimum_notional_usd", getp req "minimum_notional_usd");
      ("alerts_count", num (Z.of_nat (length alerts)));
      ("data_freshness_seconds", num 60);
      ("coverage", strings ["resources/base-gas-profile"])
    ]);
    ("watchlist_summary", VObj watchlist_summary);
    ("evidence", VArr (map evidence_value evidence));
    ("timestamp_utc", VStr timestamp)
  ]).

(** *** Job dispatcher *)

(** The object a validator works on.  A validator assigns to properties of
    its argument, which raises on a primitive; an array carries none of
    the named fields and is represented by its (empty) named properties. *)
Definition writable (requirement : value) : completion obj :=
  match requirement with
  | VObj o => Normal o
  | VArr _ => Normal ∅
  | _ => Throw "TypeError: cannot create property on a primitive value"
  end.

(** [validate(requirement || {})] followed by [build(requirement || {}, val)]:
    a missing requirement makes the two arguments distinct fresh objects. *)
Definition dispatch (requirement : value)
    (validate : obj -> obj * Validation)
    (build : obj -> Validation -> completion value) : completion value :=
  req ← writable (or_else requirement (VObj ∅));
  let '(req', val) := validate req in
  build (if truthy requirement then req' else ∅) val.

Definition buildDeliverableForJob (w : World) (jobName requirement : value)
  : completion value :=
  if is_string "pre_trade_risk_pack" jobName then
    dispatch requirement validatePreTradeRiskPack
      (fun req val => mret (buildPreTradeRiskPackDeliverable w req val))
  else if is_string "execution_quote_and_route" jobName then
    dispatch requirement validateExecutionQuoteAndRoute
      (buildExecutionQuoteAndRouteDeliverable w)
  else if is_string "market_intelligence_feed" jobName then
    dispatch requirement validateMarketIntel (buildMarketIntelDeliverable w)
  else
    mret (object [
      ("job_name", or_else jobName (VStr "unknown"));
      ("agent_version", VStr AGENT_VERSION);
      ("chain", VStr (ACP_CHAIN w));
      ("validation_passed", VBool false);
      ("validation_errors", strings ["Unknown or unsupported job_name."]);
      ("error", VBool true);
      ("message",
       VStr "Unsupported job. Use: pre_trade_risk_pack, execution_quote_and_route, market_intelligence_feed");
      ("timestamp_utc", VStr (nowIso w))
    ]).

(** *** Phase dispatcher *)

Record CachedJob := {
  jobName : value;
  requirement : value
}.

Record Memo := {
  status : string;
  nextPhase : Z;
  structuredContent : value
}.

Record Job := {
  id : Z;
  input : value
}.

Inductive Action :=
| NoAction
| Respond (accept : bool) (reason : string)
| Deliver (deliverable : value).

(** [jobCache.get(job.id) || {}] and the two defaults read from it. *)
Definition cached_jobName (jobCache : gmap Z CachedJob) (job_id : Z) : value :=
  or_else (from_option jobName VUndef (jobCache !! job_id)) (VStr "unknown").

Definition cached_requirement (jobCache : gmap Z CachedJob) (job_id : Z) : value :=
  or_else (from_option requirement VUndef (jobCache !! job_id)) (VObj ∅).

(** [if (!requirement.chain) requirement.chain = ACP_CHAIN]. *)
Definition defaultChain (w : World) (requirement : value) : completion value :=
  chain ← member requirement "chain";
  if truthy chain then mret requirement
  else
    req ← writable requirement;
    mret (VObj (<["chain" := VStr (ACP_CHAIN w)]> req)).

Definition onNewTask (w : World) (jobCache : gmap Z CachedJob) (job : Job)
    (memoToSign : option Memo) : completion (gmap Z CachedJob * Action) :=
  match memoToSign with
  | None => mret (jobCache, NoAction)
  | Some memo =>
      if negb (String.eqb (status memo) "PENDING") then mret (jobCache, NoAction)
      else if (nextPhase memo =? 1)%Z then
        (* Phase 0 -> 1: accept and cache requirement *)
        let '(name, requirement) :=
          if isObj (structuredContent memo) then
            (or_else (prop "name" (structuredContent memo)) (VStr "unknown"),
             or_else (prop "requirement" (structuredContent memo)) (VObj ∅))
          else if isObj (input job) then
            (or_else (prop "name" (input job)) (VStr "unknown"),
             or_else (prop "requirement" (input job)) (input job))
          else (VStr "unknown", VObj ∅) in
        requirement ← defaultChain w requirement;
        mret (<[id job := {| jobName := name; requirement := requirement |}]> jobCache,
              Respond true
                "Accepted by AegisAI — deep analysis will be produced at delivery.")
      else if (nextPhase memo =? 3)%Z then
        (* Phase 2 -> 3: deliver result *)
        deliverable ←
          buildDeliverableForJob w (cached_jobName jobCache (id job))
            (cached_requirement jobCache (id job));
        mret (jobCache, Deliver deliverable)
      else mret (jobCache, NoAction)
  end.

End Base.

(* ===================================================================== *)
(** ** The five-job provider (no external resources) *)
(* ===================================================================== *)

Module Multi.

(** *** Validation utils *)

Definition isPositiveNumber (v : value) : bool :=
  match v with
  | VNum n => isFinite n && num_gtb n (of_Z 0)
  | _ => false
  end.

Definition isNonNegativeNumber (v : value) : bool :=
  match v with
  | VNum n => isFinite n && num_geb n (of_Z 0)
  | _ => false
  end.

Definition oneOf (v : value) (allowed : list string) : bool :=
  match v with
  | VStr s => includes allowed s
  | _ => false
  end.

Definition pushErr (errors : list string) (field message : string) : list string :=
  (errors ++ [(field ++ ": " ++ message)%string])%list.

Definition severityWeight (sev : value) : Z :=
  if is_string "critical" sev then 5
  else if is_string "high" sev then 4
  else if is_string "medium" sev then 3
  else if is_string "low" sev then 2
  else if is_string "info" sev then 1
  else 0.

Record Validation := {
  ok : bool;
  errors : list string
}.

Definition finish (errors : list string) : Validation :=
  {| ok := (length errors =? 0)%nat; errors := errors |}.

Definition strings (l : list string) : value := VArr (map VStr l).

(** [if (failed) pushErr(errors, field, message)]. *)
Definition check (failed : bool) (field message : string) (errors : list string)
  : list string :=
  if failed then pushErr errors field message else errors.

(** [items.forEach((x, idx) => ...)] threading the error list; the
    second form is for a callback that may raise. *)
Fixpoint forEach (f : value -> nat -> list string -> list string)
    (items : list value) (idx : nat) (errors : list string) : list string :=
  match items with
  | [] => errors
  | x :: rest => forEach f rest (S idx) (f x idx errors)
  end.

Fixpoint forEachM (f : value -> nat -> list string -> completion (list string))
    (items : list value) (idx : nat) (errors : list string)
  : completion (list string) :=
  match items with
  | [] => mret errors
  | x :: rest => errors ← f x idx errors; forEachM f rest (S idx) errors
  end.

Definition indexed (field : string) (idx : nat) : string :=
  field ++ "[" ++ pretty idx ++ "]".

(** [v.length]. *)
Definition js_length (v : value) : completion value :=
  match v with
  | VArr items => mret (num (Z.of_nat (length items)))
  | VStr s => mret (num (Z.of_nat (String.length s)))
  | _ => member v "length"
  end.

(** [a + b]: concatenation as soon as one side is a string. *)
Definition js_add (a b : value) : value :=
  match ToPrimitive a, ToPrimitive b with
  | VStr s, pb => VStr (s ++ ToString pb)
  | pa, VStr t => VStr (ToString pa ++ t)
  | pa, pb => VNum (num_add (ToNumber pa) (ToNumber pb))
  end.

(** *** 1) risk_sentinel *)

Definition validateRiskSentinel (req : obj) : Validation :=
  let errors := [] in
  let errors :=
    check (negb (isNonEmptyString (getp req "client_agent_id")))
      "client_agent_id" "must be a non-empty string" errors in
  let errors :=
    check (negb (isNonEmptyString (getp req "asset_pair")))
      "asset_pair" "must be a non-empty string like 'USDC/WETH'" errors in
  let errors :=
    check (negb (isNonEmptyString (getp req "side"))
           || negb (oneOf (getp req "side") ["buy"; "sell"; "long"; "short"]))
      "side" "must be one of 'buy', 'sell', 'long', 'short'" errors in
  let errors :=
    check (negb (isPositiveNumber (getp req "notional_value_usd")))
      "notional_value_usd" "must be a positive number in USD" errors in
  let errors :=
    check (negb (isNonEmptyString (getp req "execution_venue")))
      "execution_venue" "must be a non-empty string (e.g. 'uniswap_v3')" errors in
  let allowedChains := ["base"; "ethereum-mainnet"; "arbitrum"; "optimism"; "polygon"] in
  let errors :=
    check (negb (isNonEmptyString (getp req "chain"))
           || negb (oneOf (getp req "chain") allowedChains))
      "chain" ("must be one of: " ++ join ", " allowedChains) errors in
  let errors :=
    check (negb (isPositiveNumber (getp req "leverage"))
           || js_lt (getp req "leverage") (num 1))
      "leverage" "must be >= 1 (use 1 for spot/no leverage)" errors in
  finish errors.

Definition buildRiskSentinelDeliverable (now : string) (req : obj)
    (validation : Validation) : value :=
  let timestamp := now in
  if negb (ok validation) then
    object [
      ("job_name", VStr "risk_sentinel");
      ("decision", VStr "reject");
      ("risk_score", num 0);
      ("recommended_size_factor", num 0);
      ("validation_passed", VBool false);
      ("validation_errors", strings (errors validation));
      ("findings", VArr [
        object [
          ("id", VStr "invalid_input");
          ("severity", VStr "critical");
          ("description",
           VStr "The request parameters did not pass strict validation. See validation_errors for details.");
          ("mitigation",
           VStr "Correct the invalid fields and re-submit the risk_sentinel job.")
        ] ]);
      ("summary", object [
        ("overall_risk_level", VStr "invalid");
        ("reason", VStr "Input validation failed; no risk evaluation performed.")
      ]);
      ("methodology",
       VStr "Pre-trade risk evaluation was not performed because one or more required fields were invalid.");
      ("coverage", object [
        ("schema_validation", object [("checked", VBool true); ("triggered", VBool true)]);
        ("chain_whitelist", object [("checked", VBool true); ("triggered", VBool false)]);
        ("leverage_bounds", object [("checked", VBool true); ("triggered", VBool false)]);
        ("notional_bounds", object [("checked", VBool true); ("triggered", VBool false)])
      ]);
      ("remediation_plan", VArr [
        object [
          ("id", VStr "fix_invalid_fields");
          ("priority", num 1);
          ("severity", VStr "critical");
          ("action",
           VStr "Review validation_errors, correct invalid or missing parameters, and re-run the risk_sentinel job.")
        ] ]);
      ("open_questions", strings [
        "Is the calling client_agent_id correctly configured and authorized for this agent?";
        "Are you certain the intended chain and venue are supported for execution?" ]);
      ("timestamp_utc", VStr timestamp)
    ]
  else
  (* Simple heuristic scoring: higher notional + leverage => higher risk *)
  let baseScore := of_Z 20 in
  let leverageImpact :=
    num_mul (num_sub (ToNumber (getp req "leverage")) (of_Z 1)) (of_Z 10) in
  let sizeImpact :=
    num_mul (Math_min (num_div (ToNumber (getp req "notional_value_usd")) (of_Z 100000))
                      (of_Z 3))
            (of_Z 10) in
  let riskScore :=
    Math_min (of_Z 100)
      (Math_round (num_add (num_add baseScore leverageImpact) sizeImpact)) in
  let verdict :=
    if num_geb riskScore (of_Z 80) then ("reject", of_Z 0)
    else if num_geb riskScore (of_Z 60) then ("reduce", Fin (1 # 2))
    else ("approve", of_Z 1) in
  let decision := verdict.1 in
  let sizeFactor := verdict.2 in
  let severity :=
    if num_geb riskScore (of_Z 80) then "high"
    else if num_geb riskScore (of_Z 60) then "high"
    else if num_geb riskScore (of_Z 40) then "medium"
    else "low" in
  let summary :=
    object [
      ("asset_pair", getp req "asset_pair");
      ("side", getp req "side");
      ("chain", getp req "chain");
      ("leverage", getp req "leverage");
      ("notional_value_usd", getp req "notional_value_usd");
      ("overall_risk_level", VStr severity);
      ("risk_score", VNum riskScore);
      ("decision", VStr decision);
      ("recommended_size_factor", VNum sizeFactor);
      ("execution_venue", getp req "execution_venue")
    ] in
  let methodology :=
    "Heuristic pre-trade risk model combining notional size, leverage, chain characteristics and execution venue. This is not a VaR engine or regulatory capital model." in
  let coverage :=
    object [
      ("schema_validation", object [("checked", VBool true); ("triggered", VBool false)]);
      ("chain_whitelist", object [("checked", VBool true); ("triggered", VBool false)]);
      ("leverage_bounds",
       object [("checked", VBool true);
               ("triggered", VBool (js_gt (getp req "leverage") (num 3)))]);
      ("notional_bounds",
       object [("checked", VBool true);
               ("triggered", VBool (js_gt (getp req "notional_value_usd") (num 500000)))]);
      ("side_supported", object [("checked", VBool true); ("triggered", VBool false)])
    ] in
  let remediation_plan :=
    if negb (String.eqb decision "approve") then
      [ object [
          ("id", VStr "reduce_notional");
          ("priority", num 1);
          ("severity", VStr "high");
          ("action",
           VStr "Reduce notional_value_usd and/or leverage and re-run risk evaluation to move into an acceptable risk band.")
        ] ]
    else [] in
  let remediation_plan :=
    (remediation_plan ++ [
      object [
        ("id", VStr "diversify_exposure");
        ("priority", num (Z.of_nat (length remediation_plan) + 1));
        ("severity", VStr "medium");
        ("action",
         VStr "Consider spreading exposure across time or venues instead of concentrating in a single large trade.")
      ] ])%list in
  let open_questions := [
    "How does this position relate to the client's existing portfolio and concentration limits?";
    "Is this trade part of a larger strategy (e.g., hedging, basis trade, yield enhancement) that alters its effective risk?";
    "What is the maximum acceptable drawdown or liquidation risk for this specific client?" ] in
  object [
    ("job_name", VStr "risk_sentinel");
    ("decision", VStr decision);
    ("risk_score", VNum riskScore);
    ("recommended_size_factor", VNum sizeFactor);
    ("validation_passed", VBool true);
    ("validation_errors", VArr []);
    ("findings", VArr [
      object [
        ("id", VStr "base_risk_sentinel_eval");
        ("severity", VStr severity);
        ("description",
         VStr "Pre-trade risk analysis based on notional size, leverage, chain and venue, classified into an overall risk level.");
        ("mitigation",
         VStr (if String.eqb decision "approve" then
                 "Proceed with standard risk controls and monitoring."
               else if String.eqb decision "reduce" then
                 "Lower position size or leverage and re-submit to fit within defined risk appetite."
               else
                 "Avoid opening this position under current parameters or require explicit risk sign-off."))
      ] ]);
    ("summary", summary);
    ("methodology", VStr methodology);
    ("coverage", coverage);
    ("remediation_plan", VArr remediation_plan);
    ("open_questions", strings open_questions);
    ("timestamp_utc", VStr timestamp)
  ].

(** *** 2) gas_execution_optimizer *)

Definition validateGasExecution (req : obj) : Validation :=
  let errors := [] in
  let errors :=
    check (negb (isNonEmptyString (getp req "client_agent_id")))
      "client_agent_id" "must be a non-empty string" errors in
  let errors :=
    check (negb (isNonEmptyString (getp req "chain")))
      "chain" "must be a non-empty string" errors in
  let allowedTxTypes := ["swap"; "liquidity_add"; "rebalance"; "leverage_open"] in
  let errors :=
    check (negb (isNonEmptyString (getp req "transaction_type"))
           || negb (oneOf (getp req "transaction_type") allowedTxTypes))
      "transaction_type" ("must be one of " ++ join ", " allowedTxTypes) errors in
  let allowedUrgency := ["low"; "normal"; "high"] in
  let errors :=
    check (negb (isNonEmptyString (getp req "urgency"))
           || negb (oneOf (getp req "urgency") allowedUrgency))
      "urgency" ("must be one of " ++ join ", " allowedUrgency) errors in
  let errors :=
    check (negb (isPositiveNumber (getp req "expected_notional_usd")))
      "expected_notional_usd" "must be a positive number" errors in
  let errors :=
    check (negb (isNonNegativeNumber (getp req "current_gas_price_wei")))
      "current_gas_price_wei" "must be a non-negative number (0 allowed for unknown)"
      errors in
  finish errors.

Definition buildGasExecutionDeliverable (now : string) (req : obj)
    (validation : Validation) : value :=
  let timestamp := now in
  if negb (ok validation) then
    object [
      ("job_name", VStr "gas_execution_optimizer");
      ("validation_passed", VBool false);
      ("validation_errors", strings (errors validation));
      ("recommended_gas_price_wei", VNull);
      ("suggested_priority", VNull);
      ("notes", VStr "Request did not pass validation. See validation_errors.");
      ("summary", object [
        ("overall_status", VStr "invalid");
        ("reason", VStr "Input validation failed; no gas recommendation produced.")
      ]);
      ("methodology",
       VStr "Gas optimization was not performed due to invalid or missing parameters.");
      ("coverage", object [
        ("schema_validation", object [("checked", VBool true); ("triggered", VBool true)]);
        ("urgency_adjustment", object [("checked", VBool false); ("triggered", VBool false)]);
        ("baseline_present", object [("checked", VBool false); ("triggered", VBool false)])
      ]);
      ("open_questions", strings [
        "Is the provided chain identifier consistent with the execution environment?";
        "Can you supply a recent baseline gas price snapshot from your infra?" ]);
      ("timestamp_utc", VStr timestamp)
    ]
  else
  (* Simple gas heuristic *)
  let baseGas := getp req "current_gas_price_wei" in
  let baseGas :=
    if negb (isPositiveNumber baseGas) then
      (* default gas estimate if not provided (~20 gwei) *)
      let defaultWei := (20 * 10 ^ 9)%Z in
      num defaultWei
    else baseGas in
  let multiplier := of_Z 1 in
  let multiplier :=
    if is_string "low" (getp req "urgency") then Fin (9 # 10) else multiplier in
  let multiplier :=
    if is_string "high" (getp req "urgency") then Fin (6 # 5) else multiplier in
  let recommendedGas := Math_round (num_mul (ToNumber baseGas) multiplier) in
  let summary :=
    object [
      ("chain", getp req "chain");
      ("transaction_type", getp req "transaction_type");
      ("urgency", getp req "urgency");
      ("expected_notional_usd", getp req "expected_notional_usd");
      ("baseline_gas_price_wei", baseGas);
      ("recommended_gas_price_wei", VNum recommendedGas)
    ] in
  let methodology :=
    "Heuristic gas recommendation based on a baseline gas value and urgency multiplier. It does not inspect mempool or use live gas auction data." in
  let coverage :=
    object [
      ("schema_validation", object [("checked", VBool true); ("triggered", VBool false)]);
      ("urgency_adjustment",
       object [("checked", VBool true);
               ("triggered", VBool (negb (is_string "normal" (getp req "urgency"))))]);
      ("baseline_present",
       object [("checked", VBool true);
               ("triggered", VBool (isPositiveNumber (getp req "current_gas_price_wei")))])
    ] in
  let open_questions := [
    "Do you have max-fee and max-priority-fee constraints that should bound this recommendation?";
    "Should large notional or critical operations (e.g., governance actions) receive a higher default gas multiplier?" ] in
  object [
    ("job_name", VStr "gas_execution_optimizer");
    ("validation_passed", VBool true);
    ("validation_errors", VArr []);
    ("recommended_gas_price_wei", VNum recommendedGas);
    ("suggested_priority", getp req "urgency");
    ("notes",
     VStr "Gas recommendation based on urgency and provided baseline. This is a heuristic, not a guarantee of inclusion.");
    ("summary", summary);
    ("methodology", VStr methodology);
    ("coverage", coverage);
    ("open_questions", strings open_questions);
    ("timestamp_utc", VStr timestamp)
  ].

(** *** 3) strategy_safety_audit *)

Definition validateStrategyAudit (req : obj) : Validation :=
  let errors := [] in
  let errors :=
    check (negb (isNonEmptyString (getp req "client_agent_id")))
      "client_agent_id" "must be a non-empty string" errors in
  let errors :=
    check (negb (isNonEmptyString (getp req "strategy_name")))
      "strategy_name" "must be a non-empty string" errors in
  let errors :=
    check (negb (isNonEmptyString (getp req "chain")))
      "chain" "must be a non-empty string" errors in
  let errors :=
    check (negb (isNonEmptyString (getp req "strategy_description")))
      "strategy_description" "must be a non-empty description of the strategy" errors in
  let errors :=
    match getp req "contracts_involved" with
    | VArr (c :: rest) =>
        forEach
          (fun c idx errors =>
             check (negb (isNonEmptyString c))
               (indexed "contracts_involved" idx) "must be a non-empty string" errors)
          (c :: rest) 0 errors
    | _ =>
        pushErr errors "contracts_involved"
          "must be a non-empty array of contract addresses or identifiers"
    end in
  let errors :=
    check (negb (isPositiveNumber (getp req "max_leverage"))
           || js_lt (getp req "max_leverage") (num 1))
      "max_leverage" "must be >= 1" errors in
  let errors :=
    check (negb (isNonNegativeNumber (getp req "target_yield_apy")))
      "target_yield_apy" "must be a non-negative number (percent APY)" errors in
  finish errors.

Definition buildStrategyAuditDeliverable (now : string) (req : obj)
    (validation : Validation) : completion value :=
  let timestamp := now in
  if negb (ok validation) then
    mret (object [
      ("job_name", VStr "strategy_safety_audit");
      ("validation_passed", VBool false);
      ("validation_errors", strings (errors validation));
      ("risk_rating", VStr "invalid");
      ("issues", VArr [
        object [
          ("id", VStr "invalid_input");
          ("severity", VStr "critical");
          ("description",
           VStr "The strategy description or parameters were invalid. See validation_errors.");
          ("mitigation", VStr "Correct the invalid fields and re-run the safety audit.")
        ] ]);
      ("checklist", VArr []);
      ("summary", object [
        ("overall_risk_level", VStr "invalid");
        ("reason", VStr "Input validation failed; no safety analysis performed.")
      ]);
      ("methodology",
       VStr "Strategy risk assessment was skipped because the basic structural requirements for the job were not satisfied.");
      ("coverage", object [
        ("schema_validation", object [("checked", VBool true); ("triggered", VBool true)]);
        ("leverage_analysis", object [("checked", VBool false); ("triggered", VBool false)]);
        ("yield_sanity_check", object [("checked", VBool false); ("triggered", VBool false)]);
        ("contract_enumeration", object [("checked", VBool false); ("triggered", VBool false)])
      ]);
      ("remediation_plan", VArr [
        object [
          ("id", VStr "fix_strategy_input");
          ("priority", num 1);
          ("severity", VStr "critical");
          ("action",
           VStr "Review validation_errors, complete missing fields such as contracts_involved and strategy_description, then re-run the audit.")
        ] ]);
      ("open_questions", strings [
        "Is there a reference implementation or architecture diagram for this strategy?";
        "Has this strategy been tested in a paper-trading or sandbox environment before real funds?" ]);
      ("timestamp_utc", VStr timestamp)
    ])
  else
  (* Heuristic risk rating & scoring *)
  let max_leverage := getp req "max_leverage" in
  let target_yield_apy := getp req "target_yield_apy" in
  let risk := "low" in
  let riskScore := of_Z 20 in
  let rated :=
    if js_gt max_leverage (num 2) || js_gt target_yield_apy (num 20) then
      ("medium", num_add riskScore (of_Z 20))
    else (risk, riskScore) in
  let rated :=
    if js_gt max_leverage (num 3) || js_gt target_yield_apy (num 40) then
      ("high", num_add rated.2 (of_Z 30))
    else rated in
  let risk := rated.1 in
  let riskScore := rated.2 in
  contracts ← js_length (getp req "contracts_involved");
  let riskScore :=
    Math_min (of_Z 100)
      (num_add riskScore
               (Math_min (num_mul (ToNumber contracts) (of_Z 5)) (of_Z 20))) in
  let issues :=
    ((if js_gt max_leverage (num 2) then
        [ object [
            ("id", VStr "leverage_exposure");
            ("severity", VStr (if js_gt max_leverage (num 3) then "high" else "medium"));
            ("description",
             VStr "Strategy uses elevated leverage, increasing liquidation and volatility risk.");
            ("mitigation",
             VStr "Consider lowering max_leverage or adding stricter health factor constraints.")
          ] ]
      else [])
     ++ (if js_gt target_yield_apy (num 30) then
        [ object [
            ("id", VStr "yield_expectations");
            ("severity", VStr "medium");
            ("description",
             VStr "Target APY is unusually high, which can indicate hidden risk, unsustainable emissions, or smart contract risk.");
            ("mitigation",
             VStr "Stress-test the strategy under adverse scenarios and do independent contract audits for all protocols involved.")
          ] ]
      else []))%list in
  let summary :=
    object [
      ("strategy_name", getp req "strategy_name");
      ("chain", getp req "chain");
      ("contracts_involved_count", contracts);
      ("max_leverage", max_leverage);
      ("target_yield_apy", target_yield_apy);
      ("overall_risk_level", VStr risk);
      ("risk_score", VNum riskScore)
    ] in
  let methodology :=
    "Heuristic strategy safety assessment based on leverage, target yield, protocol fan-out and qualitative red flags. It does not simulate market scenarios or inspect on-chain code directly." in
  let coverage :=
    object [
      ("schema_validation", object [("checked", VBool true); ("triggered", VBool false)]);
      ("leverage_analysis",
       object [("checked", VBool true); ("triggered", VBool (js_gt max_leverage (num 2)))]);
      ("yield_sanity_check",
       object [("checked", VBool true);
               ("triggered", VBool (js_gt target_yield_apy (num 30)))]);
      ("contract_enumeration",
       object [("checked", VBool true); ("triggered", VBool (js_gt contracts (num 3)))])
    ] in
  let remediation_plan :=
    if negb (String.eqb risk "low") then
      [ object [
          ("id", VStr "reduce_leverage_or_yield");
          ("priority", num 1);
          ("severity", VStr "high");
          ("action",
           VStr "Lower max_leverage and/or target_yield_apy to align with tested, sustainable levels.")
        ] ]
    else [] in
  let remediation_plan :=
    (remediation_plan ++ [
      object [
        ("id", VStr "audit_protocols");
        ("priority", num (Z.of_nat (length remediation_plan) + 1));
        ("severity", VStr "medium");
        ("action",
         VStr "Ensure that all contracts_involved have up-to-date security audits and clearly documented upgrade/governance processes.")
      ] ])%list in
  let open_questions := [
    "What are the maximum acceptable drawdown and liquidation scenarios envisioned for this strategy?";
    "How correlated are the underlying protocols and assets during stress events?";
    "Is there a clear exit or unwind procedure if one of the core protocols becomes impaired?" ] in
  mret (object [
    ("job_name", VStr "strategy_safety_audit");
    ("validation_passed", VBool true);
    ("validation_errors", VArr []);
    ("risk_rating", VStr risk);
    ("issues", VArr issues);
    ("checklist", strings [
      "Confirm protocol audit status for all contracts_involved.";
      "Test liquidation behavior under extreme volatility.";
      "Verify oracle sources and price feeds.";
      "Simulate gas and slippage under peak network load." ]);
    ("summary", summary);
    ("methodology", VStr methodology);
    ("coverage", coverage);
    ("remediation_plan", VArr remediation_plan);
    ("open_questions", strings open_questions);
    ("timestamp_utc", VStr timestamp)
  ]).

(** *** 4) market_intelligence_feed *)

Definition validateMarketIntel (req : obj) : Validation :=
  let errors := [] in
  let errors :=
    check (negb (isNonEmptyString (getp req "client_agent_id")))
      "client_agent_id" "must be a non-empty string" errors in
  let errors :=
    check (negb (isNonEmptyString (getp req "chain")))
      "chain" "must be a non-empty string" errors in
  let errors :=
    check (negb (isPositiveNumber (getp req "lookback_minutes")))
      "lookback_minutes" "must be a positive number" errors in
  let errors :=
    check (negb (isPositiveNumber (getp req "minimum_notional_usd")))
      "minimum_notional_usd" "must be a positive number" errors in
  let errors :=
    if negb (nullish (getp req "focus_assets")) then
      match getp req "focus_assets" with
      | VArr items =>
          forEach
            (fun a idx errors =>
               check (negb (isNonEmptyString a))
                 (indexed "focus_assets" idx) "must be a non-empty string" errors)
            items 0 errors
      | _ => pushErr errors "focus_assets" "must be an array of strings if provided"
      end
    else errors in
  finish errors.

Definition buildMarketIntelDeliverable (now : string) (req : obj)
    (validation : Validation) : value :=
  let timestamp := now in
  let focus :=
    match getp req "focus_assets" with
    | VArr (a :: rest) => VArr (a :: rest)
    | _ => strings ["ALL"]
    end in
  let focus_length :=
    match focus with VArr items => Z.of_nat (length items) | _ => 0%Z end in
  if negb (ok validation) then
    object [
      ("job_name", VStr "market_intelligence_feed");
      ("validation_passed", VBool false);
      ("validation_errors", strings (errors validation));
      ("signals", VArr []);
      ("stats", object [
        ("events_considered", num 0);
        ("focus_assets_count",
         match getp req "focus_assets" with
         | VArr items => num (Z.of_nat (length items))
         | _ => num 0
         end);
        ("lookback_minutes", or_else (getp req "lookback_minutes") (num 0));
        ("minimum_notional_usd", or_else (getp req "minimum_notional_usd") (num 0))
      ]);
      ("summary", object [
        ("chain", or_else (getp req "chain") VNull);
        ("focus_assets", focus);
        ("overall_status", VStr "invalid")
      ]);
      ("methodology",
       VStr "No chain data was scanned because the request parameters failed validation.");
      ("open_questions", strings [
        "Which specific assets or protocols are you most interested in monitoring for large flows?";
        "Do you have thresholds for when a signal should trigger automated or manual action?" ]);
      ("timestamp_utc", VStr timestamp)
    ]
  else
  (* Synthetic example signals (no real chain data here) *)
  let signals := [
    object [
      ("id", VStr "sample_flow_1");
      ("severity", VStr "info");
      ("description",
       VStr "Synthetic example: large swap activity observed in the focus universe during the lookback window.");
      ("notional_usd",
       VNum (num_mul (ToNumber (getp req "minimum_notional_usd")) (of_Z 3)));
      ("chain", getp req "chain")
    ] ] in
  let stats :=
    object [
      ("events_considered", num 42);
      ("focus_assets_count", num focus_length);
      ("lookback_minutes", getp req "lookback_minutes");
      ("minimum_notional_usd", getp req "minimum_notional_usd")
    ] in
  let summary :=
    object [
      ("chain", getp req "chain");
      ("focus_assets", focus);
      ("lookback_minutes", getp req "lookback_minutes");
      ("minimum_notional_usd", getp req "minimum_notional_usd");
      ("signals_count", num (Z.of_nat (length signals)))
    ] in
  let methodology :=
    "Synthetic market intelligence feed illustrating how large-flow signals would be structured. In a production deployment, this would be wired to on-chain data and custom filters." in
  let open_questions := [
    "Should signals be bucketed by venue (e.g., AMM vs orderbook) or by protocol risk tier?";
    "Do you want separate thresholds for buy vs sell pressure, or a single threshold for absolute flow?";
    "Should follow-up jobs (e.g., risk_sentinel) be triggered automatically when certain signals fire?" ] in
  object [
    ("job_name", VStr "market_intelligence_feed");
    ("validation_passed", VBool true);
    ("validation_errors", VArr []);
    ("signals", VArr signals);
    ("stats", stats);
    ("summary", summary);
    ("methodology", VStr methodology);
    ("open_questions", strings open_questions);
    ("timestamp_utc", VStr timestamp)
  ].

(** *** 5) portfolio_rebalancer *)

(** The callback of [req.current_positions.forEach]. *)
Definition checkPosition (p : value) (idx : nat) (errors : list string)
  : completion (list string) :=
  if negb (truthy p) || negb (String.eqb (typeof p) "object") then
    mret (pushErr errors (indexed "current_positions" idx) "must be an object")
  else
    asset ← member p "asset";
    let errors :=
      check (negb (isNonEmptyString asset))
        (indexed "current_positions" idx ++ ".asset")
        "must be a non-empty string" errors in
    amount ← member p "amount";
    let errors :=
      check (negb (isPositiveNumber amount))
        (indexed "current_positions" idx ++ ".amount")
        "must be a positive number" errors in
    notional_usd ← member p "notional_usd";
    let errors :=
      check (negb (isPositiveNumber notional_usd))
        (indexed "current_positions" idx ++ ".notional_usd")
        "must be a positive number" errors in
    mret errors.

Definition validatePortfolioRebalancer (req : obj) : completion Validation :=
  let errors := [] in
  let errors :=
    check (negb (isNonEmptyString (getp req "client_agent_id")))
      "client_agent_id" "must be a non-empty string" errors in
  let errors :=
    check (negb (isNonEmptyString (getp req "chain")))
      "chain" "must be a non-empty string" errors in
  errors ←
    match getp req "current_positions" with
    | VArr (p :: rest) => forEachM checkPosition (p :: rest) 0 errors
    | _ =>
        mret (pushErr errors "current_positions"
                "must be a non-empty array of { asset, amount, notional_usd } objects")
    end;
  let allowedRisk := ["conservative"; "moderate"; "aggressive"] in
  let errors :=
    check (negb (isNonEmptyString (getp req "risk_tolerance"))
           || negb (oneOf (getp req "risk_tolerance") allowedRisk))
      "risk_tolerance" ("must be one of " ++ join ", " allowedRisk) errors in
  let allowedObj := ["maximize_yield"; "preserve_capital"; "balanced"] in
  let errors :=
    check (negb (isNonEmptyString (getp req "target_objective"))
           || negb (oneOf (getp req "target_objective") allowedObj))
      "target_objective" ("must be one of " ++ join ", " allowedObj) errors in
  mret (finish errors).

(** [positions.reduce((sum, p) => sum + p.notional_usd, 0)]. *)
Fixpoint sum_notional (positions : list value) (sum : value) : completion value :=
  match positions with
  | [] => mret sum
  | p :: rest =>
      notional_usd ← member p "notional_usd";
      sum_notional rest (js_add sum notional_usd)
  end.

(** [positions.filter(p => stableSymbols.includes(p.asset.toUpperCase()))]. *)
Fixpoint stable_positions (stableSymbols : list string) (positions : list value)
  : completion (list value) :=
  match positions with
  | [] => mret []
  | p :: rest =>
      asset ← member p "asset";
      match asset with
      | VStr a =>
          kept ← stable_positions stableSymbols rest;
          mret (if includes stableSymbols (toUpperCase a) then p :: kept else kept)
      | _ => Throw "TypeError: p.asset.toUpperCase is not a function"
      end
  end.

Fixpoint allocations (total : value) (positions : list value)
  : completion (list value) :=
  match positions with
  | [] => mret []
  | p :: rest =>
      asset ← member p "asset";
      notional_usd ← member p "notional_usd";
      others ← allocations total rest;
      mret (object [
              ("asset", asset);
              ("notional_usd", notional_usd);
              ("weight_pct",
               VNum (num_mul (num_div (ToNumber notional_usd) (ToNumber total))
                             (of_Z 100)))
            ] :: others)
  end.

(** The receiver of [.reduce], [.filter] and [.map]. *)
Definition positions_of (v : value) : completion (list value) :=
  match v with
  | VArr items => mret items
  | VUndef | VNull => Throw "TypeError: cannot read properties of undefined or null"
  | _ => Throw "TypeError: reduce is not a function"
  end.

Definition buildPortfolioRebalancerDeliverable (now : string) (req : obj)
    (validation : Validation) : completion value :=
  let timestamp := now in
  if negb (ok validation) then
    mret (object [
      ("job_name", VStr "portfolio_rebalancer");
      ("validation_passed", VBool false);
      ("validation_errors", strings (errors validation));
      ("recommended_trades", VArr []);
      ("risk_summary", object [
        ("total_notional_usd", num 0);
        ("comment", VStr "Validation failed. No rebalance recommendations generated.")
      ]);
      ("resulting_allocations", VArr []);
      ("summary", object [
        ("overall_status", VStr "invalid");
        ("reason", VStr "Input validation failed; portfolio was not analyzed.")
      ]);
      ("methodology",
       VStr "Portfolio analysis was not performed due to missing or invalid current_positions or risk parameters.");
      ("open_questions", strings [
        "Can you provide a complete, up-to-date snapshot of the portfolio, including all positions and cash?";
        "What drawdown or volatility limits define success for this portfolio?" ]);
      ("timestamp_utc", VStr timestamp)
    ])
  else
  positions ← positions_of (getp req "current_positions");
  total ← sum_notional positions (num 0);
  let stableSymbols := ["USDC"; "USDT"; "DAI"] in
  stable ← stable_positions stableSymbols positions;
  stableValue ← sum_notional stable (num 0);
  (* Very simple heuristic: if aggressive + lots of stable, recommend rotating *)
  let stableRatio := num_div (ToNumber stableValue) (ToNumber total) in
  let recommended_trades :=
    if is_string "aggressive" (getp req "risk_tolerance") && js_gt total (num 0) then
      if num_gtb stableRatio (Fin (2 # 5)) then
        [ object [
            ("action", VStr "rotate_out_of_stables");
            ("description",
             VStr "Portfolio appears too stable-heavy for an aggressive profile. Suggest rotating a portion into higher-beta assets.");
            ("suggested_notional_to_rotate_usd",
             VNum (Math_round (num_mul (ToNumber stableValue) (Fin (3 # 10)))))
          ] ]
      else []
    else [] in
  resulting_allocations ← allocations total positions;
  let risk_summary :=
    object [
      ("total_notional_usd", total);
      ("comment",
       VStr "Rebalance suggestions are heuristic only. Validate with your own risk framework before execution.")
    ] in
  let summary :=
    object [
      ("chain", getp req "chain");
      ("risk_tolerance", getp req "risk_tolerance");
      ("target_objective", getp req "target_objective");
      ("total_notional_usd", total);
      ("stable_value_usd", stableValue);
      ("stable_ratio", VNum (if js_gt total (num 0) then stableRatio else of_Z 0));
      ("recommended_trades_count", num (Z.of_nat (length recommended_trades)))
    ] in
  let methodology :=
    "Heuristic allocation review using current notional weights, risk tolerance and objective. It does not consider asset correlations, tax implications or protocol-specific risks." in
  let open_questions := [
    "Are there concentration limits per asset or protocol that should constrain rebalancing suggestions?";
    "Do you have liquidity constraints or on-chain slippage limits that must be respected when rotating out of stablecoins?";
    "Is there a required minimum cash or stable buffer for withdrawals or margin calls?" ] in
  mret (object [
    ("job_name", VStr "portfolio_rebalancer");
    ("validation_passed", VBool true);
    ("validation_errors", VArr []);
    ("recommended_trades", VArr recommended_trades);
    ("risk_summary", risk_summary);
    ("resulting_allocations", VArr resulting_allocations);
    ("summary", summary);
    ("methodology", VStr methodology);
    ("open_questions", strings open_questions);
    ("timestamp_utc", VStr timestamp)
  ]).

(** *** Job dispatcher *)

(** The named properties of [requirement || {}]; the validators of this
    provider only read them. *)
Definition fields_of (requirement : value) : obj :=
  match requirement with
  | VObj o => o
  | _ => ∅
  end.

Definition buildDeliverableForJob (now : string) (jobName requirement : value)
  : completion value :=
  let req := fields_of requirement in
  if is_string "risk_sentinel" jobName then
    let val := validateRiskSentinel req in
    mret (buildRiskSentinelDeliverable now req val)
  else if is_string "gas_execution_optimizer" jobName then
    let val := validateGasExecution req in
    mret (buildGasExecutionDeliverable now req val)
  else if is_string "strategy_safety_audit" jobName then
    let val := validateStrategyAudit req in
    buildStrategyAuditDeliverable now req val
  else if is_string "market_intelligence_feed" jobName then
    let val := validateMarketIntel req in
    mret (buildMarketIntelDeliverable now req val)
  else if is_string "portfolio_rebalancer" jobName then
    val ← validatePortfolioRebalancer req;
    buildPortfolioRebalancerDeliverable now req val
  else
    let timestamp := now in
    mret (object [
      ("job_name", or_else jobName (VStr "unknown"));
      ("validation_passed", VBool false);
      ("validation_errors", strings ["Unknown or unsupported job_name."]);
      ("error", VBool true);
      ("message",
       VStr "The provider could not match this job to a known offering. Please ensure you're using one of the supported jobs for this agent.");
      ("summary", object [
        ("overall_status", VStr "unsupported_job");
        ("job_name", or_else jobName (VStr "unknown"))
      ]);
      ("timestamp_utc", VStr timestamp)
    ]).

(** *** Phase dispatcher *)

Record CachedJob := {
  jobName : value;
  requirement : value
}.

Record Memo := {
  status : string;
  nextPhase : Z;
  structuredContent : value
}.

Record Job := {
  id : Z;
  input : value
}.

Inductive Action :=
| NoAction
| Respond (accept : bool) (reason : string)
| Deliver (deliverable : value).

Definition cached_jobName (jobCache : gmap Z CachedJob) (job_id : Z) : value :=
  or_else (from_option jobName VUndef (jobCache !! job_id)) (VStr "unknown").

Definition cached_requirement (jobCache : gmap Z CachedJob) (job_id : Z) : value :=
  or_else (from_option requirement VUndef (jobCache !! job_id)) (VObj ∅).

(** [v && typeof v === "object"]. *)
Definition isObjectLike (v : value) : bool :=
  truthy v && String.eqb (typeof v) "object".

Definition onNewTask (now : string) (jobCache : gmap Z CachedJob) (job : Job)
    (memoToSign : option Memo) : completion (gmap Z CachedJob * Action) :=
  match memoToSign with
  | None => mret (jobCache, NoAction)
  | Some memo =>
      if negb (String.eqb (status memo) "PENDING") then mret (jobCache, NoAction)
      else if (nextPhase memo =? 1)%Z then
        (* Phase 0 -> 1: accept or reject *)
        let '(name, requirement) :=
          if isObjectLike (structuredContent memo) then
            (or_else (prop "name" (structuredContent memo)) (VStr "unknown"),
             or_else (prop "requirement" (structuredContent memo)) (VObj ∅))
          else if isObjectLike (input job) then
            (or_else (prop "name" (input job)) (VStr "unknown"),
             or_else (prop "requirement" (input job)) (input job))
          else (VStr "unknown", VObj ∅) in
        mret (<[id job := {| jobName := name; requirement := requirement |}]> jobCache,
              Respond true
                "Accepted by AegisAI provider — validation and risk logic will be applied at delivery.")
      else if (nextPhase memo =? 3)%Z then
        (* Phase 2 -> 3: deliver result *)
        deliverable ←
          buildDeliverableForJob now (cached_jobName jobCache (id job))
            (cached_requirement jobCache (id job));
        mret (jobCache, Deliver deliverable)
      else mret (jobCache, NoAction)
  end.

End Multi.

(* ===================================================================== *)
(** ** Specification vocabulary *)
(* ===================================================================== *)

(** The error reported for one field: nothing when the field passes. *)
Definition violation (failed : bool) (field message : string) : list string :=
  if failed then [field ++ ": " ++ message] else [].

Module BaseSpec.
Import Base.

Definition chainViolations (req : obj) : list string :=
  if negb (isNonEmptyString (getp req "chain")) then
    violation true "chain" "must be a non-empty string"
  else
    violation
      (negb (includes SUPPORTED_CHAINS (toLowerCase (ToString (getp req "chain")))))
      "chain" "must be one of: base, base-sepolia".

Definition chainNormalized (req : obj) : obj :=
  if isNonEmptyString (getp req "chain") then
    <["chain" := VStr (toLowerCase (ToString (getp req "chain")))]> req
  else req.

Definition lowered (v : value) (fallback : string) : string :=
  toLowerCase (ToString (or_else v (VStr fallback))).

(** One list of errors per field of a pre_trade_risk_pack request, each
    computed from the request as submitted. *)
Definition preTradeViolations (req : obj) : list (list string) := [
  violation (negb (isNonEmptyString (getp req "client_agent_id")))
    "client_agent_id" "must be a non-empty string";
  chainViolations req;
  violation (negb (isNonEmptyString (getp req "asset_in")))
    "asset_in" "must be token symbol or address";
  violation (negb (isNonEmptyString (getp req "asset_out")))
    "asset_out" "must be token symbol or address";
  violation (negb (includes ["buy"; "sell"] (lowered (getp req "side") "")))
    "side" "must be 'buy' or 'sell'";
  violation (let n := toNumber (getp req "notional_value_usd") in
             negb (isFinite n) || num_leb n (of_Z 0))
    "notional_value_usd" "must be a positive number (numeric string allowed)";
  violation (negb (includes ["aerodrome"; "uniswap_v3"; "uniswap_v2"; "unknown"]
                     (lowered (getp req "execution_venue") "unknown")))
    "execution_venue" "must be one of: aerodrome, uniswap_v3, uniswap_v2, unknown";
  violation (out_of_range (toInt (getp req "max_slippage_bps")) (of_Z 1) (of_Z 2000))
    "max_slippage_bps" "must be integer 1..2000 (e.g., 50 = 0.50%)";
  violation (negb (includes ["low"; "normal"; "high"] (lowered (getp req "urgency") "normal")))
    "urgency" "must be low/normal/high";
  violation (let lev := toNumber (coalesce (getp req "leverage") (num 1)) in
             negb (isFinite lev) || num_ltb lev (of_Z 1))
    "leverage" "must be >= 1 (1 for spot)";
  violation (negb (nullish (getp req "time_horizon_minutes"))
             && out_of_range (toInt (getp req "time_horizon_minutes")) (of_Z 1) (of_Z 10080))
    "time_horizon_minutes" "must be integer 1..10080 (optional)"
].

(** The request after normalisation, field by field. *)
Definition preTradeNormalized (req : obj) : obj :=
  let horizon (r : obj) :=
    if nullish (getp req "time_horizon_minutes") then r
    else <["time_horizon_minutes" := VNum (toInt (getp req "time_horizon_minutes"))]> r in
  horizon
    (<["leverage" := VNum (toNumber (coalesce (getp req "leverage") (num 1)))]>
    (<["urgency" := VStr (lowered (getp req "urgency") "normal")]>
    (<["max_slippage_bps" := VNum (toInt (getp req "max_slippage_bps"))]>
    (<["execution_venue" := VStr (lowered (getp req "execution_venue") "unknown")]>
    (<["notional_value_usd" := VNum (toNumber (getp req "notional_value_usd"))]>
    (<["side" := VStr (lowered (getp req "side") "")]>
    (chainNormalized req))))))).

Definition loweredVenues (items : list value) : list string :=
  map (fun v => toLowerCase (ToString v)) items.

Definition unsupportedVenues (items : list value) : list string :=
  List.filter (fun v => negb (includes ["aerodrome"; "uniswap_v3"; "uniswap_v2"] v))
    (loweredVenues items).

Definition allowedVenuesViolations (req : obj) : list string :=
  match getp req "allowed_venues" with
  | VUndef | VNull => []
  | VArr (v :: items) =>
      violation (0 <? length (unsupportedVenues (v :: items)))%nat
        "allowed_venues" ("unsupported: " ++ join ", " (unsupportedVenues (v :: items)))
  | _ => violation true "allowed_venues" "must be a non-empty array if provided"
  end.

Definition deadlineOf (req : obj) : number :=
  if nullish (getp req "deadline_seconds") then of_Z 180
  else toInt (getp req "deadline_seconds").

Definition executionQuoteViolations (req : obj) : list (list string) := [
  violation (negb (isNonEmptyString (getp req "client_agent_id")))
    "client_agent_id" "must be a non-empty string";
  chainViolations req;
  violation (negb (isNonEmptyString (getp req "asset_in")))
    "asset_in" "must be token symbol or address";
  violation (negb (isNonEmptyString (getp req "asset_out")))
    "asset_out" "must be token symbol or address";
  violation (let n := toNumber (getp req "notional_value_usd") in
             negb (isFinite n) || num_leb n (of_Z 0))
    "notional_value_usd" "must be a positive number (numeric string allowed)";
  violation (out_of_range (toInt (getp req "max_slippage_bps")) (of_Z 1) (of_Z 2000))
    "max_slippage_bps" "must be integer 1..2000";
  allowedVenuesViolations req;
  violation (out_of_range (deadlineOf req) (of_Z 60) (of_Z 3600))
    "deadline_seconds" "must be integer 60..3600 (default 180)"
].

Definition executionQuoteNormalized (req : obj) : obj :=
  let venues (r : obj) :=
    match getp req "allowed_venues" with
    | VUndef | VNull =>
        <["allowed_venues" := VArr [VStr "uniswap_v3"; VStr "aerodrome"]]> r
    | VArr (v :: items) =>
        <["allowed_venues" := VArr (map VStr (loweredVenues (v :: items)))]> r
    | _ => r
    end in
  <["deadline_seconds" := VNum (deadlineOf req)]>
  (<["prefer_stable_routes" := VBool (truthy (getp req "prefer_stable_routes"))]>
  (venues
  (<["max_slippage_bps" := VNum (toInt (getp req "max_slippage_bps"))]>
  (<["notional_value_usd" := VNum (toNumber (getp req "notional_value_usd"))]>
  (chainNormalized req))))).

Definition minimumNotionalOf (req : obj) : number :=
  if negb (nullish (getp req "minimum_notional_usd")) then
    toNumber (getp req "minimum_notional_usd")
  else toNumber (getp req "min_notional_usd").

Definition focusAssetsViolations (req : obj) : list string :=
  match getp req "focus_assets" with
  | VUndef | VNull | VArr _ => []
  | _ => violation true "focus_assets" "must be array(string) if provided"
  end.

Definition marketIntelViolations (req : obj) : list (list string) := [
  violation (negb (isNonEmptyString (getp req "client_agent_id")))
    "client_agent_id" "must be a non-empty string";
  chainViolations req;
  violation (out_of_range (toInt (getp req "lookback_minutes")) (of_Z 5) (of_Z 43200))
    "lookback_minutes" "must be integer 5..43200";
  violation (negb (isFinite (minimumNotionalOf req))
             || num_leb (minimumNotionalOf req) (of_Z 0))
    "minimum_notional_usd" "must be a positive number (numeric string allowed)";
  focusAssetsViolations req;
  violation (negb (includes ["info"; "low"; "medium"; "high"; "critical"]
                     (lowered (getp req "severity_floor") "info")))
    "severity_floor" "must be one of: info, low, medium, high, critical"
].

Definition marketIntelNormalized (req : obj) : obj :=
  let focus (r : obj) :=
    match getp req "focus_assets" with
    | VUndef | VNull => <["focus_assets" := VArr []]> r
    | VArr items =>
        <["focus_assets" :=
            VArr (map VStr (List.filter (fun x => truthy (VStr x))
                              (map (fun x => trim (ToString x)) items)))]> r
    | _ => r
    end in
  <["severity_floor" := VStr (lowered (getp req "severity_floor") "info")]>
  (focus
  (<["minimum_notional_usd" := VNum (minimumNotionalOf req)]>
  (<["lookback_minutes" := VNum (toInt (getp req "lookback_minutes"))]>
  (chainNormalized req)))).

End BaseSpec.

Module MultiSpec.
Import Multi.

Definition riskSentinelViolations (req : obj) : list (list string) := [
  violation (negb (isNonEmptyString (getp req "client_agent_id")))
    "client_agent_id" "must be a non-empty string";
  violation (negb (isNonEmptyString (getp req "asset_pair")))
    "asset_pair" "must be a non-empty string like 'USDC/WETH'";
  violation (negb (isNonEmptyString (getp req "side"))
             || negb (oneOf (getp req "side") ["buy"; "sell"; "long"; "short"]))
    "side" "must be one of 'buy', 'sell', 'long', 'short'";
  violation (negb (isPositiveNumber (getp req "notional_value_usd")))
    "notional_value_usd" "must be a positive number in USD";
  violation (negb (isNonEmptyString (getp req "execution_venue")))
    "execution_venue" "must be a non-empty string (e.g. 'uniswap_v3')";
  violation (negb (isNonEmptyString (getp req "chain"))
             || negb (oneOf (getp req "chain")
                        ["base"; "ethereum-mainnet"; "arbitrum"; "optimism"; "polygon"]))
    "chain" "must be one of: base, ethereum-mainnet, arbitrum, optimism, polygon";
  violation (negb (isPositiveNumber (getp req "leverage"))
             || js_lt (getp req "leverage") (num 1))
    "leverage" "must be >= 1 (use 1 for spot/no leverage)"
].

Definition gasExecutionViolations (req : obj) : list (list string) := [
  violation (negb (isNonEmptyString (getp req "client_agent_id")))
    "client_agent_id" "must be a non-empty string";
  violation (negb (isNonEmptyString (getp req "chain")))
    "chain" "must be a non-empty string";
  violation (negb (isNonEmptyString (getp req "transaction_type"))
             || negb (oneOf (getp req "transaction_type")
                        ["swap"; "liquidity_add"; "rebalance"; "leverage_open"]))
    "transaction_type" "must be one of swap, liquidity_add, rebalance, leverage_open";
  violation (negb (isNonEmptyString (getp req "urgency"))
             || negb (oneOf (getp req "urgency") ["low"; "normal"; "high"]))
    "urgency" "must be one of low, normal, high";
  violation (negb (isPositiveNumber (getp req "expected_notional_usd")))
    "expected_notional_usd" "must be a positive number";
  violation (negb (isNonNegativeNumber (getp req "current_gas_price_wei")))
    "current_gas_price_wei" "must be a non-negative number (0 allowed for unknown)"
].

(** The errors of the elements of an array field, element by element. *)
Definition elementViolations (field : string) (items : list value) : list string :=
  concat (imap (fun idx x =>
                  violation (negb (isNonEmptyString x)) (indexed field idx)
                    "must be a non-empty string") items).

Definition contractsViolations (req : obj) : list string :=
  match getp req "contracts_involved" with
  | VArr (c :: rest) => elementViolations "contracts_involved" (c :: rest)
  | _ =>
      violation true "contracts_involved"
        "must be a non-empty array of contract addresses or identifiers"
  end.

Definition strategyAuditViolations (req : obj) : list (list string) := [
  violation (negb (isNonEmptyString (getp req "client_agent_id")))
    "client_agent_id" "must be a non-empty string";
  violation (negb (isNonEmptyString (getp req "strategy_name")))
    "strategy_name" "must be a non-empty string";
  violation (negb (isNonEmptyString (getp req "chain")))
    "chain" "must be a non-empty string";
  violation (negb (isNonEmptyString (getp req "strategy_description")))
    "strategy_description" "must be a non-empty description of the strategy";
  contractsViolations req;
  violation (negb (isPositiveNumber (getp req "max_leverage"))
             || js_lt (getp req "max_leverage") (num 1))
    "max_leverage" "must be >= 1";
  violation (negb (isNonNegativeNumber (getp req "target_yield_apy")))
    "target_yield_apy" "must be a non-negative number (percent APY)"
].

Definition focusAssetsViolations (req : obj) : list string :=
  match getp req "focus_assets" with
  | VUndef | VNull => []
  | VArr items => elementViolations "focus_assets" items
  | _ => violation true "focus_assets" "must be an array of strings if provided"
  end.

Definition marketIntelViolations (req : obj) : list (list string) := [
  violation (negb (isNonEmptyString (getp req "client_agent_id")))
    "client_agent_id" "must be a non-empty string";
  violation (negb (isNonEmptyString (getp req "chain")))
    "chain" "must be a non-empty string";
  violation (negb (isPositiveNumber (getp req "lookback_minutes")))
    "lookback_minutes" "must be a positive number";
  violation (negb (isPositiveNumber (getp req "minimum_notional_usd")))
    "minimum_notional_usd" "must be a positive number";
  focusAssetsViolations req
].

(** The errors of one portfolio position. *)
Definition positionViolations (idx : nat) (p : value) : list string :=
  match p with
  | VArr _ | VObj _ =>
      violation (negb (isNonEmptyString (prop "asset" p)))
        (indexed "current_positions" idx ++ ".asset") "must be a non-empty string"
      ++ violation (negb (isPositiveNumber (prop "amount" p)))
        (indexed "current_positions" idx ++ ".amount") "must be a positive number"
      ++ violation (negb (isPositiveNumber (prop "notional_usd" p)))
        (indexed "current_positions" idx ++ ".notional_usd") "must be a positive number"
  | _ => violation true (indexed "current_positions" idx) "must be an object"
  end%list.

Definition positionsViolations (req : obj) : list string :=
  match getp req "current_positions" with
  | VArr (p :: rest) => concat (imap positionViolations (p :: rest))
  | _ =>
      violation true "current_positions"
        "must be a non-empty array of { asset, amount, notional_usd } objects"
  end.

Definition portfolioViolations (req : obj) : list (list string) := [
  violation (negb (isNonEmptyString (getp req "client_agent_id")))
    "client_agent_id" "must be a non-empty string";
  violation (negb (isNonEmptyString (getp req "chain")))
    "chain" "must be a non-empty string";
  positionsViolations req;
  violation (negb (isNonEmptyString (getp req "risk_tolerance"))
             || negb (oneOf (getp req "risk_tolerance")
                        ["conservative"; "moderate"; "aggressive"]))
    "risk_tolerance" "must be one of conservative, moderate, aggressive";
  violation (negb (isNonEmptyString (getp req "target_objective"))
             || negb (oneOf (getp req "target_objective")
                        ["maximize_yield"; "preserve_capital"; "balanced"]))
    "target_objective" "must be one of maximize_yield, preserve_capital, balanced"
].

End MultiSpec.

(** Every validator of the two providers behind one interface. *)
Inductive Validator :=
| PreTradeRiskPack
| ExecutionQuoteAndRoute
| MarketIntel
| RiskSentinel
| GasExecution
| StrategyAudit
| MarketIntelFeed
| PortfolioRebalancer.

Definition outcome_of (v : Base.Validation) : bool * list string :=
  (Base.ok v, Base.errors v).

Definition outcome_of' (v : Multi.Validation) : bool * list string :=
  (Multi.ok v, Multi.errors v).

Definition validate (v : Validator) (req : obj) : completion (bool * list string) :=
  match v with
  | PreTradeRiskPack => mret (outcome_of (Base.validatePreTradeRiskPack req).2)
  | ExecutionQuoteAndRoute => mret (outcome_of (Base.validateExecutionQuoteAndRoute req).2)
  | MarketIntel => mret (outcome_of (Base.validateMarketIntel req).2)
  | RiskSentinel => mret (outcome_of' (Multi.validateRiskSentinel req))
  | GasExecution => mret (outcome_of' (Multi.validateGasExecution req))
  | StrategyAudit => mret (outcome_of' (Multi.validateStrategyAudit req))
  | MarketIntelFeed => mret (outcome_of' (Multi.validateMarketIntel req))
  | PortfolioRebalancer =>
      val ← Multi.validatePortfolioRebalancer req; mret (outcome_of' val)
  end.

Definition violations (v : Validator) (req : obj) : list (list string) :=
  match v with
  | PreTradeRiskPack => BaseSpec.preTradeViolations req
  | ExecutionQuoteAndRoute => BaseSpec.executionQuoteViolations req
  | MarketIntel => BaseSpec.marketIntelViolations req
  | RiskSentinel => MultiSpec.riskSentinelViolations req
  | GasExecution => MultiSpec.gasExecutionViolations req
  | StrategyAudit => MultiSpec.strategyAuditViolations req
  | MarketIntelFeed => MultiSpec.marketIntelViolations req
  | PortfolioRebalancer => MultiSpec.portfolioViolations req
  end.

Module Observed.
Import Base.

(** What the builders derive from the world for a request. *)
Definition depth (w : World) (req : obj) : Fetched DepthData :=
  fetchBaseVenueDepth w (getp req "asset_in") (getp req "asset_out")
    (getp req "notional_value_usd").

Definition gasProfile (w : World) (req : obj) : Fetched obj :=
  let ethUsd := toNumber (getp req "eth_usd") in
  fetchBaseGasProfile w (if isFinite ethUsd then Some ethUsd else None).

Definition best (w : World) (req : obj) : option obj :=
  f_data (depth w req) ≫= best_by_depth.

Definition estSlipBps (w : World) (req : obj) : value :=
  coalesce (opt_prop (best w req) "estimated_slippage_bps") (VNum (fallbackSlipBps req)).

Definition congestion (w : World) (req : obj) : value :=
  or_else (getp (default ∅ (f_data (gasProfile w req))) "congestion_level")
          (VStr "unknown").

(** The venue the quote builder settles on, and its slippage estimate. *)
Definition chosen (w : World) (req : obj) (listed : list value) : option obj :=
  let allowed : gset string :=
    list_to_set (map (fun v => toLowerCase (ToString v)) listed) in
  let ranked :=
    sort_by_depth
      (List.filter
         (fun v => (size allowed =? 0)%nat
                   || bool_decide (toLowerCase (ToString (getp v "venue")) ∈ allowed))
         (from_option venues [] (f_data (depth w req)))) in
  match head ranked with Some v => Some v | None => best w req end.

Definition quoteSlipBps (w : World) (req : obj) (listed : list value) : value :=
  coalesce (opt_prop (chosen w req listed) "estimated_slippage_bps")
           (VNum (fallbackSlipBps req)).

End Observed.

(** [clamp] on three finite numbers. *)
Definition Qclamp (n a b : Q) : Q :=
  let m := if Qltb n b then n else b in
  if Qltb a m then m else a.

(** The job names the Base-only provider dispatches on. *)
Definition supported (jobName : value) : bool :=
  is_string "pre_trade_risk_pack" jobName
  || is_string "execution_quote_and_route" jobName
  || is_string "market_intelligence_feed" jobName.

(** ** Fields with integer bounds *)

Inductive IntField :=
| PreTradeMaxSlippage
| QuoteMaxSlippage
| QuoteDeadline
| IntelLookback
| PreTradeHorizon.




Definition int_error (f : IntField) : string :=
  match f with
  | PreTradeMaxSlippage => "max_slippage_bps: must be integer 1..2000 (e.g., 50 = 0.50%)"
  | QuoteMaxSlippage => "max_slippage_bps: must be integer 1..2000"
  | QuoteDeadline => "deadline_seconds: must be integer 60..3600 (default 180)"
  | IntelLookback => "lookback_minutes: must be integer 5..43200"
  | PreTradeHorizon => "time_horizon_minutes: must be integer 1..10080 (optional)"
  end.

(** The request as a validator of the Base-only provider leaves it. *)
Definition normalize (v : Validator) (req : obj) : obj :=
  match v with
  | PreTradeRiskPack => (Base.validatePreTradeRiskPack req).1
  | ExecutionQuoteAndRoute => (Base.validateExecutionQuoteAndRoute req).1
  | MarketIntel => (Base.validateMarketIntel req).1
  | _ => req
  end.

(** The integer part of a rational, towards zero. *)
Definition Qtruncate (q : Q) : Z := Z.quot (Qnum q) (Zpos (Qden q)).

(** ** Numeric fields *)

Definition is_base (v : Validator) : bool :=
  match v with
  | PreTradeRiskPack | ExecutionQuoteAndRoute | MarketIntel => true
  | _ => false
  end.


(** Whether an error of the list is about the given field. *)
Definition reports (field : string) (errors : list string) : bool :=
  existsb (String.prefix (field ++ ": ")) errors.

(** A field of what a builder delivers; [undefined] when it raised. *)
Definition field (k : string) (c : completion value) : value :=
  match c with
  | Normal d => prop k d
  | Throw _ => VUndef
  end.

(** ** Concrete worlds and requests used to exercise the theorems *)

Module Scenario.
Import Base.

(** A reply of a resource that cannot be reached. *)
Definition unreachable {D} : Reply D :=
  {| r_ok := false; r_status := 0; r_json := None; r_error := Some "fetch failed" |}.

(** The world in which both resources are unavailable. *)
Definition offline : World :=
  {| ACP_CHAIN := "base";
     nowIso := "2025-01-01T00:00:00.000Z";
     gas_profile := fun _ => unreachable;
     venue_depth := fun _ _ _ => unreachable |}.

(** A world in which both resources answer: one Aerodrome pool with an
    estimated slippage of 25 bps, and a calm gas market. *)
Definition pool : obj :=
  list_to_map [
    ("venue", VStr "aerodrome"); ("pool_type", VStr "volatile");
    ("depth_usd", num 2500000); ("estimated_slippage_bps", num 25) ].

Definition gas_data : obj :=
  list_to_map [
    ("chain", VStr "base"); ("congestion_level", VStr "normal");
    ("base_fee_gwei", num 2); ("median_priority_fee_gwei", VNum (Fin (3 # 10)));
    ("suggested_max_fee_gwei", VNum (Fin (13 # 5))) ].

Definition answer {D} (d : D) : Reply D :=
  {| r_ok := true; r_status := 200;
     r_json := Some {| body_ok := true; message := VUndef; data := Some d |};
     r_error := None |}.

Definition online : World :=
  {| ACP_CHAIN := "base";
     nowIso := "2025-01-01T00:00:00.000Z";
     gas_profile := fun _ => answer gas_data;
     venue_depth := fun _ _ _ =>
       answer {| venues := [pool]; best_by_depth := Some pool |} |}.

Definition trade (notional max_slippage_bps leverage : value) : obj :=
  list_to_map [
    ("client_agent_id", VStr "x"); ("chain", VStr "base");
    ("asset_in", VStr "USDC"); ("asset_out", VStr "WETH"); ("side", VStr "buy");
    ("notional_value_usd", notional); ("max_slippage_bps", max_slippage_bps);
    ("leverage", leverage); ("execution_venue", VStr "unknown") ].

(** The requirement of the end-to-end scenario of the specification. *)
Definition requirement : obj :=
  list_to_map [
    ("client_agent_id", VStr "x"); ("chain", VStr "base");
    ("asset_in", VStr "USDC"); ("asset_out", VStr "WETH"); ("side", VStr "buy");
    ("notional_value_usd", VStr "10,000"); ("max_slippage_bps", num 50);
    ("execution_venue", VStr "unknown") ].

(** A large leveraged trade: slippage over the cap and a score over 80. *)
Definition oversized : obj := trade (num 200000) (num 50) (num 3).


(** A trade whose fallback estimate is 30 bps. *)
Definition thirty_bps : obj := trade (num 18750) (num 50) (num 1).

Definition quote (notional max_slippage_bps : value) : obj :=
  list_to_map [
    ("client_agent_id", VStr "x"); ("chain", VStr "base");
    ("asset_in", VStr "USDC"); ("asset_out", VStr "WETH");
    ("notional_value_usd", notional); ("max_slippage_bps", max_slippage_bps) ].

(** A risk_sentinel request of the five-job provider. *)
Definition sentinel (notional : value) : obj :=
  list_to_map [
    ("client_agent_id", VStr "x"); ("asset_pair", VStr "USDC/WETH");
    ("side", VStr "buy"); ("notional_value_usd", notional);
    ("execution_venue", VStr "uniswap_v3"); ("chain", VStr "base");
    ("leverage", num 1) ].
End Scenario.

(* ===================================================================== *)
(** ** The resources server behind the Base-only provider *)
(* ===================================================================== *)

Module Server.

(** *** The outside of the server *)

(** Environment variables, the clock, and the subgraph gateway: a POST to
    an endpoint with the variables of the query gives [r.ok] and the parsed
    body, or fails (no connection, a body that is not JSON). *)
Record Env := {
  GRAPH_API_KEY : option string;
  AERODROME_SUBGRAPH_ID : option string;
  UNISWAPV3_SUBGRAPH_ID : option string;
  post : string -> obj -> completion (bool * value);
  now : string
}.

Definition env (v : option string) : value := from_option VStr VUndef v.

(** What a handler sends: the status and, of the JSON body, the part that
    the provider reads ([ok], [message], [data]). *)
Record Response (D : Type) := {
  status : Z;
  body : Base.Body D
}.
Arguments status {D} _.
Arguments body {D} _.

(** JSON has no [undefined], [NaN] or infinity: [res.json] leaves out a
    property whose value is [undefined] and writes [null] for a number that
    is not finite.  (Values nested deeper come from parsed JSON already.) *)
Definition json_value (v : value) : option value :=
  match v with
  | VUndef => None
  | VNum n => Some (if isFinite n then VNum n else VNull)
  | _ => Some v
  end.

Definition json_object (o : obj) : obj := omap json_value o.

(** *** Resource: base-gas-profile *)

Definition gas_profile (e : Env) (query : obj) : Response obj :=
  let ethUsd :=
    Number_of_string
      (remove_commas (ToString (or_else (getp query "eth_usd") (VStr "3500")))) in
  let eth_usd :=
    if isFinite ethUsd && num_gtb ethUsd (of_Z 0) then ethUsd else of_Z 3500 in
  (* Minimal output (safe default). *)
  {| status := 200;
     body :=
       {| Base.body_ok := true;
          Base.message := VUndef;
          Base.data := Some (json_object (list_to_map [
            ("chain", VStr "base");
            ("congestion_level", VStr "normal");
            ("base_fee_gwei", num 2);
            ("median_priority_fee_gwei", VNum (Fin (3 # 10)));
            ("suggested_max_fee_gwei", VNum (Fin (13 # 5)));
            ("cost_estimates", object [
              ("swap_estimated_cost_usd", VNum (Fin (13 # 20)));
              ("complex_tx_estimated_cost_usd", VNum (Fin (31 # 20)));
              ("eth_usd", VNum eth_usd)
            ]);
            ("last_updated_utc", VStr (now e))
          ])) |} |}.

(** *** Graph helpers *)

Definition graphEndpoint (e : Env) (subgraphId : option string) : completion string :=
  if negb (truthy (env (GRAPH_API_KEY e))) then Throw "GRAPH_API_KEY missing"
  else if negb (truthy (env subgraphId)) then Throw "Subgraph ID missing"
  else
    mret ("https://gateway.thegraph.com/api/" ++ ToString (env (GRAPH_API_KEY e))
          ++ "/subgraphs/id/" ++ ToString (env subgraphId)).

(** The text after the prefix of the error is not modelled. *)
Definition gql (e : Env) (endpoint : string) (variables : obj) : completion value :=
  r ← post e endpoint variables;
  let j := r.2 in
  if negb r.1 then Throw "GraphQL error"
  else
    errors ← member j "errors";
    if truthy errors then Throw "GraphQL error"
    else member j "data".

(** Minimal token map. *)
Definition BASE_TOKENS : gmap string string :=
  list_to_map [
    ("USDC", "0x833589fCD6eDb6E08f4c7C32D4f71b54bdA02913");
    ("WETH", "0x4200000000000000000000000000000000000006");
    ("AERO", "0x940181a94a35a4569e4529a3cdfb74e38fd98631")
  ].

(** The key of the lookup is in upper case, so that it names no inherited
    property of the token map. *)
Definition normAddrOrSymbol (x : value) : option string :=
  if negb (truthy x) then None
  else
    let s := trim (ToString x) in
    if String.prefix "0x" s && (String.length s =? 42)%nat then Some s
    else
      let up := toUpperCase s in
      BASE_TOKENS !! up.

(** *** Helpers *)

Definition bps (x : number) : number := Math_round (num_mul x (of_Z 10000)).

(** [!n || n <= 0] on a number. *)
Definition no_liquidity (n : number) : bool :=
  negb (truthy (VNum n)) || num_leb n (of_Z 0).

Definition estSlipV2 (notionalUsd reserveUsd : number) : number :=
  if no_liquidity reserveUsd then of_Z 9999
  else
    let ratio := num_div notionalUsd reserveUsd in
    Math_max (of_Z 1) (Math_min (of_Z 2000) (bps (num_mul ratio (Fin (6 # 5))))).

Definition estSlipV3 (notionalUsd tvlUsd : number) (feeTier : value) : number :=
  if no_liquidity tvlUsd then of_Z 9999
  else
    let ratio := num_div notionalUsd tvlUsd in
    let baseFeeBps :=
      num_mul (num_div (ToNumber (or_else (VNum (ToNumber feeTier)) (num 3000)))
                       (of_Z 1000000))
              (of_Z 10000) in
    let impactBps := bps (num_mul ratio (of_Z 1)) in
    Math_max (of_Z 1)
      (Math_min (of_Z 2000) (Math_round (num_add baseFeeBps impactBps))).

(** [[...(a || []), ...(b || [])]], then the first pool or [null]. *)
Definition first_pool (data : value) (k0 k1 : string) : completion value :=
  a ← member data k0;
  pools0 ← Base.iterate a;
  b ← member data k1;
  pools1 ← Base.iterate b;
  mret (match (pools0 ++ pools1)%list with
        | [] => VNull
        | pool :: _ => pool
        end).

Definition token_pair (tokenA tokenB : string) : obj :=
  list_to_map [("a", VStr (toLowerCase tokenA)); ("b", VStr (toLowerCase tokenB))].

Definition aerodromeBestPool (e : Env) (tokenA tokenB : string) : completion value :=
  endpoint ← graphEndpoint e (AERODROME_SUBGRAPH_ID e);
  data ← gql e endpoint (token_pair tokenA tokenB);
  first_pool data "pairs0" "pairs1".

Definition uniswapV3BestPool (e : Env) (tokenA tokenB : string) : completion value :=
  endpoint ← graphEndpoint e (UNISWAPV3_SUBGRAPH_ID e);
  data ← gql e endpoint (token_pair tokenA tokenB);
  first_pool data "pools0" "pools1".

(** [pool.k?.symbol]. *)
Definition symbol_of (pool : value) (k : string) : value :=
  if nullish (prop k pool) then VUndef else prop "symbol" (prop k pool).

(** *** Resource: base-venue-depth *)

Definition aerodrome_venue (notionalUsd : number) (aero : value) : obj :=
  let reserveUsd := ToNumber (or_else (prop "reserveUSD" aero) (num 0)) in
  list_to_map [
    ("venue", VStr "aerodrome");
    ("pool_id", prop "id" aero);
    ("pool_type", VStr (if truthy (prop "stable" aero) then "stable" else "volatile"));
    ("depth_usd", VNum reserveUsd);
    ("estimated_slippage_bps", VNum (estSlipV2 notionalUsd reserveUsd));
    ("token0", symbol_of aero "token0");
    ("token1", symbol_of aero "token1")
  ].

Definition uniswap_venue (notionalUsd : number) (uni : value) : obj :=
  let tvlUsd := ToNumber (or_else (prop "totalValueLockedUSD" uni) (num 0)) in
  list_to_map [
    ("venue", VStr "uniswap_v3");
    ("pool_id", prop "id" uni);
    ("feeTier", VStr (ToString (prop "feeTier" uni)));
    ("depth_usd", VNum tvlUsd);
    ("estimated_slippage_bps",
     VNum (estSlipV3 notionalUsd tvlUsd (prop "feeTier" uni)));
    ("token0", symbol_of uni "token0");
    ("token1", symbol_of uni "token1")
  ].

Definition refuse {D} (code : Z) (text : string) : Response D :=
  {| status := code;
     body := {| Base.body_ok := false; Base.message := VStr text; Base.data := None |} |}.

(** The handler up to its [catch]; the comparator of its sort,
    [(b.depth_usd || 0) - (a.depth_usd || 0)], is that of [Base.sort_by_depth]. *)
Definition venue_depth_try (e : Env) (query : obj)
  : completion (Response Base.DepthData) :=
  let assetIn := trim (ToString (or_else (getp query "asset_in") (VStr ""))) in
  let assetOut := trim (ToString (or_else (getp query "asset_out") (VStr ""))) in
  let notionalUsd :=
    Number_of_string
      (remove_commas (ToString (or_else (getp query "notional_usd") (VStr "0")))) in
  match normAddrOrSymbol (VStr assetIn), normAddrOrSymbol (VStr assetOut) with
  | Some tokenA, Some tokenB =>
      if negb (isFinite notionalUsd) || num_leb notionalUsd (of_Z 0) then
        mret (refuse 400 "notional_usd must be > 0")
      else
        aero ← aerodromeBestPool e tokenA tokenB;
        uni ← uniswapV3BestPool e tokenA tokenB;
        let venues :=
          ((if truthy aero then [aerodrome_venue notionalUsd aero] else [])
           ++ (if truthy uni then [uniswap_venue notionalUsd uni] else []))%list in
        let venues := Base.sort_by_depth venues in
        mret {| status := 200;
                body :=
                  {| Base.body_ok := true;
                     Base.message := VUndef;
                     Base.data := Some
                       {| Base.venues := map json_object venues;
                          Base.best_by_depth := json_object <$> head venues |} |} |}
  | _, _ =>
      mret (refuse 400
              "Unknown asset_in/asset_out. Provide token addresses or extend BASE_TOKENS map.")
  end.

Definition venue_depth (e : Env) (query : obj) : Response Base.DepthData :=
  match venue_depth_try e query with
  | Normal response => response
  | Throw _ => refuse 500 "Failed to compute venue depth from subgraphs."
  end.

(** *** The provider in front of this server *)

(** What [safeFetchJson] makes of a response that arrived. *)
Definition reply_of {D} (r : Response D) : Base.Reply D :=
  {| Base.r_ok := (200 <=? status r)%Z && (status r <? 300)%Z;
     Base.r_status := status r;
     Base.r_json := Some (body r);
     Base.r_error := None |}.

(** The world of a provider whose resources are served by this server. *)
Definition served (e : Env) (chain : string) : Base.World :=
  {| Base.ACP_CHAIN := chain;
     Base.nowIso := now e;
     Base.gas_profile := fun eth_usd =>
       reply_of (gas_profile e
                   (from_option (fun s => {["eth_usd" := VStr s]}) ∅ eth_usd));
     Base.venue_depth := fun asset_in asset_out notional_usd =>
       reply_of (venue_depth e (list_to_map [
         ("asset_in", VStr asset_in);
         ("asset_out", VStr asset_out);
         ("notional_usd", VStr notional_usd) ])) |}.

End Server.

(* ===================================================================== *)
(** ** The static resources server *)
(* ===================================================================== *)

Module Static.

(** Helper: normalize chain string *)
Definition normalizeChain (chain : value) : string :=
  match chain with
  | VStr s => if negb (truthy chain) then "base" else toLowerCase (trim s)
  | _ => "base"
  end.

(** Helper: normalize risk tolerance *)
Definition normalizeRiskTolerance (risk : value) : string :=
  match risk with
  | VStr s =>
      if negb (truthy risk) then "moderate"
      else
        let v := toLowerCase (trim s) in
        if includes ["conservative"; "moderate"; "aggressive"] v then v
        else "moderate"
  | _ => "moderate"
  end.

(** Helper: normalize objective *)
Definition normalizeObjective (obj : value) : string :=
  match obj with
  | VStr s =>
      if negb (truthy obj) then "balanced"
      else
        let v := toLowerCase (trim s) in
        if includes ["maximize_yield"; "preserve_capital"; "balanced"] v then v
        else "balanced"
  | _ => "balanced"
  end.

(** The allocation templates of /resources/portfolio-templates: asset and
    target weight in percent. *)
Definition Template := list (string * Z).

Definition templates : gmap string (gmap string Template) :=
  list_to_map [
    ("conservative", list_to_map [
      ("preserve_capital", [("USDC", 60); ("USDT", 20); ("WETH", 10); ("WBTC", 10)]);
      ("balanced", [("USDC", 40); ("WETH", 30); ("WBTC", 20); ("LSTs", 10)]);
      ("maximize_yield", [("USDC", 30); ("WETH", 30); ("DeFi_bluechips", 40)]) ]);
    ("moderate", list_to_map [
      ("preserve_capital", [("USDC", 40); ("USDT", 20); ("WETH", 20); ("WBTC", 20)]);
      ("balanced", [("USDC", 30); ("WETH", 30); ("WBTC", 20); ("DeFi_bluechips", 20)]);
      ("maximize_yield", [("USDC", 20); ("WETH", 30); ("DeFi_bluechips", 50)]) ]);
    ("aggressive", list_to_map [
      ("preserve_capital", [("USDC", 30); ("WETH", 30); ("WBTC", 20); ("DeFi_bluechips", 20)]);
      ("balanced", [("USDC", 20); ("WETH", 30); ("WBTC", 20); ("DeFi_bluechips", 30)]);
      ("maximize_yield",
       [("USDC", 10); ("WETH", 25); ("WBTC", 15); ("DeFi_bluechips", 50)]) ])
  ]%Z.

Definition template_value (t : Template) : value :=
  VArr (map (fun row => object [("asset", VStr row.1); ("target_weight_pct", num row.2)]) t).

(** GET /resources/portfolio-templates.  Both keys of the lookup come out
    of a normalizer, so that they name a template of the table. *)
Definition portfolio_templates (now : string) (query : obj) : value :=
  let riskTolerance := normalizeRiskTolerance (getp query "risk_tolerance") in
  let objective :=
    normalizeObjective
      (or_else (getp query "target_objective") (getp query "objective")) in
  let template :=
    default (default [] (templates !! "moderate" ≫= (.!! "balanced")))
      (templates !! riskTolerance ≫= (.!! objective)) in
  object [
    ("resource", VStr "portfolio-templates");
    ("risk_tolerance", VStr riskTolerance);
    ("target_objective", VStr objective);
    ("version", VStr "1.0.0");
    ("description",
     VStr "Reference allocation templates used by portfolio_rebalancer as context for heuristic suggestions.");
    ("template", template_value template);
    ("notes", VArr [
      VStr "These templates are NOT financial advice; they are illustrative shapes for different risk profiles and objectives.";
      VStr "AegisAI's rebalance recommendations should be combined with the user's own constraints and investment policy." ]);
    ("timestamp_utc", VStr now)
  ].

End Static.

(* ===================================================================== *)
(** ** Further vocabulary *)
(* ===================================================================== *)

(** The top-level string fields that a validator of the Base-only provider
    lowers before comparing them with its list of accepted words. *)
Definition enumerated_fields (v : Validator) : list string :=
  match v with
  | PreTradeRiskPack => ["chain"; "side"; "execution_venue"; "urgency"]
  | ExecutionQuoteAndRoute => ["chain"]
  | MarketIntel => ["chain"; "severity_floor"]
  | _ => []
  end.

(** A list of characters that does not start with white space. *)
Definition starts_black (l : list ascii) : Prop :=
  match l with [] => True | c :: _ => is_white c = false end.

(** A number that is an integer or an infinity. *)
Definition integral (n : number) : Prop :=
  n = PInf \/ n = NInf \/ exists k, n = of_Z k.

(** What a venue of a base-venue-depth response looks like: one of the two
    venues, an integer estimate within 1..2000 or the 9999 of a pool
    without liquidity, and a depth that is a number or [null]. *)
Definition listed_venue (v : obj) : Prop :=
  (getp v "venue" = VStr "aerodrome" \/ getp v "venue" = VStr "uniswap_v3")
  /\ exists z,
       getp v "estimated_slippage_bps" = num z
       /\ (z = 9999 \/ 1 <= z <= 2000)%Z
       /\ (getp v "depth_usd" = VNull
           \/ exists q, getp v "depth_usd" = VNum (Fin q)
                         /\ (z = 9999%Z <-> (q <= 0)%Q)).

(** Decreasing depth along a list of venues. *)
Fixpoint by_decreasing_depth (l : list obj) : Prop :=
  match l with
  | a :: (b :: _) as rest => Base.sorts_after a b = false /\ by_decreasing_depth rest
  | _ => True
  end.

(** [n / 100] written with two decimals, for [n] hundredths. *)
Definition hundredths (n : Z) : string :=
  pretty (n / 100)%Z ++ "."
  ++ zeros (2 - String.length (pretty (n mod 100)%Z)) ++ pretty (n mod 100)%Z.

(** Structural equality of numbers. *)
Definition same_number (a b : number) : bool :=
  match a, b with
  | NaN, NaN | PInf, PInf | NInf, NInf => true
  | Fin x, Fin y => (Qnum x =? Qnum y)%Z && (Qden x =? Qden y)%positive
  | _, _ => false
  end.

(** *** What the builders of the five-job provider compute *)

Module Computed.

(** The risk score of risk_sentinel before its bands are applied. *)
Definition sentinelScore (req : obj) : number :=
  let baseScore := of_Z 20 in
  let leverageImpact :=
    num_mul (num_sub (ToNumber (getp req "leverage")) (of_Z 1)) (of_Z 10) in
  let sizeImpact :=
    num_mul (Math_min (num_div (ToNumber (getp req "notional_value_usd")) (of_Z 100000))
                      (of_Z 3))
            (of_Z 10) in
  Math_min (of_Z 100) (Math_round (num_add (num_add baseScore leverageImpact) sizeImpact)).

(** The same score before rounding and capping, on rationals. *)
Definition sentinelRaw (l q : Q) : Q :=
  (20 + (l - 1) * 10 + (if Qltb 3 (q / 100000) then 3 else q / 100000) * 10)%Q.

(** The baseline and the multiplier of gas_execution_optimizer. *)
Definition baseGas (req : obj) : value :=
  if negb (Multi.isPositiveNumber (getp req "current_gas_price_wei")) then
    num (20 * 10 ^ 9)
  else getp req "current_gas_price_wei".

Definition multiplier (req : obj) : number :=
  if is_string "high" (getp req "urgency") then Fin (6 # 5)
  else if is_string "low" (getp req "urgency") then Fin (9 # 10)
  else of_Z 1.

Definition recommendedGas (req : obj) : number :=
  Math_round (num_mul (ToNumber (baseGas req)) (multiplier req)).

End Computed.

(** The job that a validator belongs to. *)
Definition job_of (v : Validator) : string :=
  match v with
  | PreTradeRiskPack => "pre_trade_risk_pack"
  | ExecutionQuoteAndRoute => "execution_quote_and_route"
  | MarketIntel | MarketIntelFeed => "market_intelligence_feed"
  | RiskSentinel => "risk_sentinel"
  | GasExecution => "gas_execution_optimizer"
  | StrategyAudit => "strategy_safety_audit"
  | PortfolioRebalancer => "portfolio_rebalancer"
  end.

(** A value that is neither [undefined], [null], an array nor an object. *)
Definition primitive (v : value) : bool :=
  match v with
  | VBool _ | VNum _ | VStr _ => true
  | _ => false
  end.

(** *** Shapes of the fields of a validated request *)

Definition filled (v : value) : Prop := isNonEmptyString v = true.

Definition word_of (words : list string) (v : value) : Prop :=
  exists s, v = VStr s /\ In s words.

Definition integer_within (lo hi : Z) (v : value) : Prop :=
  exists z, v = num z /\ (lo <= z <= hi)%Z.

Definition positive (v : value) : Prop :=
  exists q, v = VNum (Fin q) /\ (0 < q)%Q.

Definition at_least_one_fold (v : value) : Prop :=
  exists q, v = VNum (Fin q) /\ (1 <= q)%Q.

Definition words_of (words : list string) (v : value) : Prop :=
  exists names, v = VArr (map VStr names) /\ Forall (fun s => In s words) names.

(** A string without white space around it, and not empty. *)
Definition trimmed (s : string) : Prop := trim s = s /\ s <> "".

Definition trimmed_words (v : value) : Prop :=
  exists names, v = VArr (map VStr names) /\ Forall trimmed names.

(** What a validator of the Base-only provider leaves in a request that it
    accepts. *)
Definition normal_form (v : Validator) (req : obj) : Prop :=
  match v with
  | PreTradeRiskPack =>
      filled (getp req "client_agent_id")
      /\ word_of Base.SUPPORTED_CHAINS (getp req "chain")
      /\ filled (getp req "asset_in")
      /\ filled (getp req "asset_out")
      /\ word_of ["buy"; "sell"] (getp req "side")
      /\ positive (getp req "notional_value_usd")
      /\ word_of ["aerodrome"; "uniswap_v3"; "uniswap_v2"; "unknown"]
           (getp req "execution_venue")
      /\ integer_within 1 2000 (getp req "max_slippage_bps")
      /\ word_of ["low"; "normal"; "high"] (getp req "urgency")
      /\ at_least_one_fold (getp req "leverage")
      /\ (nullish (getp req "time_horizon_minutes") = true
          \/ integer_within 1 10080 (getp req "time_horizon_minutes"))
  | ExecutionQuoteAndRoute =>
      filled (getp req "client_agent_id")
      /\ word_of Base.SUPPORTED_CHAINS (getp req "chain")
      /\ filled (getp req "asset_in")
      /\ filled (getp req "asset_out")
      /\ positive (getp req "notional_value_usd")
      /\ integer_within 1 2000 (getp req "max_slippage_bps")
      /\ words_of ["aerodrome"; "uniswap_v3"; "uniswap_v2"] (getp req "allowed_venues")
      /\ getp req "allowed_venues" <> VArr []
      /\ (exists b, getp req "prefer_stable_routes" = VBool b)
      /\ integer_within 60 3600 (getp req "deadline_seconds")
  | MarketIntel =>
      filled (getp req "client_agent_id")
      /\ word_of Base.SUPPORTED_CHAINS (getp req "chain")
      /\ integer_within 5 43200 (getp req "lookback_minutes")
      /\ positive (getp req "minimum_notional_usd")
      /\ trimmed_words (getp req "focus_assets")
      /\ word_of ["info"; "low"; "medium"; "high"; "critical"]
           (getp req "severity_floor")
  | _ => True
  end.

(** An entry of the evidence of a deliverable: the label of a resource with
    the freshness of its data, or with the reason of the failure. *)
Definition evidence_entry (label : string) (entry : value) : Prop :=
  entry = object [("source", VStr label); ("freshness_seconds", num 60)]
  \/ exists reason,
       truthy reason = true
       /\ entry = object [("source", VStr label); ("error", reason)].

(** ** A deployment used to exercise the theorems *)

(** A position in one of the stablecoins that portfolio_rebalancer knows. *)
Definition stablecoin (p : value) : bool :=
  match prop "asset" p with
  | VStr a => includes ["USDC"; "USDT"; "DAI"] (toUpperCase a)
  | _ => false
  end.

(** The sum of the weights of an allocation template. *)
Definition total_weight (template : value) : number :=
  match template with
  | VArr rows =>
      fold_right (fun row sum => num_add (ToNumber (prop "target_weight_pct" row)) sum)
        (of_Z 0) rows
  | _ => NaN
  end.


Module Deployment.

Definition aero_pool : value :=
  object [
    ("id", VStr "0xaaaa"); ("reserveUSD", VStr "2500000"); ("stable", VBool false);
    ("token0", object [("symbol", VStr "USDC")]);
    ("token1", object [("symbol", VStr "WETH")]) ].

Definition uni_pool : value :=
  object [
    ("id", VStr "0xbbbb"); ("feeTier", VStr "500");
    ("totalValueLockedUSD", VStr "9000000.5");
    ("token0", object [("symbol", VStr "WETH")]);
    ("token1", object [("symbol", VStr "USDC")]) ].

(** A gateway that knows one pool of each venue, whatever the pair. *)
Definition gateway : Server.Env :=
  {| Server.GRAPH_API_KEY := Some "key";
     Server.AERODROME_SUBGRAPH_ID := Some "aero";
     Server.UNISWAPV3_SUBGRAPH_ID := Some "uni";
     Server.post := fun _ _ =>
       Normal (true, object [
         ("data", object [
            ("pairs0", VArr [aero_pool]); ("pairs1", VArr []);
            ("pools0", VArr []); ("pools1", VArr [uni_pool]) ]) ]);
     Server.now := "2025-01-01T00:00:00.000Z" |}.

(** A server without the key of the gateway. *)
Definition keyless : Server.Env :=
  {| Server.GRAPH_API_KEY := None;
     Server.AERODROME_SUBGRAPH_ID := Some "aero";
     Server.UNISWAPV3_SUBGRAPH_ID := Some "uni";
     Server.post := fun _ _ => Throw "fetch failed";
     Server.now := "2025-01-01T00:00:00.000Z" |}.


End Deployment.

(* ===================================================================== *)
(** ** Proofs *)
(* ===================================================================== *)

Example Number_of_string_examples :
  Number_of_string "50000" = of_Z 50000
  /\ Number_of_string " 1.5e3 " = of_Z 1500
  /\ Number_of_string "25E-1" = Fin (5 # 2)
  /\ Number_of_string "-.25" = Fin (-1 # 4)
  /\ Number_of_string "0x1f" = of_Z 31
  /\ Number_of_string "" = of_Z 0
  /\ Number_of_string "50,000" = NaN
  /\ Number_of_string "-Infinity" = NInf
  /\ Number_of_string "1e" = NaN
  /\ Number_of_string "." = NaN
  /\ Number_of_string "5." = of_Z 5
  /\ Number_of_string "-0x10" = NaN.
Proof. vm_compute. repeat split. Qed.

Example toFixed_examples :
  toFixed 2 (Fin (2 # 7)) = "0.29"
  /\ toFixed 2 (of_Z 0) = "0.00"
  /\ toFixed 2 (Fin (5 # 1000)) = "0.01"
  /\ toFixed 2 (Fin (-1234 # 10)) = "-123.40"
  /\ ToString (VArr [num 1; VNull; VStr "a"; VNum (Fin (5 # 4))]) = "1,,a,1.25".
Proof. vm_compute. repeat split. Qed.


(** * Facts about the runtime *)

Lemma getp_insert_eq (o : obj) k v : getp (<[k := v]> o) k = v.
Proof. unfold getp. by rewrite lookup_insert_eq. Qed.

Lemma getp_insert_ne (o : obj) k k' v : k ≠ k' -> getp (<[k := v]> o) k' = getp o k'.
Proof. intros H. unfold getp. by rewrite lookup_insert_ne. Qed.

Lemma prop_object_here k v l : prop k (object ((k, v) :: l)) = v.
Proof. unfold prop, object. simpl. apply getp_insert_eq. Qed.

Lemma prop_object_skip k k' v l :
  k' ≠ k -> prop k (object ((k', v) :: l)) = prop k (object l).
Proof. intros H. unfold prop, object. simpl. by apply getp_insert_ne. Qed.

Lemma check_violation c f m e : Base.check c f m e = (e ++ violation c f m)%list.
Proof. destruct c; simpl; [reflexivity | by rewrite app_nil_r]. Qed.

Lemma pushErr_true e f m : Base.pushErr e f m = (e ++ violation true f m)%list.
Proof. reflexivity. Qed.

Ltac flatten_errors :=
  rewrite ?check_violation, ?pushErr_true; cbn [concat];
  rewrite <- ?app_assoc, ?app_nil_r; cbn [app].

Lemma getp_chainNormalized req k :
  k ≠ "chain" -> getp (BaseSpec.chainNormalized req) k = getp req k.
Proof.
  intros H. unfold BaseSpec.chainNormalized.
  destruct (isNonEmptyString _); [|done]. by rewrite getp_insert_ne.
Qed.

Lemma validateBaseChain_spec req errors :
  Base.validateBaseChain req errors
  = (BaseSpec.chainNormalized req, (errors ++ BaseSpec.chainViolations req)%list).
Proof.
  unfold Base.validateBaseChain, BaseSpec.chainNormalized, BaseSpec.chainViolations.
  destruct (isNonEmptyString (getp req "chain")); simpl; [|reflexivity].
  by rewrite check_violation.
Qed.

Lemma distinct_keys (k k' : string) : String.eqb k k' = false -> k ≠ k'.
Proof. apply String.eqb_neq. Qed.

Ltac read_req :=
  repeat match goal with
  | |- context [getp (<[?k := ?v]> ?o) ?k'] =>
      first
        [ constr_eq k k'; rewrite (getp_insert_eq o k v)
        | rewrite (getp_insert_ne o k k' v (distinct_keys k k' eq_refl)) ]
  | |- context [getp (BaseSpec.chainNormalized ?o) ?k] =>
      rewrite (getp_chainNormalized o k (distinct_keys k "chain" eq_refl))
  end.

Lemma validatePreTradeRiskPack_spec req :
  Base.validatePreTradeRiskPack req
  = (BaseSpec.preTradeNormalized req,
     Base.finish (concat (BaseSpec.preTradeViolations req))).
Proof.
  unfold Base.validatePreTradeRiskPack. rewrite validateBaseChain_spec.
  cbv zeta. read_req.
  unfold BaseSpec.preTradeNormalized, BaseSpec.preTradeViolations, BaseSpec.lowered,
    Base.oneOf.
  destruct (nullish (getp req "time_horizon_minutes")); cbv beta iota;
    cbn [negb andb]; flatten_errors; reflexivity.
Qed.

Lemma validateExecutionQuoteAndRoute_spec req :
  Base.validateExecutionQuoteAndRoute req
  = (BaseSpec.executionQuoteNormalized req,
     Base.finish (concat (BaseSpec.executionQuoteViolations req))).
Proof.
  unfold Base.validateExecutionQuoteAndRoute. rewrite validateBaseChain_spec.
  cbv zeta. read_req.
  unfold BaseSpec.executionQuoteNormalized, BaseSpec.executionQuoteViolations,
    BaseSpec.allowedVenuesViolations, BaseSpec.deadlineOf,
    BaseSpec.unsupportedVenues, BaseSpec.loweredVenues.
  destruct (getp req "allowed_venues") as [| | | | |[|v items]|]; cbv beta iota;
    cbn [nullish negb]; cbv beta iota; read_req; flatten_errors; reflexivity.
Qed.

Lemma validateMarketIntel_spec req :
  Base.validateMarketIntel req
  = (BaseSpec.marketIntelNormalized req,
     Base.finish (concat (BaseSpec.marketIntelViolations req))).
Proof.
  unfold Base.validateMarketIntel. rewrite validateBaseChain_spec.
  cbv zeta. read_req.
  unfold BaseSpec.marketIntelNormalized, BaseSpec.marketIntelViolations,
    BaseSpec.focusAssetsViolations, BaseSpec.minimumNotionalOf, BaseSpec.lowered.
  destruct (getp req "focus_assets"); cbv beta iota;
    cbn [nullish negb]; cbv beta iota; read_req; flatten_errors; reflexivity.
Qed.


Lemma check_violation' c f m e : Multi.check c f m e = (e ++ violation c f m)%list.
Proof. destruct c; simpl; [reflexivity | by rewrite app_nil_r]. Qed.

Lemma pushErr_true' e f m : Multi.pushErr e f m = (e ++ violation true f m)%list.
Proof. reflexivity. Qed.

Ltac flatten_errors' :=
  rewrite ?check_violation', ?pushErr_true'; cbn [concat];
  rewrite <- ?app_assoc, ?app_nil_r; cbn [app].

Lemma validateRiskSentinel_spec req :
  Multi.validateRiskSentinel req
  = Multi.finish (concat (MultiSpec.riskSentinelViolations req)).
Proof.
  unfold Multi.validateRiskSentinel, MultiSpec.riskSentinelViolations.
  cbv zeta. flatten_errors'. reflexivity.
Qed.

Lemma validateGasExecution_spec req :
  Multi.validateGasExecution req
  = Multi.finish (concat (MultiSpec.gasExecutionViolations req)).
Proof.
  unfold Multi.validateGasExecution, MultiSpec.gasExecutionViolations.
  cbv zeta. flatten_errors'. reflexivity.
Qed.

Lemma forEach_elements field items : forall idx errors,
  Multi.forEach
    (fun x i e =>
       Multi.check (negb (isNonEmptyString x)) (Multi.indexed field i)
         "must be a non-empty string" e)
    items idx errors
  = (errors ++ concat (imap (fun i x =>
                               violation (negb (isNonEmptyString x))
                                 (Multi.indexed field (idx + i))
                                 "must be a non-empty string") items))%list.
Proof.
  induction items as [|x items IH]; intros idx errors; simpl.
  - by rewrite app_nil_r.
  - rewrite IH, check_violation', <- app_assoc, Nat.add_0_r.
    do 3 f_equal. apply imap_ext. intros i y _. unfold compose.
    by rewrite Nat.add_succ_r.
Qed.

Lemma validateStrategyAudit_spec req :
  Multi.validateStrategyAudit req
  = Multi.finish (concat (MultiSpec.strategyAuditViolations req)).
Proof.
  unfold Multi.validateStrategyAudit, MultiSpec.strategyAuditViolations,
    MultiSpec.contractsViolations, MultiSpec.elementViolations.
  cbv zeta.
  destruct (getp req "contracts_involved") as [| | | | |[|c rest]|];
    rewrite ?forEach_elements; flatten_errors'; reflexivity.
Qed.

Lemma validateMarketIntelFeed_spec req :
  Multi.validateMarketIntel req
  = Multi.finish (concat (MultiSpec.marketIntelViolations req)).
Proof.
  unfold Multi.validateMarketIntel, MultiSpec.marketIntelViolations,
    MultiSpec.focusAssetsViolations, MultiSpec.elementViolations.
  cbv zeta.
  destruct (getp req "focus_assets"); cbn [nullish negb]; cbv iota;
    rewrite ?forEach_elements; flatten_errors'; reflexivity.
Qed.

Lemma checkPosition_spec p idx errors :
  Multi.checkPosition p idx errors
  = Normal (errors ++ MultiSpec.positionViolations idx p)%list.
Proof.
  unfold Multi.checkPosition, MultiSpec.positionViolations.
  destruct p as [| |[]|[| | |q]|s|l|o]; cbn [truthy typeof negb orb]; try reflexivity.
  - destruct (negb (Qeq_bool q 0)); reflexivity.
  - destruct (negb (s =? "")%string); reflexivity.
  - cbn -[Multi.check]. rewrite !check_violation', <- !app_assoc. reflexivity.
  - cbn -[Multi.check getp]. rewrite !check_violation', <- !app_assoc. reflexivity.
Qed.

Lemma forEachM_spec f g items :
  (forall x i e, f x i e = Normal (e ++ g i x)%list) ->
  forall idx errors,
    Multi.forEachM f items idx errors
    = Normal (errors ++ concat (imap (fun i x => g (idx + i) x) items))%list.
Proof.
  intros Hf. induction items as [|x items IH]; intros idx errors; simpl.
  - by rewrite app_nil_r.
  - rewrite Hf. cbn [mbind completion_bind].
    rewrite IH, <- app_assoc, Nat.add_0_r.
    do 4 f_equal. apply imap_ext. intros i y _. unfold compose.
    by rewrite Nat.add_succ_r.
Qed.

Lemma validatePortfolioRebalancer_spec req :
  Multi.validatePortfolioRebalancer req
  = Normal (Multi.finish (concat (MultiSpec.portfolioViolations req))).
Proof.
  unfold Multi.validatePortfolioRebalancer, MultiSpec.portfolioViolations,
    MultiSpec.positionsViolations.
  cbv zeta.
  destruct (getp req "current_positions") as [| | | | |[|p rest]|];
    rewrite ?(forEachM_spec _ _ _ checkPosition_spec);
    cbn [mbind completion_bind mret completion_ret];
    flatten_errors'; reflexivity.
Qed.


Lemma preTrade_fields (w : Base.World) (req : obj) (val : Base.Validation) :
  Base.ok val = true ->
  let d := Base.buildPreTradeRiskPackDeliverable w req val in
  let est := Observed.estSlipBps w req in
  let score := Base.riskScore req est (Observed.congestion w req) in
  prop "validation_passed" d = VBool true
  /\ prop "risk_score" d = VNum score
  /\ prop "decision" d = VStr (Base.decide req est score).1
  /\ prop "recommended_size_factor" d
     = VNum (Number_of_string (toFixed 2 (Base.decide req est score).2))
  /\ prop "estimated_slippage_bps_at_size" (prop "liquidity_analysis" d) = est
  /\ prop "congestion_level" (prop "gas_analysis" d) = Observed.congestion w req
  /\ prop "recommended_max_slippage_bps" (prop "execution_plan" d)
     = VNum (Base.recommendedMaxSlip req est)
  /\ prop "confidence_level" d
     = VStr (Base.confidenceFromEvidence
               (Some (Base.f_evidence (Observed.gasProfile w req)
                      ++ Base.f_evidence (Observed.depth w req))%list)).
Proof.
  intros Hok d est score. subst d. unfold Base.buildPreTradeRiskPackDeliverable.
  rewrite Hok. cbn [negb]. repeat split; reflexivity.
Qed.

Lemma quote_fields (w : Base.World) (req : obj) (val : Base.Validation) listed :
  Base.ok val = true ->
  Base.array_items (getp req "allowed_venues") = Normal listed ->
  exists d, Base.buildExecutionQuoteAndRouteDeliverable w req val = Normal d
    /\ prop "validation_passed" d = VBool true
    /\ prop "decision" d = VUndef
    /\ prop "risk_score" d = VUndef
    /\ prop "estimated_slippage_bps" d
       = VNum (Math_round (ToNumber (Observed.quoteSlipBps w req listed)))
    /\ prop "recommended_max_slippage_bps" d
       = VNum (Base.recommendedMaxSlip req (Observed.quoteSlipBps w req listed)).
Proof.
  intros Hok Hl. unfold Base.buildExecutionQuoteAndRouteDeliverable.
  rewrite Hok, Hl. cbn [negb mbind completion_bind mret completion_ret].
  eexists. split; [reflexivity|]. repeat split; reflexivity.
Qed.

Lemma invalid_fields (w : Base.World) name (val : Base.Validation) :
  let d := Base.invalidDeliverable w name val in
  prop "validation_passed" d = VBool false
  /\ prop "decision" d = VStr "REJECT"
  /\ prop "risk_score" d = num 0
  /\ prop "recommended_size_factor" d = num 0
  /\ prop "validation_errors" d = Base.strings (Base.errors val).
Proof. repeat split; reflexivity. Qed.

(** ** Facts about numbers *)

Lemma isFinite_Fin n : isFinite n = true -> exists q, n = Fin q.
Proof. destruct n; try discriminate. eauto. Qed.

Lemma Qltb_lt a b : Qltb a b = true <-> (a < b)%Q.
Proof.
  unfold Qltb. rewrite Qlt_alt. destruct (a ?= b)%Q; intuition discriminate.
Qed.

Lemma Qltb_ge a b : Qltb a b = false <-> (b <= a)%Q.
Proof.
  unfold Qltb. destruct (Qcompare_spec a b) as [H|H|H];
    split; intros H'; try discriminate; try reflexivity.
  - rewrite H. apply Qle_refl.
  - exfalso. apply (Qlt_not_le _ _ H). assumption.
  - apply Qlt_le_weak. assumption.
Qed.

Lemma num_leb_Fin a b : num_leb (Fin a) (Fin b) = true <-> (a <= b)%Q.
Proof.
  unfold num_leb, num_ltb, num_eqb. rewrite orb_true_iff, Qltb_lt, Qeq_bool_iff.
  rewrite Qle_lteq. reflexivity.
Qed.

Lemma num_leb_Fin_false a b : num_leb (Fin a) (Fin b) = false <-> (b < a)%Q.
Proof.
  rewrite <- not_true_iff_false, num_leb_Fin.
  split; [apply Qnot_le_lt | apply Qlt_not_le].
Qed.

Lemma finish_ok e : Base.ok (Base.finish e) = true <-> e = [].
Proof. destruct e; simpl; intuition discriminate. Qed.

Lemma violation_nil c f m : violation c f m = [] <-> c = false.
Proof. destruct c; simpl; intuition discriminate. Qed.

Lemma in_range_toInt v lo hi :
  Base.out_of_range (Base.toInt v) (of_Z lo) (of_Z hi) = false ->
  exists c, Base.toInt v = of_Z c /\ (lo <= c <= hi)%Z.
Proof.
  unfold Base.toInt, Base.out_of_range.
  destruct (Base.toNumber v) as [| | |q]; try discriminate.
  cbn [isFinite Math_trunc negb orb]. intros H.
  apply orb_false_iff in H as [H1 H2].
  unfold num_gtb, of_Z, num_ltb in *. apply Qltb_ge in H1, H2.
  rewrite <- Zle_Qle in H1, H2. eauto.
Qed.

Lemma positive_toNumber n :
  negb (isFinite n) || num_leb n (of_Z 0) = false ->
  exists q, n = Fin q /\ (0 < q)%Q.
Proof.
  destruct n as [| | |q]; try discriminate. cbn [isFinite negb orb].
  intros H. apply num_leb_Fin_false in H. eauto.
Qed.

Lemma at_least_one n :
  negb (isFinite n) || num_ltb n (of_Z 1) = false ->
  exists q, n = Fin q /\ (1 <= q)%Q.
Proof.
  destruct n as [| | |q]; try discriminate. cbn [isFinite negb orb].
  intros H. apply Qltb_ge in H. eauto.
Qed.

Lemma getp_preTradeNormalized req :
  getp (BaseSpec.preTradeNormalized req) "notional_value_usd"
    = VNum (Base.toNumber (getp req "notional_value_usd"))
  /\ getp (BaseSpec.preTradeNormalized req) "max_slippage_bps"
    = VNum (Base.toInt (getp req "max_slippage_bps"))
  /\ getp (BaseSpec.preTradeNormalized req) "leverage"
    = VNum (Base.toNumber (coalesce (getp req "leverage") (num 1))).
Proof.
  unfold BaseSpec.preTradeNormalized.
  destruct (nullish (getp req "time_horizon_minutes")); read_req; auto.
Qed.

(** What validation guarantees about a pre-trade request. *)
Lemma preTrade_valid r req val :
  Base.validatePreTradeRiskPack r = (req, val) -> Base.ok val = true ->
  exists q l c,
    getp req "notional_value_usd" = VNum (Fin q) /\ (0 < q)%Q
    /\ getp req "leverage" = VNum (Fin l) /\ (1 <= l)%Q
    /\ getp req "max_slippage_bps" = VNum (of_Z c) /\ (1 <= c <= 2000)%Z.
Proof.
  rewrite validatePreTradeRiskPack_spec. intros [= <- <-] Hok.
  apply finish_ok in Hok. cbn [concat BaseSpec.preTradeViolations] in Hok.
  repeat (apply app_eq_nil in Hok as [? Hok]).
  destruct (getp_preTradeNormalized r) as (-> & -> & ->).
  match goal with H : violation _ "notional_value_usd" _ = [] |- _ =>
    apply violation_nil, positive_toNumber in H as (q & -> & ?) end.
  match goal with H : violation _ "max_slippage_bps" _ = [] |- _ =>
    apply violation_nil, in_range_toInt in H as (c & -> & ?) end.
  match goal with H : violation _ "leverage" _ = [] |- _ =>
    apply violation_nil, at_least_one in H as (l & -> & ?) end.
  exists q, l, c. repeat split; auto; lia.
Qed.

(** ** Order facts *)

Lemma num_ltb_irrefl a : num_ltb a a = false.
Proof.
  destruct a as [| | |q]; try reflexivity. apply Qltb_ge, Qle_refl.
Qed.

Lemma num_ltb_asym a b : num_ltb a b = true -> num_ltb b a = false.
Proof.
  destruct a as [| | |x], b as [| | |y]; try discriminate; try reflexivity.
  cbn [num_ltb]. rewrite Qltb_lt, Qltb_ge. apply Qlt_le_weak.
Qed.

Lemma Math_min_le_l a b : num_gtb (Math_min a b) a = false.
Proof.
  unfold num_gtb, Math_min.
  destruct a as [| | |x], b as [| | |y]; try reflexivity;
    try apply num_ltb_irrefl.
  destruct (num_ltb (Fin y) (Fin x)) eqn:E; [|apply num_ltb_irrefl].
  by apply num_ltb_asym.
Qed.

Lemma Math_min_le_r a b : num_gtb (Math_min a b) b = false.
Proof.
  unfold num_gtb, Math_min.
  destruct a as [| | |x], b as [| | |y]; try reflexivity;
    try apply num_ltb_irrefl.
  destruct (num_ltb (Fin y) (Fin x)) eqn:E; [apply num_ltb_irrefl | exact E].
Qed.


Lemma clamp_Fin n a b : Base.clamp (Fin n) (Fin a) (Fin b) = Fin (Qclamp n a b).
Proof.
  unfold Base.clamp, Math_max, Math_min, Qclamp. cbn [num_ltb].
  destruct (Qltb n b); cbn [num_ltb]; destruct (Qltb a _); reflexivity.
Qed.


Lemma Qfloor_half_mono x y : (x <= y)%Q -> (Qfloor (x + (1 # 2)) <= Qfloor (y + (1 # 2)))%Z.
Proof. intros H. apply Qfloor_resp_le. lra. Qed.

Lemma scaled_round q a b :
  a <> 0%Z ->
  Math_round (num_mul (num_div (Fin q) (of_Z a)) (of_Z b))
  = of_Z (Qfloor (Qred (Qred (q / inject_Z a) * inject_Z b) + (1 # 2))).
Proof.
  intros Ha. unfold of_Z. cbn [num_div].
  destruct (Qeq_bool (inject_Z a) 0) eqn:E; [|reflexivity].
  apply Qeq_bool_iff in E. unfold Qeq in E. simpl in E. lia.
Qed.






(** Claim C3.  For every valid pre_trade_risk_pack request whose estimated
    slippage exceeds max_slippage_bps and whose risk score is at least 80, the
    decision of the deliverable is "REJECT" and its recommended size factor is
    0: the reject rule runs after the reduce rule and overrides it. *)
Theorem reject_overrides_reduce (w : Base.World) (r req : obj) (val : Base.Validation) :
  Base.validatePreTradeRiskPack r = (req, val) ->
  Base.ok val = true ->
  let d := Base.buildPreTradeRiskPackDeliverable w req val in
  js_gt (prop "estimated_slippage_bps_at_size" (prop "liquidity_analysis" d))
        (getp req "max_slippage_bps") = true ->
  num_geb (ToNumber (prop "risk_score" d)) (of_Z 80) = true ->
  prop "decision" d = VStr "REJECT" /\ prop "recommended_size_factor" d = num 0.
Proof.
  intros _ Hok d.
  destruct (preTrade_fields w req val Hok) as (_ & Hs & Hd & Hf & He & _).
  fold d in Hs, Hd, Hf, He. rewrite Hs, Hd, Hf, He. cbn [ToNumber].
  intros Hslip Hrisk. unfold Base.decide. rewrite Hslip, Hrisk.
  split; reflexivity.
Qed.

Lemma reject_overrides_reduce_witness :
  let r := Scenario.oversized in
  let req := (Base.validatePreTradeRiskPack r).1 in
  let val := (Base.validatePreTradeRiskPack r).2 in
  let d := Base.buildPreTradeRiskPackDeliverable Scenario.offline req val in
  (Base.ok val = true
   /\ js_gt (prop "estimated_slippage_bps_at_size" (prop "liquidity_analysis" d))
            (getp req "max_slippage_bps") = true
   /\ num_geb (ToNumber (prop "risk_score" d)) (of_Z 80) = true)
  /\ prop "decision" d = VStr "REJECT" /\ prop "recommended_size_factor" d = num 0.
Proof.
  intros r req val d.
  assert (Hok : Base.ok val = true) by (vm_compute; reflexivity).
  assert (Hslip : js_gt (prop "estimated_slippage_bps_at_size"
                           (prop "liquidity_analysis" d))
                        (getp req "max_slippage_bps") = true)
    by (vm_compute; reflexivity).
  assert (Hrisk : num_geb (ToNumber (prop "risk_score" d)) (of_Z 80) = true)
    by (vm_compute; reflexivity).
  split; [auto|].
  exact (reject_overrides_reduce Scenario.offline r req val
           (surjective_pairing _) Hok Hslip Hrisk).
Defined.




Lemma getp_executionQuoteNormalized req :
  exists listed,
    (BaseSpec.allowedVenuesViolations req = [] ->
     Base.array_items (getp (BaseSpec.executionQuoteNormalized req) "allowed_venues")
     = Normal listed)
    /\ getp (BaseSpec.executionQuoteNormalized req) "max_slippage_bps"
       = VNum (Base.toInt (getp req "max_slippage_bps")).
Proof.
  unfold BaseSpec.executionQuoteNormalized, BaseSpec.allowedVenuesViolations.
  destruct (getp req "allowed_venues") as [| | | | |[|v items]|]; read_req;
    first [ eexists; split; [intros _; reflexivity | reflexivity]
          | exists []; split; [discriminate | reflexivity] ].
Qed.

(** What validation guarantees about a quote request. *)
Lemma quote_valid r req val :
  Base.validateExecutionQuoteAndRoute r = (req, val) -> Base.ok val = true ->
  exists listed c,
    Base.array_items (getp req "allowed_venues") = Normal listed
    /\ getp req "max_slippage_bps" = VNum (of_Z c) /\ (1 <= c <= 2000)%Z.
Proof.
  rewrite validateExecutionQuoteAndRoute_spec. intros [= <- <-] Hok.
  apply finish_ok in Hok. cbn [concat BaseSpec.executionQuoteViolations] in Hok.
  repeat (apply app_eq_nil in Hok as [? Hok]).
  destruct (getp_executionQuoteNormalized r) as (listed & Hl & ->).
  match goal with H : violation _ "max_slippage_bps" _ = [] |- _ =>
    apply violation_nil, in_range_toInt in H as (c & -> & ?) end.
  exists listed, c. auto.
Qed.

Lemma recommendedMaxSlip_bounds req est :
  let rec := Base.recommendedMaxSlip req est in
  let floored :=
    Math_max (of_Z 20) (Math_round (num_mul (ToNumber est) (Fin (17 # 20)))) in
  rec = Math_min (ToNumber (getp req "max_slippage_bps")) floored
  /\ num_gtb rec (ToNumber (getp req "max_slippage_bps")) = false
  /\ num_gtb rec floored = false.
Proof.
  intros rec floored. subst rec floored. unfold Base.recommendedMaxSlip.
  split; [reflexivity|]. split; [apply Math_min_le_l | apply Math_min_le_r].
Qed.

(** Claim C9 (amended).  For every valid pre_trade_risk_pack or
    execution_quote_and_route request the recommended maximum slippage equals
    min(cap, max(20, round(0.85 x estimate))), with 0.85 x estimate rounded to
    the nearest integer: it never exceeds the caller's max_slippage_bps and
    never exceeds the 20-bps-floored value of the rounded 0.85 x estimate. *)
Theorem recommended_max_slippage_rounded (w : Base.World) (r req : obj)
    (val : Base.Validation) :
  let bound (cap est rec : value) :=
    let floored :=
      Math_max (of_Z 20) (Math_round (num_mul (ToNumber est) (Fin (17 # 20)))) in
    rec = VNum (Math_min (ToNumber cap) floored)
    /\ num_gtb (ToNumber rec) (ToNumber cap) = false
    /\ num_gtb (ToNumber rec) floored = false in
  Base.ok val = true ->
  (Base.validatePreTradeRiskPack r = (req, val) ->
   let d := Base.buildPreTradeRiskPackDeliverable w req val in
   bound (getp req "max_slippage_bps")
         (prop "estimated_slippage_bps_at_size" (prop "liquidity_analysis" d))
         (prop "recommended_max_slippage_bps" (prop "execution_plan" d)))
  /\ (Base.validateExecutionQuoteAndRoute r = (req, val) ->
      exists d listed,
        Base.buildExecutionQuoteAndRouteDeliverable w req val = Normal d
        /\ Base.array_items (getp req "allowed_venues") = Normal listed
        /\ bound (getp req "max_slippage_bps") (Observed.quoteSlipBps w req listed)
                 (prop "recommended_max_slippage_bps" d)).
Proof.
  intros bound Hok. split.
  - intros _ d.
    destruct (preTrade_fields w req val Hok) as (_ & _ & _ & _ & He & _ & Hr & _).
    fold d in He, Hr. subst bound. cbv beta zeta. rewrite He, Hr. cbn [ToNumber].
    destruct (recommendedMaxSlip_bounds req (Observed.estSlipBps w req)) as (E & ? & ?).
    split; [by rewrite E | split; assumption].
  - intros Hv. destruct (quote_valid _ _ _ Hv Hok) as (listed & c & Hl & _).
    destruct (quote_fields w req val listed Hok Hl) as (d & Hd & _ & _ & _ & _ & Hr).
    exists d, listed. split; [assumption|]. split; [assumption|].
    subst bound. cbv beta zeta. rewrite Hr. cbn [ToNumber].
    destruct (recommendedMaxSlip_bounds req (Observed.quoteSlipBps w req listed))
      as (E & ? & ?).
    split; [by rewrite E | split; assumption].
Qed.

Lemma recommended_max_slippage_rounded_witness :
  let v := Base.validatePreTradeRiskPack Scenario.thirty_bps in
  let d := Base.buildPreTradeRiskPackDeliverable Scenario.offline v.1 v.2 in
  Base.ok v.2 = true
  /\ prop "recommended_max_slippage_bps" (prop "execution_plan" d) = num 26
  /\ num_gtb (ToNumber (prop "recommended_max_slippage_bps" (prop "execution_plan" d)))
             (ToNumber (getp v.1 "max_slippage_bps")) = false.
Proof.
  intros v d.
  assert (Hok : Base.ok v.2 = true) by (vm_compute; reflexivity).
  split; [assumption|]. split; [vm_compute; reflexivity|].
  exact (proj1 (proj2 (proj1 (recommended_max_slippage_rounded Scenario.offline
                                 Scenario.thirty_bps v.1 v.2 Hok)
                              (surjective_pairing _)))).
Defined.

(** Claim C9 as stated fails: at an estimate of 30 bps and a cap of 50 bps the
    recommendation is 26 bps, while min(cap, max(20, 0.85 x 30)) is 25.5 bps. *)
Lemma recommended_max_slippage_above_unrounded :
  let v := Base.validatePreTradeRiskPack Scenario.thirty_bps in
  let d := Base.buildPreTradeRiskPackDeliverable Scenario.offline v.1 v.2 in
  let est := prop "estimated_slippage_bps_at_size" (prop "liquidity_analysis" d) in
  let rec := prop "recommended_max_slippage_bps" (prop "execution_plan" d) in
  let unrounded := Math_max (of_Z 20) (num_mul (ToNumber est) (Fin (17 # 20))) in
  Base.ok v.2 = true
  /\ est = num 30
  /\ rec = num 26
  /\ Math_min (ToNumber (getp v.1 "max_slippage_bps")) unrounded = Fin (51 # 2)
  /\ num_gtb (ToNumber rec) unrounded = true.
Proof. vm_compute. repeat split; reflexivity. Qed.

Lemma fetched_failure {D} label (r : Base.Reply D) :
  Base.f_ok (Base.fetched_from label r) = false ->
  Base.fetched_from label r
  = {| Base.f_ok := false;
       Base.f_evidence :=
         [ {| Base.source := label; Base.outcome := Base.error (Base.failure_reason r) |} ];
       Base.f_data := None |}.
Proof.
  unfold Base.fetched_from. destruct (negb (Base.r_ok r) || _); [reflexivity|discriminate].
Qed.

(** Claim C2 (amended).  For the requirement of the end-to-end scenario, when
    both resource fetches fail, the deliverable has validation_passed = true
    and confidence_level = "high" (each failed fetch still contributes its
    source label); the fallback estimate clamp(round((10000/50000)*80),15,180)
    is 16 bps, unchanged by the clamp and below the 50 bps cap, so the decision
    is "APPROVE" with size factor 1, and the risk score from the fallback bands
    is 15. *)
Theorem scenario_without_resources (w : Base.World) :
  Base.f_ok (Base.fetchBaseGasProfile w None) = false ->
  Base.f_ok (Base.fetchBaseVenueDepth w (VStr "USDC") (VStr "WETH") (num 10000)) = false ->
  exists d,
    Base.buildDeliverableForJob w (VStr "pre_trade_risk_pack") (VObj Scenario.requirement)
    = Normal d
    /\ prop "validation_passed" d = VBool true
    /\ prop "confidence_level" d = VStr "high"
    /\ prop "estimated_slippage_bps_at_size" (prop "liquidity_analysis" d) = num 16
    /\ prop "decision" d = VStr "APPROVE"
    /\ prop "risk_score" d = num 15
    /\ prop "recommended_size_factor" d = num 1.
Proof.
  intros Hgas Hdepth.
  set (v := Base.validatePreTradeRiskPack Scenario.requirement).
  assert (Hok : Base.ok v.2 = true) by (vm_compute; reflexivity).
  exists (Base.buildPreTradeRiskPackDeliverable w v.1 v.2).
  split.
  { unfold Base.buildDeliverableForJob, Base.dispatch. cbn [is_string String.eqb].
    change (Base.writable (or_else (VObj Scenario.requirement) (VObj ∅)))
      with (Normal (A := obj) Scenario.requirement).
    cbn [mbind completion_bind]. fold v. destruct v. reflexivity. }
  destruct (preTrade_fields w v.1 v.2 Hok) as (Hp & Hs & Hd & Hf & He & Hc & _ & Hcf).
  assert (Hg : Observed.gasProfile w v.1 = Base.fetchBaseGasProfile w None)
    by reflexivity.
  assert (Hv : Observed.depth w v.1
               = Base.fetchBaseVenueDepth w (VStr "USDC") (VStr "WETH") (num 10000))
    by reflexivity.
  unfold Base.fetchBaseGasProfile in Hgas, Hg.
  unfold Base.fetchBaseVenueDepth in Hdepth, Hv.
  rewrite (fetched_failure _ _ Hgas) in Hg. rewrite (fetched_failure _ _ Hdepth) in Hv.
  assert (Hest : Observed.estSlipBps w v.1 = num 16).
  { unfold Observed.estSlipBps, Observed.best. rewrite Hv. vm_compute. reflexivity. }
  assert (Hcong : Observed.congestion w v.1 = VStr "unknown").
  { unfold Observed.congestion. rewrite Hg. reflexivity. }
  rewrite Hest, Hcong in *. rewrite Hg, Hv in Hcf.
  rewrite Hp, Hs, Hd, Hf, He, Hcf. repeat split; vm_compute; reflexivity.
Qed.

Lemma scenario_without_resources_witness :
  (Base.f_ok (Base.fetchBaseGasProfile Scenario.offline None) = false
   /\ Base.f_ok (Base.fetchBaseVenueDepth Scenario.offline (VStr "USDC") (VStr "WETH")
                   (num 10000)) = false)
  /\ exists d,
    Base.buildDeliverableForJob Scenario.offline (VStr "pre_trade_risk_pack")
      (VObj Scenario.requirement) = Normal d
    /\ prop "validation_passed" d = VBool true
    /\ prop "confidence_level" d = VStr "high"
    /\ prop "estimated_slippage_bps_at_size" (prop "liquidity_analysis" d) = num 16
    /\ prop "decision" d = VStr "APPROVE"
    /\ prop "risk_score" d = num 15
    /\ prop "recommended_size_factor" d = num 1.
Proof.
  split; [split; reflexivity|].
  exact (scenario_without_resources Scenario.offline eq_refl eq_refl).
Defined.

(** Claim C2 as stated fails: with both resources unavailable the confidence
    level is "high", not "low", and the estimate stays at 16 bps, not 15. *)
Lemma scenario_confidence_high_estimate_16 :
  let delivered :=
    Base.buildDeliverableForJob Scenario.offline (VStr "pre_trade_risk_pack")
      (VObj Scenario.requirement) in
  let confidence_level := field "confidence_level" delivered in
  let estimate :=
    prop "estimated_slippage_bps_at_size" (field "liquidity_analysis" delivered) in
  confidence_level = VStr "high" /\ confidence_level <> VStr "low"
  /\ estimate = num 16 /\ estimate <> num 15.
Proof. vm_compute. repeat split; discriminate. Qed.

(** ** Shapes of rejecting deliverables *)


Lemma dispatch_cases requirement validate build d :
  Base.dispatch requirement validate build = Normal d ->
  exists req req' val, validate req = (req', val)
    /\ (build req' val = Normal d \/ build ∅ val = Normal d).
Proof.
  unfold Base.dispatch. destruct (Base.writable _) as [req|]; [|discriminate].
  cbn [mbind completion_bind]. destruct (validate req) as [req' val] eqn:E.
  intros H. exists req, req', val. split; [exact E|].
  destruct (truthy requirement); auto.
Qed.

Lemma preTrade_invalid w req val d :
  Base.buildPreTradeRiskPackDeliverable w req val = d ->
  prop "validation_passed" d = VBool false ->
  prop "decision" d = VStr "REJECT" /\ prop "risk_score" d = num 0.
Proof.
  intros <-. destruct (Base.ok val) eqn:Hok.
  - destruct (preTrade_fields w req val Hok) as (-> & _). discriminate.
  - unfold Base.buildPreTradeRiskPackDeliverable. rewrite Hok. intros _.
    split; reflexivity.
Qed.

Lemma quote_invalid w req val d :
  Base.buildExecutionQuoteAndRouteDeliverable w req val = Normal d ->
  prop "validation_passed" d = VBool false ->
  prop "decision" d = VStr "REJECT" /\ prop "risk_score" d = num 0.
Proof.
  destruct (Base.ok val) eqn:Hok.
  - unfold Base.buildExecutionQuoteAndRouteDeliverable. rewrite Hok. cbn [negb].
    destruct (Base.array_items _); [|discriminate].
    cbn [mbind completion_bind mret completion_ret]. intros [= <-]. discriminate.
  - unfold Base.buildExecutionQuoteAndRouteDeliverable. rewrite Hok.
    intros [= <-] _. split; reflexivity.
Qed.

Lemma intel_invalid w req val d :
  Base.buildMarketIntelDeliverable w req val = Normal d ->
  prop "validation_passed" d = VBool false ->
  prop "decision" d = VStr "REJECT" /\ prop "risk_score" d = num 0.
Proof.
  destruct (Base.ok val) eqn:Hok.
  - unfold Base.buildMarketIntelDeliverable. rewrite Hok. cbn [negb].
    destruct (Base.iterate _); [|discriminate].
    cbn [mbind completion_bind mret completion_ret]. intros [= <-]. discriminate.
  - unfold Base.buildMarketIntelDeliverable. rewrite Hok.
    intros [= <-] _. split; reflexivity.
Qed.

Lemma base_invalid_shape w jobName requirement d :
  Base.buildDeliverableForJob w jobName requirement = Normal d ->
  prop "validation_passed" d = VBool false ->
  if supported jobName
  then prop "decision" d = VStr "REJECT" /\ prop "risk_score" d = num 0
  else prop "decision" d = VUndef /\ prop "risk_score" d = VUndef.
Proof.
  unfold Base.buildDeliverableForJob, supported. intros H Hp.
  destruct (is_string "pre_trade_risk_pack" jobName); cbn [orb].
  { apply dispatch_cases in H as (? & ? & ? & _ & [[= H]|[= H]]);
      eapply preTrade_invalid; eauto. }
  destruct (is_string "execution_quote_and_route" jobName); cbn [orb].
  { apply dispatch_cases in H as (? & ? & ? & _ & [H|H]);
      eapply quote_invalid; eauto. }
  destruct (is_string "market_intelligence_feed" jobName); cbn [orb].
  { apply dispatch_cases in H as (? & ? & ? & _ & [H|H]);
      eapply intel_invalid; eauto. }
  injection H as <-. split; reflexivity.
Qed.

Ltac bind_cases :=
  repeat match goal with
  | H : mbind _ ?c = Normal _ |- _ =>
      let E := fresh "E" in
      destruct c eqn:E; cbn [mbind completion_bind] in H; [|discriminate H]
  | H : mret _ = Normal _ |- _ => injection H as H
  | H : Normal _ = Normal _ |- _ => injection H as H
  end.

Lemma sentinel_invalid now req val d :
  Multi.buildRiskSentinelDeliverable now req val = d ->
  prop "validation_passed" d = VBool false ->
  prop "decision" d = VStr "reject" /\ prop "risk_score" d = num 0.
Proof.
  intros <-. unfold Multi.buildRiskSentinelDeliverable.
  destruct (Multi.ok val); cbn [negb]; [discriminate|]. split; reflexivity.
Qed.

Lemma gas_invalid now req val d :
  Multi.buildGasExecutionDeliverable now req val = d ->
  prop "validation_passed" d = VBool false ->
  prop "decision" d = VUndef /\ prop "risk_score" d = VUndef.
Proof.
  intros <-. unfold Multi.buildGasExecutionDeliverable.
  destruct (Multi.ok val); cbn [negb]; [discriminate|]. split; reflexivity.
Qed.

Lemma audit_invalid now req val d :
  Multi.buildStrategyAuditDeliverable now req val = Normal d ->
  prop "validation_passed" d = VBool false ->
  prop "decision" d = VUndef /\ prop "risk_score" d = VUndef.
Proof.
  unfold Multi.buildStrategyAuditDeliverable.
  destruct (Multi.ok val); cbn [negb]; intros H; bind_cases; subst d;
    [discriminate|]. split; reflexivity.
Qed.

Lemma feed_invalid now req val d :
  Multi.buildMarketIntelDeliverable now req val = d ->
  prop "validation_passed" d = VBool false ->
  prop "decision" d = VUndef /\ prop "risk_score" d = VUndef.
Proof.
  intros <-. unfold Multi.buildMarketIntelDeliverable.
  destruct (Multi.ok val); cbn [negb]; [discriminate|]. split; reflexivity.
Qed.

Lemma portfolio_invalid now req val d :
  Multi.buildPortfolioRebalancerDeliverable now req val = Normal d ->
  prop "validation_passed" d = VBool false ->
  prop "decision" d = VUndef /\ prop "risk_score" d = VUndef.
Proof.
  unfold Multi.buildPortfolioRebalancerDeliverable.
  destruct (Multi.ok val); cbn [negb]; intros H; bind_cases; subst d;
    [discriminate|]. split; reflexivity.
Qed.

Lemma multi_invalid_shape now jobName requirement d :
  Multi.buildDeliverableForJob now jobName requirement = Normal d ->
  prop "validation_passed" d = VBool false ->
  if is_string "risk_sentinel" jobName
  then prop "decision" d = VStr "reject" /\ prop "risk_score" d = num 0
  else prop "decision" d = VUndef /\ prop "risk_score" d = VUndef.
Proof.
  unfold Multi.buildDeliverableForJob. intros H Hp.
  destruct (is_string "risk_sentinel" jobName).
  { injection H as H. eapply sentinel_invalid; eauto. }
  destruct (is_string "gas_execution_optimizer" jobName).
  { injection H as H. eapply gas_invalid; eauto. }
  destruct (is_string "strategy_safety_audit" jobName).
  { eapply audit_invalid; eauto. }
  destruct (is_string "market_intelligence_feed" jobName).
  { injection H as H. eapply feed_invalid; eauto. }
  destruct (is_string "portfolio_rebalancer" jobName).
  { bind_cases. eapply portfolio_invalid; eauto. }
  injection H as <-. split; reflexivity.
Qed.

(** Claim C4 (amended).  A deliverable with validation_passed = false carries
    decision "REJECT" and risk score 0 when it comes from one of the three
    builders of the Base-only provider, and decision "reject" and risk score 0
    when it comes from the risk_sentinel builder; the unsupported-job
    deliverables of both providers and the invalid deliverables of the other
    four builders carry neither a decision nor a risk score. *)
Theorem rejected_deliverables_by_shape :
  (forall w jobName requirement d,
      Base.buildDeliverableForJob w jobName requirement = Normal d ->
      prop "validation_passed" d = VBool false ->
      if supported jobName
      then prop "decision" d = VStr "REJECT" /\ prop "risk_score" d = num 0
      else prop "decision" d = VUndef /\ prop "risk_score" d = VUndef)
  /\ (forall now jobName requirement d,
      Multi.buildDeliverableForJob now jobName requirement = Normal d ->
      prop "validation_passed" d = VBool false ->
      if is_string "risk_sentinel" jobName
      then prop "decision" d = VStr "reject" /\ prop "risk_score" d = num 0
      else prop "decision" d = VUndef /\ prop "risk_score" d = VUndef).
Proof. split; [exact base_invalid_shape | exact multi_invalid_shape]. Qed.

Lemma rejected_deliverables_by_shape_witness :
  let d := Base.invalidDeliverable Scenario.offline "pre_trade_risk_pack"
             (Base.validatePreTradeRiskPack ∅).2 in
  (Base.buildDeliverableForJob Scenario.offline (VStr "pre_trade_risk_pack") (VObj ∅)
   = Normal d
   /\ prop "validation_passed" d = VBool false)
  /\ prop "decision" d = VStr "REJECT" /\ prop "risk_score" d = num 0.
Proof.
  intros d.
  assert (H1 : Base.buildDeliverableForJob Scenario.offline
                 (VStr "pre_trade_risk_pack") (VObj ∅) = Normal d)
    by (vm_compute; reflexivity).
  assert (H2 : prop "validation_passed" d = VBool false) by reflexivity.
  split; [split; assumption|].
  exact (proj1 rejected_deliverables_by_shape Scenario.offline
           (VStr "pre_trade_risk_pack") (VObj ∅) d H1 H2).
Defined.

(** Claim C4 as stated fails: the unsupported-job deliverable and the invalid
    gas-optimizer deliverable fail validation and carry neither a decision
    nor a risk score. *)
Lemma rejected_deliverables_without_decision :
  let unknown := Base.buildDeliverableForJob Scenario.offline (VStr "unknown") (VObj ∅) in
  let gas := Multi.buildDeliverableForJob "2025-01-01T00:00:00.000Z"
               (VStr "gas_execution_optimizer") (VObj ∅) in
  (field "validation_passed" unknown = VBool false
   /\ field "decision" unknown = VUndef
   /\ field "risk_score" unknown = VUndef)
  /\ (field "validation_passed" gas = VBool false
      /\ field "decision" gas = VUndef
      /\ field "risk_score" gas = VUndef).
Proof. vm_compute. repeat split; reflexivity. Qed.





Lemma finish_ok' e : Multi.ok (Multi.finish e) = true <-> e = [].
Proof. destruct e; simpl; intuition discriminate. Qed.

Lemma validate_spec v req :
  validate v req
  = Normal (bool_decide (concat (violations v req) = []), concat (violations v req)).
Proof.
  assert (Hb : forall e, Base.ok (Base.finish e) = bool_decide (e = []))
    by (by intros []).
  assert (Hm : forall e, Multi.ok (Multi.finish e) = bool_decide (e = []))
    by (by intros []).
  destruct v; unfold validate, violations, outcome_of, outcome_of'.
  - by rewrite validatePreTradeRiskPack_spec, <- Hb.
  - by rewrite validateExecutionQuoteAndRoute_spec, <- Hb.
  - by rewrite validateMarketIntel_spec, <- Hb.
  - by rewrite validateRiskSentinel_spec, <- Hm.
  - by rewrite validateGasExecution_spec, <- Hm.
  - by rewrite validateStrategyAudit_spec, <- Hm.
  - by rewrite validateMarketIntelFeed_spec, <- Hm.
  - by rewrite validatePortfolioRebalancer_spec, <- Hm.
Qed.


Example all_violations_reported_at_once :
  validate PreTradeRiskPack ∅
  = Normal (false,
      [ "client_agent_id: must be a non-empty string";
        "chain: must be a non-empty string";
        "asset_in: must be token symbol or address";
        "asset_out: must be token symbol or address";
        "side: must be 'buy' or 'sell'";
        "notional_value_usd: must be a positive number (numeric string allowed)";
        "max_slippage_bps: must be integer 1..2000 (e.g., 50 = 0.50%)" ])
  /\ validate PortfolioRebalancer
       (list_to_map [("current_positions",
                      VArr [VNull; object [("asset", VStr "usdc")]])])
     = Normal (false,
         [ "client_agent_id: must be a non-empty string";
           "chain: must be a non-empty string";
           "current_positions[0]: must be an object";
           "current_positions[1].amount: must be a positive number";
           "current_positions[1].notional_usd: must be a positive number";
           "risk_tolerance: must be one of conservative, moderate, aggressive";
           "target_objective: must be one of maximize_yield, preserve_capital, balanced" ]).
Proof. split; vm_compute; reflexivity. Qed.






Lemma toInt_Fin q : Base.toInt (VNum (Fin q)) = of_Z (Qtruncate q).
Proof. reflexivity. Qed.










Example fractional_inputs_of_integer_fields :
  validate PreTradeRiskPack (Scenario.trade (num 10000) (VStr "50.9") (num 1))
  = Normal (true, [])
  /\ validate PreTradeRiskPack (Scenario.trade (num 10000) (VNum (Fin (9 # 10))) (num 1))
     = Normal (false, [int_error PreTradeMaxSlippage])
  /\ validate PreTradeRiskPack
       (Scenario.trade (num 10000) (VNum (Fin (20009 # 10))) (num 1))
     = Normal (true, []).
Proof. vm_compute. repeat split; reflexivity. Qed.




Lemma chainNormalized_insert req k v :
  k <> "chain" ->
  BaseSpec.chainNormalized (<[k := v]> req) = <[k := v]> (BaseSpec.chainNormalized req).
Proof.
  intros Hk. unfold BaseSpec.chainNormalized. rewrite getp_insert_ne by done.
  destruct (isNonEmptyString _); [|done]. by rewrite insert_insert_ne.
Qed.

Lemma chainViolations_insert req k v :
  k <> "chain" ->
  BaseSpec.chainViolations (<[k := v]> req) = BaseSpec.chainViolations req.
Proof. intros Hk. unfold BaseSpec.chainViolations. by rewrite getp_insert_ne. Qed.

Ltac same_maps :=
  apply map_eq; intros ?; rewrite !lookup_insert;
  repeat case_decide; try reflexivity; congruence.






Lemma prefix_cons c a b : String.prefix (String c a) (String c b) = String.prefix a b.
Proof. cbn [String.prefix]. destruct (ascii_dec c c); [reflexivity | congruence]. Qed.

Lemma prefix_self a b m : String.prefix (a ++ b) (a ++ b ++ m) = true.
Proof.
  induction a as [|c a IH].
  - change (String.prefix b (b ++ m) = true).
    induction b as [|c b IH]; [by destruct m|].
    change (String.prefix (String c b) (String c (b ++ m)) = true).
    by rewrite prefix_cons.
  - change (String.prefix (String c (a ++ b)) (String c (a ++ b ++ m)) = true).
    by rewrite prefix_cons.
Qed.

Lemma reports_self f m : reports f (violation true f m) = true.
Proof.
  unfold reports, violation. cbn [existsb]. by rewrite prefix_self.
Qed.

Lemma reports_app field a b :
  reports field (a ++ b)%list = reports field a || reports field b.
Proof. apply existsb_app. Qed.





Lemma position_rejects_non_numbers idx (p : obj) x :
  (forall q, x <> VNum (Fin q)) ->
  reports (Multi.indexed "current_positions" idx ++ ".amount")
    (MultiSpec.positionViolations idx (VObj (<["amount" := x]> p))) = true
  /\ reports (Multi.indexed "current_positions" idx ++ ".notional_usd")
       (MultiSpec.positionViolations idx (VObj (<["notional_usd" := x]> p))) = true.
Proof.
  intros Hx.
  assert (Hp : Multi.isPositiveNumber x = false)
    by (destruct x as [| | |[| | |q]| | |]; try reflexivity; by destruct (Hx q)).
  unfold MultiSpec.positionViolations. cbn [prop]. read_req. rewrite Hp.
  cbn [negb]. rewrite !reports_app.
  rewrite !reports_self, ?orb_true_r. split; reflexivity.
Qed.





Lemma confidence_cases (evidence : list Base.Evidence) :
  let gas := "resources/base-gas-profile" in
  let depth := "resources/base-venue-depth" in
  let labels := map Base.source evidence in
  Base.confidenceFromEvidence (Some evidence)
  = if bool_decide (gas ∈ labels) && bool_decide (depth ∈ labels) then "high"
    else if bool_decide (gas ∈ labels) || bool_decide (depth ∈ labels) then "medium"
    else "low".
Proof.
  intros gas depth labels. unfold Base.confidenceFromEvidence. cbn [default].
  assert (H : forall s, bool_decide (s ∈ (list_to_set labels : gset string))
                        = bool_decide (s ∈ labels)).
  { intros s. apply bool_decide_ext. apply elem_of_list_to_set. }
  by rewrite !H.
Qed.

(** Claim C1.  [confidenceFromEvidence] returns "high" when both source labels
    occur in the evidence, "medium" when exactly one occurs and "low" when
    neither does; two evidence lists with the same set of labels get the same
    answer, and so do two lists that differ only in the recorded outcomes. *)
Theorem confidence_from_source_labels (evidence : list Base.Evidence) :
  let gas := "resources/base-gas-profile" in
  let depth := "resources/base-venue-depth" in
  let has (label : string) (e : list Base.Evidence) := label ∈ map Base.source e in
  let confidence (e : list Base.Evidence) := Base.confidenceFromEvidence (Some e) in
  (has gas evidence /\ has depth evidence -> confidence evidence = "high")
  /\ ((has gas evidence /\ ~ has depth evidence)
      \/ (~ has gas evidence /\ has depth evidence) -> confidence evidence = "medium")
  /\ (~ has gas evidence /\ ~ has depth evidence -> confidence evidence = "low")
  /\ (forall evidence',
        (forall label, has label evidence <-> has label evidence') ->
        confidence evidence = confidence evidence')
  /\ (forall outcome',
        confidence
          (map (fun e => {| Base.source := Base.source e; Base.outcome := outcome' e |})
               evidence)
        = confidence evidence).
Proof.
  intros gas depth has confidence. subst confidence has. cbv beta.
  rewrite confidence_cases. cbv zeta.
  repeat split.
  - intros [Hg Hd]. by rewrite !bool_decide_eq_true_2.
  - intros [[Hg Hd]|[Hg Hd]].
    + by rewrite (bool_decide_eq_true_2 _ Hg), (bool_decide_eq_false_2 _ Hd).
    + by rewrite (bool_decide_eq_false_2 _ Hg), (bool_decide_eq_true_2 _ Hd).
  - intros [Hg Hd].
    by rewrite (bool_decide_eq_false_2 _ Hg), (bool_decide_eq_false_2 _ Hd).
  - intros evidence' Hsame. rewrite confidence_cases. cbv zeta.
    by rewrite (bool_decide_ext _ _ (Hsame "resources/base-gas-profile")),
      (bool_decide_ext _ _ (Hsame "resources/base-venue-depth")).
  - intros outcome'. rewrite confidence_cases. cbv zeta.
    by rewrite map_map.
Qed.

Lemma confidence_from_source_labels_witness :
  let failed := {| Base.source := "resources/base-gas-profile";
                   Base.outcome := Base.error (VStr "unavailable") |} in
  let fresh := {| Base.source := "resources/base-venue-depth";
                  Base.outcome := Base.freshness_seconds 60 |} in
  ("resources/base-gas-profile" ∈ map Base.source [failed; fresh; failed]
   /\ "resources/base-venue-depth" ∈ map Base.source [failed; fresh; failed])
  /\ Base.confidenceFromEvidence (Some [failed; fresh; failed]) = "high".
Proof.
  intros failed fresh.
  assert (H : "resources/base-gas-profile" ∈ map Base.source [failed; fresh; failed]
              /\ "resources/base-venue-depth" ∈ map Base.source [failed; fresh; failed])
    by (split; apply list_elem_of_In; simpl; auto).
  split; [exact H|].
  exact (proj1 (confidence_from_source_labels [failed; fresh; failed]) H).
Defined.

Example confidence_examples :
  let gas ok := {| Base.source := "resources/base-gas-profile";
                   Base.outcome := if ok : bool then Base.freshness_seconds 60
                                   else Base.error (VStr "unavailable") |} in
  let depth ok := {| Base.source := "resources/base-venue-depth";
                     Base.outcome := if ok : bool then Base.freshness_seconds 60
                                     else Base.error (VStr "unavailable") |} in
  Base.confidenceFromEvidence (Some [gas true; depth false]) = "high"
  /\ Base.confidenceFromEvidence (Some [gas false; gas false]) = "medium"
  /\ Base.confidenceFromEvidence (Some [depth true]) = "medium"
  /\ Base.confidenceFromEvidence (Some []) = "low"
  /\ Base.confidenceFromEvidence None = "low".
Proof. vm_compute. repeat split; reflexivity. Qed.

(* ===================================================================== *)
(** ** Further properties of the providers and of their resources *)
(* ===================================================================== *)

(** ** Strings: case and white space *)

Lemma chars_text l : chars (text l) = l.
Proof. apply list_ascii_of_string_of_list_ascii. Qed.

Lemma text_chars s : text (chars s) = s.
Proof. apply string_of_list_ascii_of_string. Qed.

Lemma length_text l : String.length (text l) = length l.
Proof. induction l; simpl; congruence. Qed.

Lemma lower_char_idem c : lower_char (lower_char c) = lower_char c.
Proof. destruct c as [[] [] [] [] [] [] [] []]; reflexivity. Qed.

Lemma is_white_lower c : is_white (lower_char c) = is_white c.
Proof. destruct c as [[] [] [] [] [] [] [] []]; reflexivity. Qed.

Lemma toLowerCase_idem s : toLowerCase (toLowerCase s) = toLowerCase s.
Proof.
  unfold toLowerCase. rewrite chars_text, map_map. f_equal.
  apply map_ext. intros c. apply lower_char_idem.
Qed.

Lemma drop_white_lower l : drop_white (map lower_char l) = map lower_char (drop_white l).
Proof.
  induction l as [|c l IH]; [reflexivity|]. simpl. rewrite is_white_lower.
  destruct (is_white c); [exact IH | reflexivity].
Qed.

Lemma trim_chars_lower l : trim_chars (map lower_char l) = map lower_char (trim_chars l).
Proof.
  unfold trim_chars.
  by rewrite drop_white_lower, <- map_rev, drop_white_lower, <- map_rev.
Qed.

Lemma isNonEmptyString_lower s :
  isNonEmptyString (VStr (toLowerCase s)) = isNonEmptyString (VStr s).
Proof.
  unfold isNonEmptyString, trim, toLowerCase.
  by rewrite chars_text, trim_chars_lower, !length_text, length_map.
Qed.

Lemma drop_white_black l : starts_black (drop_white l).
Proof.
  induction l as [|c l IH]; simpl; [exact I|].
  destruct (is_white c) eqn:E; [exact IH | exact E].
Qed.

Lemma drop_white_id l : starts_black l -> drop_white l = l.
Proof. destruct l as [|c l]; simpl; [reflexivity|]. by intros ->. Qed.

Lemma drop_white_snoc l c :
  is_white c = false -> drop_white (l ++ [c]) = (drop_white l ++ [c])%list.
Proof.
  intros Hc. induction l as [|a l IH]; simpl; [by rewrite Hc|].
  destruct (is_white a); [exact IH | reflexivity].
Qed.

Lemma trim_chars_black l : starts_black (trim_chars l).
Proof.
  unfold trim_chars. pose proof (drop_white_black l) as H.
  destruct (drop_white l) as [|c A]; [exact I|]. simpl in H. simpl rev.
  rewrite drop_white_snoc by exact H. rewrite rev_app_distr. simpl. exact H.
Qed.

Lemma trim_chars_idem l : trim_chars (trim_chars l) = trim_chars l.
Proof.
  pose proof (trim_chars_black l) as H1.
  unfold trim_chars at 1. rewrite (drop_white_id _ H1).
  unfold trim_chars. rewrite rev_involutive.
  rewrite (drop_white_id _ (drop_white_black _)). reflexivity.
Qed.

Lemma trim_idem s : trim (trim s) = trim s.
Proof. unfold trim. by rewrite chars_text, trim_chars_idem. Qed.

Lemma white_lower c : is_white c = true -> lower_char c = c.
Proof. destruct c as [[] [] [] [] [] [] [] []]; (reflexivity || discriminate). Qed.

Lemma drop_white_nil l : drop_white l = [] -> Forall (fun c => is_white c = true) l.
Proof.
  induction l as [|c l IH]; simpl; [constructor|].
  destruct (is_white c) eqn:E; [|discriminate]. intros H. constructor; auto.
Qed.

Lemma trim_chars_nil l : trim_chars l = [] -> drop_white l = [].
Proof.
  unfold trim_chars. pose proof (drop_white_black l) as H.
  destruct (drop_white l) as [|c A]; [reflexivity|]. simpl in H. simpl rev.
  rewrite drop_white_snoc by exact H. rewrite rev_app_distr. discriminate.
Qed.

Lemma map_lower_white l :
  Forall (fun c => is_white c = true) l -> map lower_char l = l.
Proof.
  induction 1 as [|c l Hc _ IH]; simpl; [reflexivity|]. by rewrite white_lower, IH.
Qed.

Lemma blank_lower s : isNonEmptyString (VStr s) = false -> toLowerCase s = s.
Proof.
  unfold isNonEmptyString, trim, toLowerCase. rewrite length_text.
  intros H. apply Nat.ltb_ge in H.
  assert (Hn : trim_chars (chars s) = []).
  { destruct (trim_chars (chars s)); [reflexivity | simpl in H; lia]. }
  apply trim_chars_nil, drop_white_nil in Hn.
  rewrite (map_lower_white _ Hn). apply text_chars.
Qed.

Lemma toLowerCase_empty s : String.eqb (toLowerCase s) "" = String.eqb s "".
Proof. destruct s; reflexivity. Qed.

Lemma lowered_lower s fallback :
  BaseSpec.lowered (VStr (toLowerCase s)) fallback = BaseSpec.lowered (VStr s) fallback.
Proof.
  unfold BaseSpec.lowered, or_else, truthy. rewrite toLowerCase_empty.
  destruct (String.eqb s ""); cbn [negb ToString]; [reflexivity|].
  apply toLowerCase_idem.
Qed.

Lemma chainViolations_lower s req :
  BaseSpec.chainViolations (<["chain" := VStr (toLowerCase s)]> req)
  = BaseSpec.chainViolations (<["chain" := VStr s]> req).
Proof.
  unfold BaseSpec.chainViolations. rewrite !getp_insert_eq, isNonEmptyString_lower.
  cbn [ToString]. by rewrite toLowerCase_idem.
Qed.

Lemma chainNormalized_lower s req :
  BaseSpec.chainNormalized (<["chain" := VStr (toLowerCase s)]> req)
  = BaseSpec.chainNormalized (<["chain" := VStr s]> req).
Proof.
  unfold BaseSpec.chainNormalized. rewrite !getp_insert_eq, isNonEmptyString_lower.
  cbn [ToString]. rewrite toLowerCase_idem.
  destruct (isNonEmptyString (VStr s)) eqn:E.
  - by rewrite !insert_insert_eq.
  - by rewrite (blank_lower _ E).
Qed.

Ltac lower_case_field :=
  rewrite ?chainNormalized_lower, ?chainViolations_lower;
  rewrite ?chainNormalized_insert, ?chainViolations_insert by discriminate;
  read_req; rewrite ?lowered_lower;
  f_equal; try reflexivity;
  repeat match goal with
  | |- context [match getp ?r ?k with _ => _ end] => destruct (getp r k)
  | |- context [match ?l with [] => _ | _ :: _ => _ end] => destruct l
  | |- context [nullish ?x] => destruct (nullish x)
  end;
  try reflexivity; same_maps.

Lemma preTrade_lower_case name s req :
  In name (enumerated_fields PreTradeRiskPack) ->
  Base.validatePreTradeRiskPack (<[name := VStr s]> req)
  = Base.validatePreTradeRiskPack (<[name := VStr (toLowerCase s)]> req).
Proof.
  intros Hin. rewrite !validatePreTradeRiskPack_spec.
  unfold BaseSpec.preTradeNormalized, BaseSpec.preTradeViolations.
  cbn [enumerated_fields In] in Hin.
  destruct Hin as [<-|[<-|[<-|[<-|[]]]]]; lower_case_field.
Qed.

Lemma quote_lower_case name s req :
  In name (enumerated_fields ExecutionQuoteAndRoute) ->
  Base.validateExecutionQuoteAndRoute (<[name := VStr s]> req)
  = Base.validateExecutionQuoteAndRoute (<[name := VStr (toLowerCase s)]> req).
Proof.
  intros Hin. rewrite !validateExecutionQuoteAndRoute_spec.
  unfold BaseSpec.executionQuoteNormalized, BaseSpec.executionQuoteViolations,
    BaseSpec.allowedVenuesViolations, BaseSpec.deadlineOf.
  cbn [enumerated_fields In] in Hin.
  destruct Hin as [<-|[]]; lower_case_field.
Qed.

Lemma intel_lower_case name s req :
  In name (enumerated_fields MarketIntel) ->
  Base.validateMarketIntel (<[name := VStr s]> req)
  = Base.validateMarketIntel (<[name := VStr (toLowerCase s)]> req).
Proof.
  intros Hin. rewrite !validateMarketIntel_spec.
  unfold BaseSpec.marketIntelNormalized, BaseSpec.marketIntelViolations,
    BaseSpec.focusAssetsViolations, BaseSpec.minimumNotionalOf.
  cbn [enumerated_fields In] in Hin.
  destruct Hin as [<-|[<-|[]]]; lower_case_field.
Qed.

(** ** Integers among the numbers *)

Lemma Qltb_Z a b : Qltb (inject_Z a) (inject_Z b) = (a <? b)%Z.
Proof.
  destruct (a <? b)%Z eqn:E.
  - apply Qltb_lt. rewrite <- Zlt_Qlt. lia.
  - apply Qltb_ge. rewrite <- Zle_Qle. lia.
Qed.

Lemma num_ltb_Z a b : num_ltb (of_Z a) (of_Z b) = (a <? b)%Z.
Proof. apply Qltb_Z. Qed.

Lemma Math_min_Z a b : Math_min (of_Z a) (of_Z b) = of_Z (Z.min a b).
Proof.
  unfold Math_min. change (of_Z a) with (Fin (inject_Z a)) at 1.
  change (of_Z b) with (Fin (inject_Z b)) at 1. cbv iota.
  rewrite num_ltb_Z. destruct (b <? a)%Z eqn:E; f_equal; lia.
Qed.

Lemma Math_max_Z a b : Math_max (of_Z a) (of_Z b) = of_Z (Z.max a b).
Proof.
  unfold Math_max. change (of_Z a) with (Fin (inject_Z a)) at 1.
  change (of_Z b) with (Fin (inject_Z b)) at 1. cbv iota.
  rewrite num_ltb_Z. destruct (a <? b)%Z eqn:E; f_equal; lia.
Qed.

Lemma clamp_Z n a b : Base.clamp (of_Z n) (of_Z a) (of_Z b) = of_Z (Z.max a (Z.min b n)).
Proof. unfold Base.clamp. by rewrite Math_min_Z, Math_max_Z. Qed.

Lemma Math_round_Fin q : Math_round (Fin q) = of_Z (Qfloor (q + (1 # 2))).
Proof. reflexivity. Qed.

Lemma Qred_Z z : Qred (inject_Z z) = inject_Z z.
Proof.
  unfold Qred, inject_Z.
  pose proof (Z.ggcd_gcd z 1) as Hg. pose proof (Z.ggcd_correct_divisors z 1) as Hd.
  destruct (Z.ggcd z 1) as [g [a b]]. simpl in Hg. rewrite Z.gcd_1_r in Hg. subst g.
  destruct Hd as [-> Hb]. simpl. f_equal; [lia|]. destruct b; try lia; discriminate.
Qed.

Lemma num_add_Z a b : num_add (of_Z a) (of_Z b) = of_Z (a + b).
Proof.
  unfold of_Z. cbn [num_add]. unfold fin. f_equal.
  rewrite <- (Qred_Z (a + b)). apply Qred_complete. rewrite inject_Z_plus. reflexivity.
Qed.

Lemma num_mul_Z a b : num_mul (of_Z a) (of_Z b) = of_Z (a * b).
Proof.
  unfold of_Z. cbn [num_mul]. unfold fin. f_equal.
  rewrite <- (Qred_Z (a * b)). apply Qred_complete. rewrite inject_Z_mult. reflexivity.
Qed.

(** ** The slippage estimates of the resources server *)

Lemma bounded_bps n :
  integral n ->
  exists z, Math_max (of_Z 1) (Math_min (of_Z 2000) n) = of_Z z /\ (1 <= z <= 2000)%Z.
Proof.
  intros [->|[->|[k ->]]].
  - exists 2000%Z. split; [reflexivity | lia].
  - exists 1%Z. split; [reflexivity | lia].
  - rewrite Math_min_Z, Math_max_Z. eexists. split; [reflexivity | lia].
Qed.

Lemma integral_round n : n <> NaN -> integral (Math_round n).
Proof.
  destruct n as [| | |q]; [done| | |]; unfold integral; auto.
  intros _. right. right. rewrite Math_round_Fin. eauto.
Qed.

Lemma liquidity_cases depth :
  Server.no_liquidity depth = false ->
  depth = PInf \/ exists d, depth = Fin d /\ (0 < d)%Q.
Proof.
  unfold Server.no_liquidity.
  destruct depth as [| | |d]; try discriminate; auto.
  intros H. apply orb_false_iff in H as [_ H]. apply num_leb_Fin_false in H. eauto.
Qed.

Lemma ratio_Fin q depth :
  Server.no_liquidity depth = false -> exists r, num_div (Fin q) depth = Fin r.
Proof.
  intros H. destruct (liquidity_cases _ H) as [->|(d & -> & Hd)].
  - unfold num_div, of_Z. eauto.
  - cbn [num_div]. destruct (Qeq_bool d 0) eqn:E; [|unfold fin; eauto].
    apply Qeq_bool_iff in E. lra.
Qed.

Lemma estSlipV2_range q depth :
  if Server.no_liquidity depth then Server.estSlipV2 (Fin q) depth = of_Z 9999
  else exists z, Server.estSlipV2 (Fin q) depth = of_Z z /\ (1 <= z <= 2000)%Z.
Proof.
  unfold Server.estSlipV2. destruct (Server.no_liquidity depth) eqn:E; [reflexivity|].
  destruct (ratio_Fin q _ E) as [r ->]. apply bounded_bps.
  unfold Server.bps. apply integral_round. discriminate.
Qed.

(** The fee tier as the server reads it: never [NaN]. *)
Lemma fee_cases feeTier :
  let fee := ToNumber (or_else (VNum (ToNumber feeTier)) (num 3000)) in
  fee = PInf \/ fee = NInf \/ exists f, fee = Fin f.
Proof.
  cbv zeta. unfold or_else.
  destruct (ToNumber feeTier) as [| | |f]; cbn [truthy ToNumber]; unfold num, of_Z; eauto.
  destruct (negb (Qeq_bool f 0)); cbn [ToNumber]; eauto.
Qed.

Lemma estSlipV3_range q depth feeTier :
  if Server.no_liquidity depth then Server.estSlipV3 (Fin q) depth feeTier = of_Z 9999
  else exists z, Server.estSlipV3 (Fin q) depth feeTier = of_Z z /\ (1 <= z <= 2000)%Z.
Proof.
  unfold Server.estSlipV3. destruct (Server.no_liquidity depth) eqn:E; [reflexivity|].
  destruct (ratio_Fin q _ E) as [r ->]. apply bounded_bps.
  apply integral_round. unfold Server.bps.
  destruct (fee_cases feeTier) as [->|[->|[f ->]]]; discriminate.
Qed.




Lemma num_leb_Z a b : num_leb (of_Z a) (of_Z b) = (a <=? b)%Z.
Proof.
  destruct (a <=? b)%Z eqn:E.
  - apply num_leb_Fin. rewrite <- Zle_Qle. lia.
  - apply num_leb_Fin_false. rewrite <- Zlt_Qlt. lia.
Qed.









(** ** Token resolution *)

Lemma BASE_TOKENS_values k a :
  Server.BASE_TOKENS !! k = Some a ->
  In (k, a) [("USDC", "0x833589fCD6eDb6E08f4c7C32D4f71b54bdA02913");
             ("WETH", "0x4200000000000000000000000000000000000006");
             ("AERO", "0x940181a94a35a4569e4529a3cdfb74e38fd98631")].
Proof.
  unfold Server.BASE_TOKENS. cbn [list_to_map foldr fst snd curry].
  rewrite !lookup_insert_Some, lookup_empty. simpl.
  intros [[<- <-]|[_ [[<- <-]|[_ [[<- <-]|[_ ?]]]]]]; auto. discriminate.
Qed.

Lemma normAddrOrSymbol_address s :
  String.prefix "0x" (trim s) = true -> String.length (trim s) = 42%nat ->
  Server.normAddrOrSymbol (VStr s) = Some (trim s).
Proof.
  intros Hp Hl. unfold Server.normAddrOrSymbol. cbn [ToString truthy].
  destruct (String.eqb s "") eqn:E.
  - apply String.eqb_eq in E. subst s. discriminate.
  - cbn [negb]. by rewrite Hp, Hl.
Qed.

Lemma normAddrOrSymbol_shape x a :
  Server.normAddrOrSymbol x = Some a ->
  String.prefix "0x" a = true /\ String.length a = 42%nat /\ trim a = a.
Proof.
  unfold Server.normAddrOrSymbol. destruct (truthy x); [|discriminate]. cbn [negb].
  destruct (String.prefix "0x" _ && _) eqn:E.
  - intros [= <-]. apply andb_true_iff in E as [Hp Hl]. apply Nat.eqb_eq in Hl.
    rewrite trim_idem. auto.
  - intros H. apply BASE_TOKENS_values in H. simpl in H.
    destruct H as [[= _ <-]|[[= _ <-]|[[= _ <-]|[]]]]; vm_compute; auto.
Qed.

(** Property X3.  Whenever normAddrOrSymbol resolves its argument, the result
    starts with 0x, has 42 characters, and is resolved to itself by
    normAddrOrSymbol: a known symbol and a 42-character 0x string both end in
    an address-shaped string that is a fixed point. *)
Theorem token_resolution (x : value) (a : string) :
  Server.normAddrOrSymbol x = Some a ->
  String.prefix "0x" a = true
  /\ String.length a = 42%nat
  /\ Server.normAddrOrSymbol (VStr a) = Some a.
Proof.
  intros H. destruct (normAddrOrSymbol_shape _ _ H) as (Hp & Hl & Ht).
  repeat split; try assumption.
  rewrite <- Ht at 2. apply normAddrOrSymbol_address; by rewrite Ht.
Qed.

Lemma token_resolution_witness :
  Server.normAddrOrSymbol (VStr " usdc ")
    = Some "0x833589fCD6eDb6E08f4c7C32D4f71b54bdA02913"
  /\ Server.normAddrOrSymbol (VStr "0x833589fCD6eDb6E08f4c7C32D4f71b54bdA02913")
     = Some "0x833589fCD6eDb6E08f4c7C32D4f71b54bdA02913".
Proof.
  assert (H : Server.normAddrOrSymbol (VStr " usdc ")
              = Some "0x833589fCD6eDb6E08f4c7C32D4f71b54bdA02913")
    by (vm_compute; reflexivity).
  split; [exact H|].
  exact (proj2 (proj2 (token_resolution _ _ H))).
Defined.

(** ** The base-venue-depth handler *)

Lemma getp_json_object o k :
  getp (Server.json_object o) k = default VUndef (o !! k ≫= Server.json_value).
Proof. unfold getp, Server.json_object. by rewrite lookup_omap. Qed.

Ltac read_venue :=
  rewrite getp_json_object;
  unfold Server.aerodrome_venue, Server.uniswap_venue;
  cbn [list_to_map foldr fst snd curry uncurry];
  repeat first
    [ rewrite lookup_insert_eq
    | rewrite lookup_insert_ne by discriminate ];
  cbn [mbind option_bind Server.json_value default from_option]; unfold id.

Lemma depth_shape n :
  (if isFinite n then VNum n else VNull) = VNull
  \/ exists q, n = Fin q /\ (if isFinite n then VNum n else VNull) = VNum (Fin q).
Proof. destruct n; cbn [isFinite]; eauto. Qed.

Lemma no_liquidity_Fin_iff q : Server.no_liquidity (Fin q) = true <-> (q <= 0)%Q.
Proof.
  unfold Server.no_liquidity. cbn [truthy]. rewrite negb_involutive, orb_true_iff.
  unfold of_Z. rewrite Qeq_bool_iff, num_leb_Fin.
  split; [intros [->|H]; [discriminate|exact H] | auto].
Qed.

Lemma slippage_shape estimate depth :
  (if Server.no_liquidity depth then estimate = of_Z 9999
   else exists z, estimate = of_Z z /\ (1 <= z <= 2000)%Z) ->
  exists z,
    VNum estimate = num z
    /\ (z = 9999 \/ 1 <= z <= 2000)%Z
    /\ ((if isFinite depth then VNum depth else VNull) = VNull
        \/ exists q, (if isFinite depth then VNum depth else VNull) = VNum (Fin q)
                     /\ (z = 9999%Z <-> (q <= 0)%Q)).
Proof.
  intros H. destruct (depth_shape depth) as [Hd|(q & -> & Hd)].
  - destruct (Server.no_liquidity depth).
    + exists 9999%Z. subst. auto.
    + destruct H as (z & -> & Hz). exists z. auto.
  - destruct (Server.no_liquidity (Fin q)) eqn:E.
    + exists 9999%Z. subst. split; [reflexivity|]. split; [auto|]. right. exists q.
      split; [reflexivity|]. apply no_liquidity_Fin_iff in E. tauto.
    + destruct H as (z & -> & Hz). exists z. split; [reflexivity|]. split; [auto|].
      right. exists q. split; [reflexivity|].
      split; [lia|]. intros Hq. apply no_liquidity_Fin_iff in Hq. congruence.
Qed.

Lemma aerodrome_listed q aero :
  listed_venue (Server.json_object (Server.aerodrome_venue (Fin q) aero)).
Proof.
  unfold listed_venue. split; [left; by read_venue|].
  set (depth := ToNumber (or_else (prop "reserveUSD" aero) (num 0))).
  destruct (slippage_shape _ _ (estSlipV2_range q depth)) as (z & Hz & Hr & Hd).
  exists z. split; [|split; [exact Hr|]].
  - read_venue. fold depth. rewrite <- Hz.
    pose proof (estSlipV2_range q depth) as H.
    destruct (Server.no_liquidity depth); [by rewrite H | by destruct H as (? & -> & _)].
  - read_venue. fold depth. exact Hd.
Qed.

Lemma uniswap_listed q uni :
  listed_venue (Server.json_object (Server.uniswap_venue (Fin q) uni)).
Proof.
  unfold listed_venue. split; [right; by read_venue|].
  set (depth := ToNumber (or_else (prop "totalValueLockedUSD" uni) (num 0))).
  destruct (slippage_shape _ _ (estSlipV3_range q depth (prop "feeTier" uni)))
    as (z & Hz & Hr & Hd).
  exists z. split; [|split; [exact Hr|]].
  - read_venue. fold depth. rewrite <- Hz.
    pose proof (estSlipV3_range q depth (prop "feeTier" uni)) as H.
    destruct (Server.no_liquidity depth); [by rewrite H | by destruct H as (? & -> & _)].
  - read_venue. fold depth. exact Hd.
Qed.

Lemma depth_of_json v n :
  v !! "depth_usd" = Some (VNum n) ->
  getp (Server.json_object v) "depth_usd" <> VNull ->
  Base.depth_of (Server.json_object v) = Base.depth_of v
  /\ exists q, Base.depth_of v = Fin q.
Proof.
  unfold Base.depth_of. rewrite getp_json_object. unfold getp. intros ->.
  cbn [mbind option_bind Server.json_value default from_option]. unfold id.
  destruct n as [| | |q]; cbn [isFinite];
    try (intros H; exfalso; apply H; reflexivity).
  intros _. split; [reflexivity|].
  unfold or_else, id.
  destruct (truthy (VNum (Fin q))); cbn [ToNumber]; unfold num, of_Z; eauto.
Qed.

Lemma sorts_after_asym a b x y :
  Base.depth_of a = Fin x -> Base.depth_of b = Fin y ->
  Base.sorts_after a b = true -> Base.sorts_after b a = false.
Proof.
  unfold Base.sorts_after. intros -> ->. unfold num_gtb, num_sub, num_neg, fin, of_Z.
  cbn [num_add num_ltb]. unfold fin. intros H. apply Qltb_lt in H. apply Qltb_ge.
  rewrite ?Qred_correct in H. rewrite ?Qred_correct.
  change (inject_Z 0) with 0%Q in *. lra.
Qed.

Lemma sorts_after_json a b na nb :
  a !! "depth_usd" = Some (VNum na) -> b !! "depth_usd" = Some (VNum nb) ->
  getp (Server.json_object a) "depth_usd" <> VNull ->
  getp (Server.json_object b) "depth_usd" <> VNull ->
  (Base.sorts_after (Server.json_object a) (Server.json_object b) = Base.sorts_after a b)
  /\ (Base.sorts_after a b = true -> Base.sorts_after b a = false).
Proof.
  intros Ha Hb Ja Jb.
  destruct (depth_of_json _ _ Ha Ja) as (Ea & x & Hx).
  destruct (depth_of_json _ _ Hb Jb) as (Eb & y & Hy).
  split; [unfold Base.sorts_after; by rewrite Ea, Eb|].
  by apply (sorts_after_asym a b x y).
Qed.

Lemma pair_by_depth a b na nb :
  a !! "depth_usd" = Some (VNum na) -> b !! "depth_usd" = Some (VNum nb) ->
  Forall (fun v => getp v "depth_usd" <> VNull)
    (map Server.json_object (Base.sort_by_depth [a; b])) ->
  by_decreasing_depth (map Server.json_object (Base.sort_by_depth [a; b])).
Proof.
  intros Ha Hb. cbn [Base.sort_by_depth foldr Base.insert_by_depth].
  destruct (Base.sorts_after a b) eqn:E; cbn [map by_decreasing_depth];
    intros H; apply Forall_cons in H as [H1 H]; apply Forall_cons in H as [H2 _];
    (split; [|exact I]).
  - destruct (sorts_after_json b a nb na Hb Ha H1 H2) as [-> _].
    destruct (sorts_after_json a b na nb Ha Hb H2 H1) as [_ Has]. auto.
  - by destruct (sorts_after_json a b na nb Ha Hb H1 H2) as [-> _].
Qed.

Lemma aerodrome_depth n aero :
  exists d, Server.aerodrome_venue n aero !! "depth_usd" = Some (VNum d).
Proof.
  unfold Server.aerodrome_venue. cbn [list_to_map foldr fst snd curry uncurry].
  eexists. repeat first [ rewrite lookup_insert_eq | rewrite lookup_insert_ne by discriminate ].
  reflexivity.
Qed.

Lemma uniswap_depth n uni :
  exists d, Server.uniswap_venue n uni !! "depth_usd" = Some (VNum d).
Proof.
  unfold Server.uniswap_venue. cbn [list_to_map foldr fst snd curry uncurry].
  eexists. repeat first [ rewrite lookup_insert_eq | rewrite lookup_insert_ne by discriminate ].
  reflexivity.
Qed.

Lemma sort_pair a b :
  Base.sort_by_depth [a; b] = [a; b] \/ Base.sort_by_depth [a; b] = [b; a].
Proof.
  cbn [Base.sort_by_depth foldr Base.insert_by_depth].
  destruct (Base.sorts_after a b); auto.
Qed.

(** The venues of a response that carries data. *)
Lemma venues_of_response q aero uni :
  let venues :=
    Base.sort_by_depth
      ((if truthy aero then [Server.aerodrome_venue (Fin q) aero] else [])
       ++ (if truthy uni then [Server.uniswap_venue (Fin q) uni] else []))%list in
  (length (map Server.json_object venues) <= 2)%nat
  /\ Forall listed_venue (map Server.json_object venues)
  /\ Server.json_object <$> head venues = head (map Server.json_object venues)
  /\ (Forall (fun v => getp v "depth_usd" <> VNull) (map Server.json_object venues) ->
      by_decreasing_depth (map Server.json_object venues)).
Proof.
  pose proof (aerodrome_listed q aero) as La. pose proof (uniswap_listed q uni) as Lu.
  destruct (aerodrome_depth (Fin q) aero) as [na Ha].
  destruct (uniswap_depth (Fin q) uni) as [nu Hu].
  destruct (truthy aero), (truthy uni); cbn [app]; cbv zeta.
  - split; [|split; [|split]].
    + destruct (sort_pair (Server.aerodrome_venue (Fin q) aero)
                          (Server.uniswap_venue (Fin q) uni)) as [->| ->]; simpl; lia.
    + destruct (sort_pair (Server.aerodrome_venue (Fin q) aero)
                          (Server.uniswap_venue (Fin q) uni)) as [->| ->];
        cbn [map]; repeat (constructor; [assumption|]); constructor.
    + destruct (sort_pair (Server.aerodrome_venue (Fin q) aero)
                          (Server.uniswap_venue (Fin q) uni)) as [->| ->]; reflexivity.
    + by apply (pair_by_depth _ _ na nu).
  - cbn. split; [lia|]. split; [constructor; [assumption | constructor]|]. auto.
  - cbn. split; [lia|]. split; [constructor; [assumption | constructor]|]. auto.
  - cbn. split; [lia|]. split; [constructor|]. auto.
Qed.




(** ** The score components are integers *)

Lemma fallbackSlipBps_Z req q :
  getp req "notional_value_usd" = VNum (Fin q) ->
  exists z, Base.fallbackSlipBps req = of_Z z /\ (15 <= z <= 180)%Z.
Proof.
  intros H. unfold Base.fallbackSlipBps. rewrite H. cbn [ToNumber].
  rewrite scaled_round by discriminate. rewrite clamp_Z.
  eexists. split; [reflexivity | lia].
Qed.

Lemma sizeScore_Z req q :
  getp req "notional_value_usd" = VNum (Fin q) ->
  exists z, Base.sizeScore req = of_Z z /\ (0 <= z <= 35)%Z.
Proof.
  intros H. unfold Base.sizeScore. rewrite H. cbn [ToNumber].
  rewrite scaled_round by discriminate. rewrite clamp_Z.
  eexists. split; [reflexivity | lia].
Qed.

Lemma slipScore_Z est :
  ToNumber est <> NaN -> exists z, Base.slipScore est = of_Z z /\ (5 <= z <= 45)%Z.
Proof.
  intros H. unfold Base.slipScore.
  destruct (ToNumber est) as [| | |q]; [done| | |].
  - exists 45%Z. split; [reflexivity | lia].
  - exists 5%Z. split; [reflexivity | lia].
  - rewrite scaled_round by discriminate. rewrite clamp_Z.
    eexists. split; [reflexivity | lia].
Qed.

Lemma gasScore_Z c : exists z, Base.gasScore c = of_Z z /\ (6 <= z <= 18)%Z.
Proof.
  unfold Base.gasScore.
  repeat destruct (is_string _ _); eexists; (split; [reflexivity | lia]).
Qed.

Lemma levScore_Z req l :
  getp req "leverage" = VNum (Fin l) ->
  exists z, Base.levScore req = of_Z z /\ (0 <= z <= 30)%Z.
Proof.
  intros H. unfold Base.levScore. rewrite H.
  destruct (js_gt _ _); [|exists 0%Z; split; [reflexivity | lia]].
  cbn [ToNumber]. unfold num_sub. change (of_Z 1) with (Fin (inject_Z 1)).
  change (of_Z 20) with (Fin (inject_Z 20)).
  repeat progress (cbn [num_neg num_add num_mul]; unfold fin).
  rewrite Math_round_Fin, clamp_Z. eexists. split; [reflexivity | lia].
Qed.

Lemma riskScore_Z req est congestion q l :
  getp req "notional_value_usd" = VNum (Fin q) ->
  getp req "leverage" = VNum (Fin l) ->
  ToNumber est <> NaN ->
  exists z, Base.riskScore req est congestion = of_Z z /\ (11 <= z <= 100)%Z.
Proof.
  intros Hq Hl He. unfold Base.riskScore.
  destruct (sizeScore_Z _ _ Hq) as (a & -> & Ha).
  destruct (slipScore_Z _ He) as (b & -> & Hb).
  destruct (gasScore_Z congestion) as (c & -> & Hc).
  destruct (levScore_Z _ _ Hl) as (d & -> & Hd).
  rewrite !num_add_Z, clamp_Z. eexists. split; [reflexivity | lia].
Qed.

(** ** Two decimals, printed and read back *)

Lemma same_number_eq a b : same_number a b = true -> a = b.
Proof.
  destruct a as [| | |[x1 x2]], b as [| | |[y1 y2]]; try discriminate; try reflexivity.
  cbn [same_number Qnum Qden]. intros H. apply andb_true_iff in H as [H1 H2].
  apply Z.eqb_eq in H1. apply Pos.eqb_eq in H2. by subst.
Qed.

Lemma hundredths_read_back n :
  (0 <= n <= 100)%Z ->
  Number_of_string (hundredths n) = fin (inject_Z n / inject_Z 100).
Proof.
  intros Hn.
  assert (H : forallb
                (fun k => same_number (Number_of_string (hundredths (Z.of_nat k)))
                                      (fin (inject_Z (Z.of_nat k) / inject_Z 100)))
                (seq 0 101) = true) by (vm_compute; reflexivity).
  rewrite forallb_forall in H. rewrite <- (Z2Nat.id n) by lia.
  apply same_number_eq, H, in_seq. lia.
Qed.

Lemma toFixed_hundredths f :
  (0 <= f <= 1)%Q ->
  toFixed 2 (Fin f) = hundredths (Qfloor (f * inject_Z 100 + (1 # 2))).
Proof.
  intros [H0 H1]. unfold toFixed.
  assert (Ha : (Qabs f == f)%Q) by (by apply Qabs_pos).
  assert (Qle_bool (inject_Z (10 ^ 21)) (Qabs f) = false) as ->.
  { apply not_true_iff_false. rewrite Qle_bool_iff, Ha.
    intros H. assert ((inject_Z (10 ^ 21) <= 1)%Q) as H2 by lra. revert H2.
    change 1%Q with (inject_Z 1). rewrite <- Zle_Qle. lia. }
  assert (Qltb f 0 = false) as -> by (by apply Qltb_ge).
  change (10 ^ Z.of_nat 2)%Z with 100%Z. cbv zeta.
  assert (Qfloor (Qabs f * inject_Z 100 + (1 # 2))
          = Qfloor (f * inject_Z 100 + (1 # 2))) as -> by (by rewrite Ha).
  reflexivity.
Qed.

Lemma floor_half z : Qfloor (inject_Z z + (1 # 2)) = z.
Proof.
  apply Z.le_antisymm.
  - apply Z.lt_succ_r. rewrite Zlt_Qlt.
    apply Qle_lt_trans with (inject_Z z + (1 # 2))%Q; [apply Qfloor_le|].
    unfold Z.succ. rewrite inject_Z_plus. change (inject_Z 1) with 1%Q. lra.
  - rewrite <- (Qfloor_Z z) at 1. apply Qfloor_resp_le. lra.
Qed.

(** [Number(x.toFixed(2))] for a factor between 0 and 1. *)
Lemma two_decimals f lo hi :
  (0 <= lo)%Z -> (hi <= 100)%Z ->
  (inject_Z lo / inject_Z 100 <= f <= inject_Z hi / inject_Z 100)%Q ->
  exists g, Number_of_string (toFixed 2 (Fin f)) = Fin g
            /\ (inject_Z lo / inject_Z 100 <= g <= inject_Z hi / inject_Z 100)%Q.
Proof.
  intros Hlo Hhi [H1 H2].
  assert (Hl : (0 <= inject_Z lo / inject_Z 100)%Q).
  { apply Qle_shift_div_l; [reflexivity|]. rewrite Qmult_0_l.
    change 0%Q with (inject_Z 0). rewrite <- Zle_Qle. exact Hlo. }
  assert (Hh : (inject_Z hi / inject_Z 100 <= 1)%Q).
  { apply Qle_shift_div_r; [reflexivity|]. rewrite Qmult_1_l.
    rewrite <- Zle_Qle. exact Hhi. }
  rewrite toFixed_hundredths by lra.
  set (n := Qfloor (f * inject_Z 100 + (1 # 2))).
  assert (Hn : (lo <= n <= hi)%Z).
  { subst n. split.
    - rewrite <- (floor_half lo) at 1. apply Qfloor_resp_le.
      assert ((inject_Z lo / inject_Z 100 * inject_Z 100 == inject_Z lo)%Q)
        by (field; discriminate).
      assert ((inject_Z lo / inject_Z 100 * inject_Z 100 <= f * inject_Z 100)%Q)
        by (apply Qmult_le_compat_r; [exact H1 | discriminate]).
      lra.
    - rewrite <- (floor_half hi) at 1. apply Qfloor_resp_le.
      assert ((inject_Z hi / inject_Z 100 * inject_Z 100 == inject_Z hi)%Q)
        by (field; discriminate).
      assert ((f * inject_Z 100 <= inject_Z hi / inject_Z 100 * inject_Z 100)%Q)
        by (apply Qmult_le_compat_r; [exact H2 | discriminate]).
      lra. }
  rewrite hundredths_read_back by lia. unfold fin. eexists. split; [reflexivity|].
  rewrite Qred_correct. split.
  - apply Qmult_le_compat_r; [|discriminate]. rewrite <- Zle_Qle. lia.
  - apply Qmult_le_compat_r; [|discriminate]. rewrite <- Zle_Qle. lia.
Qed.

(** ** The decision of the pre-trade risk pack *)

Lemma js_gt_num v n : js_gt v (VNum n) = num_ltb n (ToNumber v).
Proof. by destruct v. Qed.

Lemma js_ge_num n m : js_ge (VNum n) (VNum m) = num_geb n m.
Proof. reflexivity. Qed.

Lemma clamp_fifths n :
  n <> NaN ->
  exists f, Base.clamp n (Fin (1 # 5)) (Fin (4 # 5)) = Fin f
            /\ (inject_Z 20 / inject_Z 100 <= f <= inject_Z 80 / inject_Z 100)%Q.
Proof.
  destruct n as [| | |q]; [done| | |]; intros _.
  - exists (4 # 5)%Q. split; [reflexivity|]. split; discriminate.
  - exists (1 # 5)%Q. split; [reflexivity|]. split; discriminate.
  - rewrite clamp_Fin. eexists. split; [reflexivity|]. unfold Qclamp.
    assert (E1 : (inject_Z 20 / inject_Z 100 == 1 # 5)%Q) by reflexivity.
    assert (E2 : (inject_Z 80 / inject_Z 100 == 4 # 5)%Q) by reflexivity.
    rewrite E1, E2.
    destruct (Qltb q (4 # 5)) eqn:Ha;
      match goal with |- context [Qltb ?x ?y] => destruct (Qltb x y) eqn:Hb end;
      repeat match goal with
      | H : Qltb _ _ = true |- _ => apply Qltb_lt in H
      | H : Qltb _ _ = false |- _ => apply Qltb_ge in H
      end; lra.
Qed.

Lemma capped_ratio c e :
  (1 <= c)%Z -> num_ltb (of_Z c) e = true -> num_div (of_Z c) e <> NaN.
Proof.
  intros Hc. destruct e as [| | |x]; try discriminate.
  unfold of_Z. cbn [num_ltb num_div]. rewrite Qltb_lt. intros Hx.
  destruct (Qeq_bool x 0) eqn:E; [|discriminate].
  apply Qeq_bool_iff in E. rewrite E in Hx. revert Hx.
  change 0%Q with (inject_Z 0). rewrite <- Zlt_Qlt. lia.
Qed.

(** Property X5.  For every validated pre_trade_risk_pack request and every
    state of the resources, the decision is REJECT with size factor 0 when the
    risk score is at least 80; otherwise SIZE_DOWN with a size factor between
    0.2 and 0.8 when the estimated slippage exceeds max_slippage_bps;
    otherwise APPROVE with size factor 1. *)
Theorem pre_trade_decision_table (w : Base.World) (r req : obj) (val : Base.Validation) :
  Base.validatePreTradeRiskPack r = (req, val) -> Base.ok val = true ->
  let d := Base.buildPreTradeRiskPackDeliverable w req val in
  let score := prop "risk_score" d in
  let estimate := prop "estimated_slippage_bps_at_size" (prop "liquidity_analysis" d) in
  let factor := prop "recommended_size_factor" d in
  if js_ge score (num 80) then
    prop "decision" d = VStr "REJECT" /\ factor = num 0
  else if js_gt estimate (getp req "max_slippage_bps") then
    prop "decision" d = VStr "SIZE_DOWN"
    /\ exists f, factor = VNum (Fin f) /\ (1 # 5 <= f <= 4 # 5)%Q
  else
    prop "decision" d = VStr "APPROVE" /\ factor = num 1.
Proof.
  intros Hv Hok.
  destruct (preTrade_valid _ _ _ Hv Hok) as (q & l & c & Hq & _ & Hl & _ & Hc & Hcr).
  destruct (preTrade_fields w req val Hok) as (_ & Hs & Hd & Hf & He & _).
  cbv zeta in *. rewrite Hs, Hd, Hf, He. unfold num. rewrite js_ge_num.
  unfold Base.decide.
  destruct (num_geb _ (of_Z 80)).
  - destruct (js_gt _ _); split; reflexivity.
  - destruct (js_gt _ _) eqn:Hover; cbn [fst snd]; [|split; reflexivity].
    split; [reflexivity|]. rewrite Hc, js_gt_num in Hover. rewrite Hc. cbn [ToNumber].
    destruct (clamp_fifths _ (capped_ratio _ _ (proj1 Hcr) Hover)) as (f & -> & Hf').
    destruct (two_decimals f 20 80) as (g & -> & Hg); [lia | lia | exact Hf' |].
    exists g. split; [reflexivity|].
    assert (E1 : (inject_Z 20 / inject_Z 100 == 1 # 5)%Q) by reflexivity.
    assert (E2 : (inject_Z 80 / inject_Z 100 == 4 # 5)%Q) by reflexivity.
    rewrite <- E1, <- E2. exact Hg.
Qed.

Lemma pre_trade_decision_table_witness :
  let w := Scenario.online in
  let r := Scenario.trade (num 200000) (num 20) (num 1) in
  let req := (Base.validatePreTradeRiskPack r).1 in
  let val := (Base.validatePreTradeRiskPack r).2 in
  let d := Base.buildPreTradeRiskPackDeliverable w req val in
  Base.ok val = true
  /\ prop "risk_score" d = num 51
  /\ prop "decision" d = VStr "SIZE_DOWN"
  /\ prop "recommended_size_factor" d = VNum (Fin (4 # 5)).
Proof.
  intros w r req val d.
  assert (Hok : Base.ok val = true) by (vm_compute; reflexivity).
  assert (Hs : prop "risk_score" d = num 51) by (vm_compute; reflexivity).
  assert (Hf : prop "recommended_size_factor" d = VNum (Fin (4 # 5)))
    by (vm_compute; reflexivity).
  split; [exact Hok|]. split; [exact Hs|]. split; [|exact Hf].
  pose proof (pre_trade_decision_table w r req val
                (surjective_pairing (Base.validatePreTradeRiskPack r)) Hok) as H.
  cbv zeta in H. fold d in H. rewrite Hs in H.
  change (js_ge (num 51) (num 80)) with false in H. cbv iota in H.
  assert (Ho : js_gt (prop "estimated_slippage_bps_at_size" (prop "liquidity_analysis" d))
                 (getp req "max_slippage_bps") = true) by (vm_compute; reflexivity).
  rewrite Ho in H. exact (proj1 H).
Defined.

(** ** Evidence and confidence *)

Lemma or_else_truthy a b : truthy b = true -> truthy (or_else a b) = true.
Proof. intros H. unfold or_else. by destruct (truthy a) eqn:E. Qed.

Lemma fetched_evidence {D} label (r : Base.Reply D) :
  exists outcome,
    Base.f_evidence (Base.fetched_from label r)
    = [ {| Base.source := label; Base.outcome := outcome |} ]
    /\ evidence_entry label
         (Base.evidence_value {| Base.source := label; Base.outcome := outcome |}).
Proof.
  unfold Base.fetched_from.
  destruct (negb (Base.r_ok r) || negb (from_option Base.body_ok false (Base.r_json r))).
  - eexists. split; [reflexivity|]. right. eexists. split; [|reflexivity].
    unfold Base.failure_reason. by apply or_else_truthy.
  - eexists. split; [reflexivity|]. by left.
Qed.

(** Property X6.  The pre-trade deliverable of a validated request always has
    confidence_level high and exactly two evidence entries, for the gas
    profile and for the venue depth in this order, each either a source with
    freshness_seconds 60 or a source with a truthy error, whether the fetches
    succeeded or not; the deliverable of a rejected request has
    confidence_level low and no evidence. *)
Theorem pre_trade_confidence (w : Base.World) (req : obj) (val : Base.Validation) :
  let d := Base.buildPreTradeRiskPackDeliverable w req val in
  if Base.ok val then
    prop "confidence_level" d = VStr "high"
    /\ exists gas depth,
         prop "evidence" d = VArr [gas; depth]
         /\ evidence_entry "resources/base-gas-profile" gas
         /\ evidence_entry "resources/base-venue-depth" depth
  else
    prop "confidence_level" d = VStr "low" /\ prop "evidence" d = VArr [].
Proof.
  cbv zeta. unfold Base.buildPreTradeRiskPackDeliverable.
  destruct (Base.ok val); cbn [negb]; [|split; reflexivity].
  unfold Base.fetchBaseGasProfile, Base.fetchBaseVenueDepth.
  match goal with |- context [Base.fetched_from "resources/base-gas-profile" ?r] =>
    destruct (fetched_evidence "resources/base-gas-profile" r) as (og & Eg & Hg) end.
  match goal with |- context [Base.fetched_from "resources/base-venue-depth" ?r] =>
    destruct (fetched_evidence "resources/base-venue-depth" r) as (od & Ed & Hd) end.
  cbv zeta. rewrite Eg, Ed. split; [reflexivity|].
  do 2 eexists. split; [reflexivity|]. split; assumption.
Qed.

(** ** Ranges of the numbers of a pre-trade risk pack *)

Lemma preTrade_more_fields (w : Base.World) (req : obj) (val : Base.Validation) :
  Base.ok val = true ->
  let d := Base.buildPreTradeRiskPackDeliverable w req val in
  let est := Observed.estSlipBps w req in
  prop "price_impact_estimate_bps" (prop "liquidity_analysis" d)
  = VNum (Base.clamp (Math_round (num_mul (ToNumber est) (Fin (7 # 10))))
            (of_Z 5) (of_Z 250))
  /\ prop "recommended_split_count" (prop "execution_plan" d)
     = num (if js_gt (getp req "notional_value_usd") (num 75000) then 3
            else if js_gt (getp req "notional_value_usd") (num 30000) then 2 else 1)
  /\ prop "estimated_liquidity_depth_usd" (prop "liquidity_analysis" d)
     = coalesce (Base.opt_prop (Observed.best w req) "depth_usd") (num 300000)
  /\ prop "best_by_depth" (prop "liquidity_analysis" d) = Base.or_null (Observed.best w req)
  /\ prop "assumptions" d
     = Base.strings
         (if truthy (Base.or_null (Observed.best w req)) then ["No additional assumptions."]
          else ["No venue depth returned from subgraphs. Falling back to conservative estimates."])
  /\ prop "recommended_venue" (prop "execution_plan" d)
     = or_else (or_else (Base.opt_prop (Observed.best w req) "venue")
                        (getp req "execution_venue")) (VStr "unknown").
Proof.
  intros Hok d est. subst d. unfold Base.buildPreTradeRiskPackDeliverable.
  rewrite Hok. cbn [negb]. repeat split; try reflexivity.
  unfold Observed.best, Observed.depth.
  cbv zeta. match goal with |- context [truthy ?x] => destruct (truthy x) end; reflexivity.
Qed.

Lemma rounded_number n : n <> NaN -> integral (Math_round (num_mul n (Fin (7 # 10)))).
Proof. intros H. apply integral_round. by destruct n. Qed.

Lemma clamp_integral n a b :
  (a <= b)%Z -> integral n ->
  exists z, Base.clamp n (of_Z a) (of_Z b) = of_Z z /\ (a <= z <= b)%Z.
Proof.
  intros Hab [->|[->|[k ->]]].
  - exists b. split; [|lia]. unfold Base.clamp.
    change (Math_min (of_Z b) PInf) with (of_Z b). rewrite Math_max_Z. f_equal. lia.
  - exists a. split; [|lia]. reflexivity.
  - rewrite clamp_Z. eexists. split; [reflexivity | lia].
Qed.

Lemma recommendedMaxSlip_Z req est c :
  getp req "max_slippage_bps" = VNum (of_Z c) -> (1 <= c)%Z -> ToNumber est <> NaN ->
  exists z, Base.recommendedMaxSlip req est = of_Z z /\ (1 <= z <= c)%Z.
Proof.
  intros Hc Hc1 He. unfold Base.recommendedMaxSlip. rewrite Hc. cbn [ToNumber].
  assert (Hi : integral (Math_round (num_mul (ToNumber est) (Fin (17 # 20)))))
    by (apply integral_round; by destruct (ToNumber est)).
  destruct Hi as [->|[->|[k ->]]].
  - exists c. split; [|lia]. change (Math_max (of_Z 20) PInf) with PInf.
    unfold Math_min, of_Z. reflexivity.
  - change (Math_max (of_Z 20) NInf) with (of_Z 20). rewrite Math_min_Z.
    eexists. split; [reflexivity | lia].
  - rewrite Math_max_Z, Math_min_Z. eexists. split; [reflexivity | lia].
Qed.

(** Property X7.  For a validated pre_trade_risk_pack request whose slippage
    estimate is not NaN, the deliverable's risk_score is an integer within
    11..100, price_impact_estimate_bps an integer within 5..250,
    recommended_split_count is 1, 2 or 3, and recommended_max_slippage_bps an
    integer between 1 and the request's max_slippage_bps. *)
Theorem pre_trade_numbers_in_range (w : Base.World) (r req : obj) (val : Base.Validation) :
  Base.validatePreTradeRiskPack r = (req, val) -> Base.ok val = true ->
  let d := Base.buildPreTradeRiskPackDeliverable w req val in
  ToNumber (prop "estimated_slippage_bps_at_size" (prop "liquidity_analysis" d)) <> NaN ->
  exists score impact split slip cap,
    prop "risk_score" d = num score /\ (11 <= score <= 100)%Z
    /\ prop "price_impact_estimate_bps" (prop "liquidity_analysis" d) = num impact
    /\ (5 <= impact <= 250)%Z
    /\ prop "recommended_split_count" (prop "execution_plan" d) = num split
    /\ (1 <= split <= 3)%Z
    /\ getp req "max_slippage_bps" = num cap
    /\ prop "recommended_max_slippage_bps" (prop "execution_plan" d) = num slip
    /\ (1 <= slip <= cap)%Z.
Proof.
  intros Hv Hok d.
  destruct (preTrade_valid _ _ _ Hv Hok) as (q & l & c & Hq & _ & Hl & _ & Hc & Hcr).
  destruct (preTrade_fields w req val Hok) as (_ & Hs & _ & _ & He & _ & Hm & _).
  destruct (preTrade_more_fields w req val Hok) as (Hi & Hp & _).
  cbv zeta in *. subst d. rewrite Hs, He, Hi, Hp, Hm. intros Hn.
  destruct (riskScore_Z req _ (Observed.congestion w req) q l Hq Hl Hn) as (s & -> & Hsr).
  destruct (clamp_integral _ 5 250 ltac:(lia) (rounded_number _ Hn)) as (i & -> & Hir).
  destruct (recommendedMaxSlip_Z req _ c Hc (proj1 Hcr) Hn) as (m & -> & Hmr).
  exists s, i. eexists. exists m, c.
  repeat split; try reflexivity; try lia; try assumption;
    repeat destruct (js_gt _ _); lia.
Qed.

Lemma pre_trade_numbers_in_range_witness :
  let w := Scenario.offline in
  let r := Scenario.requirement in
  let req := (Base.validatePreTradeRiskPack r).1 in
  let val := (Base.validatePreTradeRiskPack r).2 in
  let d := Base.buildPreTradeRiskPackDeliverable w req val in
  (Base.ok val = true
   /\ ToNumber (prop "estimated_slippage_bps_at_size" (prop "liquidity_analysis" d)) <> NaN)
  /\ exists score, prop "risk_score" d = num score /\ (11 <= score <= 100)%Z.
Proof.
  intros w r req val d.
  assert (Hok : Base.ok val = true) by (vm_compute; reflexivity).
  assert (Hn : ToNumber (prop "estimated_slippage_bps_at_size"
                           (prop "liquidity_analysis" d)) <> NaN)
    by (vm_compute; discriminate).
  split; [split; assumption|].
  destruct (pre_trade_numbers_in_range w r req val
              (surjective_pairing (Base.validatePreTradeRiskPack r)) Hok Hn)
    as (score & _ & _ & _ & _ & Hs & Hr & _).
  exists score. split; assumption.
Defined.

(** ** What a validator leaves in a request that it accepts *)

Lemma includes_In words s : includes words s = true -> In s words.
Proof.
  unfold includes. rewrite existsb_exists. intros (x & Hx & E).
  apply String.eqb_eq in E. by subst.
Qed.

Lemma word_accepted words v fallback f m :
  violation (negb (includes words (BaseSpec.lowered v fallback))) f m = [] ->
  word_of words (VStr (BaseSpec.lowered v fallback)).
Proof.
  intros H. apply violation_nil, negb_false_iff, includes_In in H.
  eexists. split; [reflexivity | exact H].
Qed.

Lemma chain_accepted r :
  BaseSpec.chainViolations r = [] ->
  word_of Base.SUPPORTED_CHAINS (getp (BaseSpec.chainNormalized r) "chain").
Proof.
  unfold BaseSpec.chainViolations, BaseSpec.chainNormalized.
  destruct (isNonEmptyString (getp r "chain")); [|discriminate]. cbn [negb].
  intros H. apply violation_nil, negb_false_iff, includes_In in H.
  rewrite getp_insert_eq. eexists. split; [reflexivity | exact H].
Qed.

Lemma filled_accepted v f m : violation (negb (isNonEmptyString v)) f m = [] -> filled v.
Proof. intros H. by apply violation_nil, negb_false_iff in H. Qed.

Lemma positive_accepted n f m :
  violation (negb (isFinite n) || num_leb n (of_Z 0)) f m = [] -> positive (VNum n).
Proof.
  intros H. apply violation_nil, positive_toNumber in H as (q & -> & Hq).
  by exists q.
Qed.

Lemma integer_accepted v lo hi f m :
  violation (Base.out_of_range (Base.toInt v) (of_Z lo) (of_Z hi)) f m = [] ->
  integer_within lo hi (VNum (Base.toInt v)).
Proof.
  intros H. apply violation_nil, in_range_toInt in H as (c & -> & Hc). by exists c.
Qed.

Ltac accepted :=
  repeat match goal with
  | H : (_ ++ _)%list = [] |- _ => apply app_eq_nil in H as [? H]
  end.

(** Closes a conjunct of a normal form with the lemma of its shape, applied
    to the violation of the field. *)
Ltac field_accepted name lemma :=
  match goal with
  | H : violation _ name _ = [] |- _ => exact (lemma _ _ _ _ _ H)
  | H : violation _ name _ = [] |- _ => exact (lemma _ _ _ _ H)
  | H : violation _ name _ = [] |- _ => exact (lemma _ _ _ H)
  end.

Lemma preTrade_normal_form r :
  concat (BaseSpec.preTradeViolations r) = [] ->
  normal_form PreTradeRiskPack (BaseSpec.preTradeNormalized r).
Proof.
  intros H. cbn [concat BaseSpec.preTradeViolations] in H. accepted.
  unfold normal_form, BaseSpec.preTradeNormalized.
  destruct (nullish (getp r "time_horizon_minutes")) eqn:En; read_req;
    (split; [field_accepted "client_agent_id" filled_accepted|]);
    (split; [by apply chain_accepted|]);
    (split; [field_accepted "asset_in" filled_accepted|]);
    (split; [field_accepted "asset_out" filled_accepted|]);
    (split; [field_accepted "side" word_accepted|]);
    (split; [field_accepted "notional_value_usd" positive_accepted|]);
    (split; [field_accepted "execution_venue" word_accepted|]);
    (split; [field_accepted "max_slippage_bps" integer_accepted|]);
    (split; [field_accepted "urgency" word_accepted|]);
    (split; [match goal with Hl : violation _ "leverage" _ = [] |- _ =>
               apply violation_nil, at_least_one in Hl as (l & -> & Hl); by exists l end|]).
  - by left.
  - right. match goal with Hh : violation _ "time_horizon_minutes" _ = [] |- _ =>
      cbn [negb andb] in Hh; exact (integer_accepted _ _ _ _ _ Hh) end.
Qed.

Lemma filter_nil {A} (f : A -> bool) l :
  List.filter f l = [] -> Forall (fun x => f x = false) l.
Proof.
  induction l as [|x l IH]; simpl; [constructor|].
  destruct (f x) eqn:E; [discriminate|]. intros H. constructor; auto.
Qed.

Lemma venues_accepted items :
  (0 <? length (BaseSpec.unsupportedVenues items))%nat = false ->
  words_of ["aerodrome"; "uniswap_v3"; "uniswap_v2"]
    (VArr (map VStr (BaseSpec.loweredVenues items))).
Proof.
  intros H. apply Nat.ltb_ge in H. eexists. split; [reflexivity|].
  assert (Hn : BaseSpec.unsupportedVenues items = [])
    by (destruct (BaseSpec.unsupportedVenues items); [done | simpl in H; lia]).
  apply filter_nil in Hn. eapply Forall_impl; [exact Hn|].
  intros s Hs. by apply negb_false_iff, includes_In in Hs.
Qed.

Lemma quote_normal_form r :
  concat (BaseSpec.executionQuoteViolations r) = [] ->
  normal_form ExecutionQuoteAndRoute (BaseSpec.executionQuoteNormalized r).
Proof.
  intros H. cbn [concat BaseSpec.executionQuoteViolations] in H. accepted.
  assert (Hd : integer_within 60 3600 (VNum (BaseSpec.deadlineOf r))).
  { match goal with Hx : violation _ "deadline_seconds" _ = [] |- _ => revert Hx end.
    unfold BaseSpec.deadlineOf. destruct (nullish (getp r "deadline_seconds")).
    - intros _. exists 180%Z. split; [reflexivity | lia].
    - intros Hx. exact (integer_accepted _ _ _ _ _ Hx). }
  assert (Hav : words_of ["aerodrome"; "uniswap_v3"; "uniswap_v2"]
                  (getp (BaseSpec.executionQuoteNormalized r) "allowed_venues")
                /\ getp (BaseSpec.executionQuoteNormalized r) "allowed_venues" <> VArr []).
  { match goal with Hx : BaseSpec.allowedVenuesViolations r = [] |- _ => revert Hx end.
    unfold BaseSpec.allowedVenuesViolations, BaseSpec.executionQuoteNormalized.
    destruct (getp r "allowed_venues") as [| | | | |[|v items]|]; try discriminate;
      read_req; intros Hx.
    - split; [|discriminate]. exists ["uniswap_v3"; "aerodrome"].
      split; [reflexivity|]. repeat (constructor; [simpl; auto|]). constructor.
    - split; [|discriminate]. exists ["uniswap_v3"; "aerodrome"].
      split; [reflexivity|]. repeat (constructor; [simpl; auto|]). constructor.
    - split; [|discriminate]. apply venues_accepted. by apply violation_nil in Hx. }
  destruct Hav as [Hav1 Hav2].
  unfold normal_form. split; [|split; [|split; [|split; [|split; [|split;
    [|split; [exact Hav1|split; [exact Hav2|split]]]]]]]];
    unfold BaseSpec.executionQuoteNormalized;
    destruct (getp r "allowed_venues") as [| | | | |[|v items]|]; read_req;
    first [ field_accepted "client_agent_id" filled_accepted
          | by apply chain_accepted
          | field_accepted "asset_in" filled_accepted
          | field_accepted "asset_out" filled_accepted
          | field_accepted "notional_value_usd" positive_accepted
          | field_accepted "max_slippage_bps" integer_accepted
          | by eexists
          | exact Hd ].
Qed.

Lemma trimmed_names items :
  Forall trimmed
    (List.filter (fun x => truthy (VStr x)) (map (fun x => trim (ToString x)) items)).
Proof.
  induction items as [|x items IH]; simpl; [constructor|].
  destruct (negb (trim (ToString x) =? "")) eqn:E; [|exact IH].
  constructor; [|exact IH]. split; [apply trim_idem|].
  apply negb_true_iff in E. by apply String.eqb_neq.
Qed.

Lemma intel_normal_form r :
  concat (BaseSpec.marketIntelViolations r) = [] ->
  normal_form MarketIntel (BaseSpec.marketIntelNormalized r).
Proof.
  intros H. cbn [concat BaseSpec.marketIntelViolations] in H. accepted.
  assert (Hf : trimmed_words (getp (BaseSpec.marketIntelNormalized r) "focus_assets")).
  { match goal with Hx : BaseSpec.focusAssetsViolations r = [] |- _ => revert Hx end.
    unfold BaseSpec.focusAssetsViolations, BaseSpec.marketIntelNormalized.
    destruct (getp r "focus_assets") as [| | | | |items|]; try discriminate;
      read_req; intros _.
    - exists []. split; [reflexivity | constructor].
    - exists []. split; [reflexivity | constructor].
    - eexists. split; [reflexivity | apply trimmed_names]. }
  unfold normal_form. split; [|split; [|split; [|split; [|split; [exact Hf|]]]]];
    unfold BaseSpec.marketIntelNormalized;
    destruct (getp r "focus_assets"); read_req;
    first [ field_accepted "client_agent_id" filled_accepted
          | by apply chain_accepted
          | field_accepted "lookback_minutes" integer_accepted
          | field_accepted "minimum_notional_usd" positive_accepted
          | field_accepted "severity_floor" word_accepted ].
Qed.

Lemma accepted_violations v r :
  validate v r = Normal (true, []) -> concat (violations v r) = [].
Proof. rewrite validate_spec. by intros [= _ ->]. Qed.

(** Property X8.  If a validator of the Base-only provider accepts a request,
    the request it leaves behind is in normal form: chain and the enumerated
    fields hold one of their listed lower-case words, numeric fields hold
    finite numbers in range (integers for max_slippage_bps, deadline_seconds,
    lookback_minutes and time_horizon_minutes), allowed_venues is a non-empty
    array of listed venue names, focus_assets an array of trimmed non-empty
    strings, and prefer_stable_routes a boolean. *)
Theorem validated_request_normal_form (v : Validator) (r : obj) :
  validate v r = Normal (true, []) -> normal_form v (normalize v r).
Proof.
  intros H. apply accepted_violations in H.
  destruct v; try exact I; unfold normalize, violations in *.
  - rewrite validatePreTradeRiskPack_spec. by apply preTrade_normal_form.
  - rewrite validateExecutionQuoteAndRoute_spec. by apply quote_normal_form.
  - rewrite validateMarketIntel_spec. by apply intel_normal_form.
Qed.

Lemma validated_request_normal_form_witness :
  validate PreTradeRiskPack Scenario.requirement = Normal (true, [])
  /\ getp (normalize PreTradeRiskPack Scenario.requirement) "notional_value_usd"
     = num 10000
  /\ positive (getp (normalize PreTradeRiskPack Scenario.requirement)
                 "notional_value_usd").
Proof.
  assert (H : validate PreTradeRiskPack Scenario.requirement = Normal (true, []))
    by (vm_compute; reflexivity).
  split; [exact H|]. split; [vm_compute; reflexivity|].
  exact (proj1 (proj2 (proj2 (proj2 (proj2 (proj2
           (validated_request_normal_form PreTradeRiskPack _ H))))))).
Defined.

(** ** Normal forms are fixed points of validation *)

Lemma insert_same (m : obj) k x : getp m k = x -> x <> VUndef -> <[k := x]> m = m.
Proof.
  unfold getp. intros H Hx. apply insert_id.
  destruct (m !! k) as [y|]; simpl in H; [by subst | by subst].
Qed.

Lemma toInt_Z z : Base.toInt (num z) = of_Z z.
Proof.
  unfold num. change (of_Z z) with (Fin (inject_Z z)) at 1.
  rewrite toInt_Fin. f_equal. unfold Qtruncate. simpl. apply Z.quot_1_r.
Qed.

Lemma in_range_Z z lo hi :
  (lo <= z <= hi)%Z -> Base.out_of_range (of_Z z) (of_Z lo) (of_Z hi) = false.
Proof.
  intros H. unfold Base.out_of_range, num_gtb. rewrite !num_ltb_Z. cbn [isFinite of_Z negb orb].
  apply orb_false_iff. split; apply Z.ltb_ge; lia.
Qed.

Lemma positive_check q :
  (0 < q)%Q -> negb (isFinite (Fin q)) || num_leb (Fin q) (of_Z 0) = false.
Proof. intros H. cbn [isFinite negb orb]. by apply num_leb_Fin_false. Qed.

(** A word of a list of lower-case words is lowered to itself. *)
Ltac known_word H :=
  let s := fresh "s" in
  destruct H as (s & H & Hin); cbn [In Base.SUPPORTED_CHAINS] in Hin;
  repeat match type of Hin with
  | _ \/ _ => destruct Hin as [<-|Hin]
  | False => destruct Hin
  end.

Lemma chain_fixed req :
  word_of Base.SUPPORTED_CHAINS (getp req "chain") ->
  BaseSpec.chainViolations req = [] /\ BaseSpec.chainNormalized req = req.
Proof.
  intros H. unfold BaseSpec.chainViolations, BaseSpec.chainNormalized.
  known_word H; rewrite H; (split; [reflexivity|]);
    change (isNonEmptyString _) with true; cbv iota;
    (apply insert_same; [exact H | discriminate]).
Qed.

Lemma word_fixed words (Hlow : Forall (fun s => toLowerCase s = s /\ s <> "") words)
    req k fallback f m :
  word_of words (getp req k) ->
  violation (negb (includes words (BaseSpec.lowered (getp req k) fallback))) f m = []
  /\ <[k := VStr (BaseSpec.lowered (getp req k) fallback)]> req = req.
Proof.
  intros (s & Hs & Hin). rewrite Hs.
  rewrite Forall_forall in Hlow.
  destruct (Hlow _ (proj2 (list_elem_of_In _ _) Hin)) as [Hl Hne].
  assert (E : BaseSpec.lowered (VStr s) fallback = s).
  { unfold BaseSpec.lowered, or_else, truthy.
    apply String.eqb_neq in Hne. rewrite Hne. exact Hl. }
  rewrite E. split.
  - apply violation_nil, negb_false_iff. unfold includes. apply existsb_exists.
    exists s. split; [exact Hin | apply String.eqb_refl].
  - apply insert_same; [exact Hs | discriminate].
Qed.

Ltac lower_words := repeat (constructor; [split; [reflexivity | discriminate]|]); constructor.

Lemma positive_fixed req k f m :
  positive (getp req k) ->
  violation (negb (isFinite (Base.toNumber (getp req k)))
             || num_leb (Base.toNumber (getp req k)) (of_Z 0)) f m = []
  /\ <[k := VNum (Base.toNumber (getp req k))]> req = req.
Proof.
  intros (q & Hq & Hp). rewrite Hq. cbn [Base.toNumber isFinite]. split.
  - apply violation_nil. by apply positive_check.
  - apply insert_same; [exact Hq | discriminate].
Qed.

Lemma integer_fixed req k lo hi f m :
  integer_within lo hi (getp req k) ->
  violation (Base.out_of_range (Base.toInt (getp req k)) (of_Z lo) (of_Z hi)) f m = []
  /\ <[k := VNum (Base.toInt (getp req k))]> req = req.
Proof.
  intros (z & Hz & Hr). rewrite Hz, toInt_Z. split.
  - apply violation_nil. by apply in_range_Z.
  - apply insert_same; [exact Hz | discriminate].
Qed.

Lemma filled_fixed v f m : filled v -> violation (negb (isNonEmptyString v)) f m = [].
Proof. unfold filled. by intros ->. Qed.

Lemma preTrade_fixed req :
  normal_form PreTradeRiskPack req ->
  concat (BaseSpec.preTradeViolations req) = [] /\ BaseSpec.preTradeNormalized req = req.
Proof.
  intros (Hc & Hch & Hi & Ho & Hs & Hn & Hv & Hm & Hu & Hl & Hh).
  destruct (chain_fixed _ Hch) as [Ech Nch].
  destruct (word_fixed ["buy"; "sell"] ltac:(lower_words) req "side" ""
              "side" "must be 'buy' or 'sell'" Hs) as [Es Ns].
  destruct (positive_fixed req "notional_value_usd" "notional_value_usd"
              "must be a positive number (numeric string allowed)" Hn) as [En Nn].
  destruct (word_fixed ["aerodrome"; "uniswap_v3"; "uniswap_v2"; "unknown"]
              ltac:(lower_words) req "execution_venue" "unknown" "execution_venue"
              "must be one of: aerodrome, uniswap_v3, uniswap_v2, unknown" Hv) as [Ev Nv].
  destruct (integer_fixed req "max_slippage_bps" 1 2000 "max_slippage_bps"
              "must be integer 1..2000 (e.g., 50 = 0.50%)" Hm) as [Em Nm].
  destruct (word_fixed ["low"; "normal"; "high"] ltac:(lower_words) req "urgency"
              "normal" "urgency" "must be low/normal/high" Hu) as [Eu Nu].
  assert (El : violation
                 (negb (isFinite (Base.toNumber (coalesce (getp req "leverage") (num 1))))
                  || num_ltb (Base.toNumber (coalesce (getp req "leverage") (num 1)))
                       (of_Z 1))
                 "leverage" "must be >= 1 (1 for spot)" = []
               /\ <["leverage" :=
                      VNum (Base.toNumber (coalesce (getp req "leverage") (num 1)))]> req
                  = req).
  { destruct Hl as (l & Hl & Hl1). rewrite Hl. cbn [coalesce nullish Base.toNumber isFinite].
    cbn [negb orb]. split.
    - apply violation_nil. by apply Qltb_ge.
    - apply insert_same; [exact Hl | discriminate]. }
  destruct El as [El Nl].
  split.
  - cbn [concat BaseSpec.preTradeViolations].
    rewrite (filled_fixed _ _ _ Hc), Ech, (filled_fixed _ _ _ Hi), (filled_fixed _ _ _ Ho),
      Es, En, Ev, Em, Eu, El. cbn [app].
    destruct Hh as [Hh|Hh].
    + by rewrite Hh.
    + destruct (integer_fixed req "time_horizon_minutes" 1 10080 "time_horizon_minutes"
                  "must be integer 1..10080 (optional)" Hh) as [Eh _].
      rewrite app_nil_r. apply violation_nil. apply violation_nil in Eh.
      rewrite Eh. apply andb_false_r.
  - unfold BaseSpec.preTradeNormalized. rewrite Nch, Ns, Nn, Nv, Nm, Nu, Nl.
    destruct Hh as [Hh|Hh].
    + by rewrite Hh.
    + destruct (integer_fixed req "time_horizon_minutes" 1 10080 "time_horizon_minutes"
                  "must be integer 1..10080 (optional)" Hh) as [_ Nh].
      destruct (nullish _); [reflexivity | exact Nh].
Qed.

Lemma lowered_names names :
  Forall (fun s => In s ["aerodrome"; "uniswap_v3"; "uniswap_v2"]) names ->
  BaseSpec.loweredVenues (map VStr names) = names
  /\ BaseSpec.unsupportedVenues (map VStr names) = [].
Proof.
  unfold BaseSpec.unsupportedVenues, BaseSpec.loweredVenues.
  induction 1 as [|s names Hs _ [IH1 IH2]]; [split; reflexivity|].
  cbn [map ToString]. rewrite IH1.
  assert (toLowerCase s = s /\ includes ["aerodrome"; "uniswap_v3"; "uniswap_v2"] s = true)
    as [-> Hi].
  { cbn [In] in Hs. repeat destruct Hs as [<-|Hs]; try (split; reflexivity). destruct Hs. }
  split; [reflexivity|]. cbn [List.filter]. rewrite Hi. cbn [negb].
  by rewrite IH1 in IH2.
Qed.

Lemma quote_fixed req :
  normal_form ExecutionQuoteAndRoute req ->
  concat (BaseSpec.executionQuoteViolations req) = []
  /\ BaseSpec.executionQuoteNormalized req = req.
Proof.
  intros (Hc & Hch & Hi & Ho & Hn & Hm & Hv & Hv' & [b Hp] & Hd).
  destruct (chain_fixed _ Hch) as [Ech Nch].
  destruct (positive_fixed req "notional_value_usd" "notional_value_usd"
              "must be a positive number (numeric string allowed)" Hn) as [En Nn].
  destruct (integer_fixed req "max_slippage_bps" 1 2000 "max_slippage_bps"
              "must be integer 1..2000" Hm) as [Em Nm].
  assert (Hdl : BaseSpec.deadlineOf req = Base.toInt (getp req "deadline_seconds")).
  { unfold BaseSpec.deadlineOf. destruct Hd as (z & -> & _). reflexivity. }
  destruct (integer_fixed req "deadline_seconds" 60 3600 "deadline_seconds"
              "must be integer 60..3600 (default 180)" Hd) as [Ed Nd].
  destruct Hv as (names & Hg & Hnames).
  destruct names as [|n names]; [by rewrite Hg in Hv'|].
  destruct (lowered_names _ Hnames) as [Hlow Hbad].
  split.
  - cbn [concat BaseSpec.executionQuoteViolations].
    rewrite (filled_fixed _ _ _ Hc), Ech, (filled_fixed _ _ _ Hi), (filled_fixed _ _ _ Ho),
      En, Em, Hdl, Ed. cbn [app].
    unfold BaseSpec.allowedVenuesViolations. rewrite Hg. cbn [map].
    change (VStr n :: map VStr names) with (map VStr (n :: names)).
    by rewrite Hbad.
  - unfold BaseSpec.executionQuoteNormalized. rewrite Nch, Nn, Nm, Hdl.
    rewrite Hg at 1. cbn [map].
    change (VStr n :: map VStr names) with (map VStr (n :: names)).
    rewrite Hlow, (insert_same req "allowed_venues" _ Hg) by discriminate.
    rewrite Hp at 1. cbn [truthy].
    rewrite (insert_same req "prefer_stable_routes" _ Hp) by discriminate.
    exact Nd.
Qed.

Lemma trimmed_fixed names :
  Forall trimmed names ->
  List.filter (fun x => truthy (VStr x)) (map (fun x => trim (ToString x)) (map VStr names))
  = names.
Proof.
  induction 1 as [|s names [Ht Hne] _ IH]; [reflexivity|].
  cbn [map ToString List.filter truthy]. rewrite Ht.
  apply String.eqb_neq in Hne. rewrite Hne. cbn [negb]. f_equal. exact IH.
Qed.

Lemma intel_fixed req :
  normal_form MarketIntel req ->
  concat (BaseSpec.marketIntelViolations req) = []
  /\ BaseSpec.marketIntelNormalized req = req.
Proof.
  intros (Hc & Hch & Hl & Hn & (names & Hf & Hnames) & Hs).
  destruct (chain_fixed _ Hch) as [Ech Nch].
  destruct (integer_fixed req "lookback_minutes" 5 43200 "lookback_minutes"
              "must be integer 5..43200" Hl) as [El Nl].
  assert (Hmin : BaseSpec.minimumNotionalOf req
                 = Base.toNumber (getp req "minimum_notional_usd")).
  { unfold BaseSpec.minimumNotionalOf. destruct Hn as (q & -> & _). reflexivity. }
  destruct (positive_fixed req "minimum_notional_usd" "minimum_notional_usd"
              "must be a positive number (numeric string allowed)" Hn) as [En Nn].
  destruct (word_fixed ["info"; "low"; "medium"; "high"; "critical"]
              ltac:(lower_words) req "severity_floor" "info" "severity_floor"
              "must be one of: info, low, medium, high, critical" Hs) as [Es Ns].
  split.
  - cbn [concat BaseSpec.marketIntelViolations].
    rewrite (filled_fixed _ _ _ Hc), Ech, El, Hmin, En, Es. cbn [app].
    unfold BaseSpec.focusAssetsViolations. by rewrite Hf.
  - unfold BaseSpec.marketIntelNormalized. rewrite Nch, Nl, Hmin, Nn.
    rewrite Hf at 1. rewrite (trimmed_fixed _ Hnames).
    rewrite (insert_same req "focus_assets" _ Hf) by discriminate.
    exact Ns.
Qed.

Lemma normal_form_fixed v req :
  is_base v = true -> normal_form v req ->
  validate v req = Normal (true, []) /\ normalize v req = req.
Proof.
  intros Hb Hn. rewrite validate_spec.
  destruct v; try discriminate; unfold violations, normalize.
  - destruct (preTrade_fixed _ Hn) as [-> Hfix].
    split; [reflexivity|]. by rewrite validatePreTradeRiskPack_spec.
  - destruct (quote_fixed _ Hn) as [-> Hfix].
    split; [reflexivity|]. by rewrite validateExecutionQuoteAndRoute_spec.
  - destruct (intel_fixed _ Hn) as [-> Hfix].
    split; [reflexivity|]. by rewrite validateMarketIntel_spec.
Qed.

(** Property X9.  For the three validators of the Base-only provider,
    validating again a request that was accepted and normalized accepts it
    again and leaves it unchanged: normalization is idempotent on accepted
    requests. *)
Theorem revalidation_of_accepted_requests (v : Validator) (r : obj) :
  is_base v = true ->
  validate v r = Normal (true, []) ->
  validate v (normalize v r) = Normal (true, [])
  /\ normalize v (normalize v r) = normalize v r.
Proof.
  intros Hb Hok. apply normal_form_fixed; [exact Hb|].
  apply accepted_violations in Hok.
  destruct v; try discriminate; unfold normalize, violations in *.
  - rewrite validatePreTradeRiskPack_spec. by apply preTrade_normal_form.
  - rewrite validateExecutionQuoteAndRoute_spec. by apply quote_normal_form.
  - rewrite validateMarketIntel_spec. by apply intel_normal_form.
Qed.

Lemma revalidation_of_accepted_requests_witness :
  let r := <["allowed_venues" := VArr [VStr "Aerodrome"]]>
             (Scenario.quote (VStr "25,000") (VStr "75.9")) in
  (is_base ExecutionQuoteAndRoute = true
   /\ validate ExecutionQuoteAndRoute r = Normal (true, []))
  /\ getp (normalize ExecutionQuoteAndRoute r) "allowed_venues" = VArr [VStr "aerodrome"]
  /\ getp (normalize ExecutionQuoteAndRoute r) "max_slippage_bps" = num 75
  /\ validate ExecutionQuoteAndRoute (normalize ExecutionQuoteAndRoute r)
     = Normal (true, []).
Proof.
  intros r.
  assert (H : validate ExecutionQuoteAndRoute r = Normal (true, []))
    by (vm_compute; reflexivity).
  split; [split; [reflexivity | exact H]|].
  split; [vm_compute; reflexivity|]. split; [vm_compute; reflexivity|].
  exact (proj1 (revalidation_of_accepted_requests ExecutionQuoteAndRoute r eq_refl H)).
Defined.

(** ** The dispatcher and the job cache of the Base-only provider *)

Lemma writable_primitive requirement :
  truthy requirement = true -> primitive requirement = true ->
  exists e, Base.writable (or_else requirement (VObj ∅)) = Throw e.
Proof.
  intros Ht Hp. unfold or_else. rewrite Ht.
  destruct requirement; try discriminate; eexists; reflexivity.
Qed.

(** Property X10.  In the Base-only provider, buildDeliverableForJob with a
    supported job name and a falsy requirement returns the invalid deliverable
    that carries the errors of validating the empty request; with a truthy
    primitive requirement (a non-empty string, a non-zero number, true) it
    raises, because the validator assigns to a property of it. *)
Theorem dispatch_of_missing_requirement (w : Base.World) (v : Validator)
    (requirement : value) :
  is_base v = true ->
  (truthy requirement = false ->
   exists errors,
     validate v ∅ = Normal (false, errors)
     /\ Base.buildDeliverableForJob w (VStr (job_of v)) requirement
        = Normal (Base.invalidDeliverable w (job_of v)
                    {| Base.ok := false; Base.errors := errors |}))
  /\ (truthy requirement = true -> primitive requirement = true ->
      exists e, Base.buildDeliverableForJob w (VStr (job_of v)) requirement = Throw e).
Proof.
  intros Hb. split.
  - intros Hf.
    destruct v; try discriminate;
      (eexists; split; [vm_compute; reflexivity|]);
      unfold Base.buildDeliverableForJob, job_of;
      cbn [is_string String.eqb Ascii.eqb Bool.eqb];
      unfold Base.dispatch, or_else; rewrite Hf;
      cbn [Base.writable mbind completion_bind]; reflexivity.
  - intros Ht Hp. destruct (writable_primitive _ Ht Hp) as [e He].
    destruct v; try discriminate; exists e;
      unfold Base.buildDeliverableForJob, job_of; cbn [is_string String.eqb Ascii.eqb Bool.eqb];
      unfold Base.dispatch; by rewrite He.
Qed.

Lemma dispatch_of_missing_requirement_witness :
  (is_base MarketIntel = true
   /\ truthy VNull = false
   /\ truthy (VStr "USDC") = true /\ primitive (VStr "USDC") = true)
  /\ (exists errors,
        validate MarketIntel ∅ = Normal (false, errors)
        /\ Base.buildDeliverableForJob Scenario.offline
             (VStr (job_of MarketIntel)) VNull
           = Normal (Base.invalidDeliverable Scenario.offline (job_of MarketIntel)
                       {| Base.ok := false; Base.errors := errors |}))
  /\ exists e,
       Base.buildDeliverableForJob Scenario.offline (VStr (job_of MarketIntel))
         (VStr "USDC") = Throw e.
Proof.
  split; [repeat split; reflexivity|]. split.
  - exact (proj1 (dispatch_of_missing_requirement Scenario.offline MarketIntel VNull
                    eq_refl) eq_refl).
  - exact (proj2 (dispatch_of_missing_requirement Scenario.offline MarketIntel
                    (VStr "USDC") eq_refl) eq_refl eq_refl).
Defined.




(** ** risk_sentinel *)

Lemma sentinel_fields now req val :
  Multi.ok val = true ->
  let d := Multi.buildRiskSentinelDeliverable now req val in
  let score := Computed.sentinelScore req in
  prop "validation_passed" d = VBool true
  /\ prop "risk_score" d = VNum score
  /\ prop "decision" d
     = VStr (if num_geb score (of_Z 80) then "reject"
             else if num_geb score (of_Z 60) then "reduce" else "approve")
  /\ prop "recommended_size_factor" d
     = VNum (if num_geb score (of_Z 80) then of_Z 0
             else if num_geb score (of_Z 60) then Fin (1 # 2) else of_Z 1)
  /\ prop "overall_risk_level" (prop "summary" d)
     = VStr (if num_geb score (of_Z 80) then "high"
             else if num_geb score (of_Z 60) then "high"
             else if num_geb score (of_Z 40) then "medium" else "low").
Proof.
  intros Hok d score. subst d score.
  unfold Multi.buildRiskSentinelDeliverable, Computed.sentinelScore.
  rewrite Hok. cbn [negb]. cbv zeta.
  repeat split; try reflexivity;
    repeat match goal with |- context [num_geb ?a ?b] => destruct (num_geb a b) eqn:? end;
    try reflexivity.
Qed.

Lemma Qltb_comp a a' b b' : (a == a')%Q -> (b == b')%Q -> Qltb a b = Qltb a' b'.
Proof. intros Ha Hb. unfold Qltb. by rewrite Ha, Hb. Qed.

Lemma sentinelScore_formula req l q :
  getp req "leverage" = VNum (Fin l) ->
  getp req "notional_value_usd" = VNum (Fin q) ->
  Computed.sentinelScore req
  = of_Z (Z.min 100 (Qfloor (Computed.sentinelRaw l q + (1 # 2)))).
Proof.
  intros Hl Hq. unfold Computed.sentinelScore. rewrite Hl, Hq. cbn [ToNumber].
  unfold num_sub. change (of_Z 1) with (Fin (inject_Z 1)).
  change (of_Z 10) with (Fin (inject_Z 10)). change (of_Z 20) with (Fin (inject_Z 20)).
  change (of_Z 100000) with (Fin (inject_Z 100000)).
  cbn [num_div num_neg]. change (Qeq_bool (inject_Z 100000) 0) with false. cbv iota.
  unfold fin, Math_min at 2. change (of_Z 3) with (Fin (inject_Z 3)). cbv iota.
  cbn [num_ltb].
  assert (Hc : Qltb (inject_Z 3) (Qred (q / inject_Z 100000)) = Qltb 3 (q / 100000))
    by (apply Qltb_comp; [reflexivity | apply Qred_correct]).
  rewrite Hc. unfold Computed.sentinelRaw.
  destruct (Qltb 3 (q / 100000));
    repeat progress (cbn [num_add num_mul]; unfold fin);
    rewrite Math_round_Fin, Math_min_Z; do 2 f_equal; apply Qfloor_comp;
    rewrite !Qred_correct; unfold Qminus; rewrite ?Qred_correct; reflexivity.
Qed.

Lemma sentinelRaw_bounds l q :
  (1 <= l)%Q -> (0 < q)%Q ->
  (20 <= Computed.sentinelRaw l q)%Q
  /\ ((l == 1)%Q -> (Computed.sentinelRaw l q <= 50)%Q)
  /\ ((7 <= l)%Q -> (80 <= Computed.sentinelRaw l q)%Q).
Proof.
  intros Hl Hq. unfold Computed.sentinelRaw.
  assert (Hr : (0 <= q / 100000)%Q) by (apply Qle_shift_div_l; lra).
  destruct (Qltb 3 (q / 100000)) eqn:E.
  - repeat split; intros; lra.
  - apply Qltb_ge in E. repeat split; intros; lra.
Qed.

Lemma sentinelRaw_mono l1 l2 q1 q2 :
  (l1 <= l2)%Q -> (q1 <= q2)%Q ->
  (Computed.sentinelRaw l1 q1 <= Computed.sentinelRaw l2 q2)%Q.
Proof.
  intros Hl Hq. unfold Computed.sentinelRaw.
  assert (Hr : (q1 / 100000 <= q2 / 100000)%Q)
    by (apply Qmult_le_compat_r; [exact Hq | discriminate]).
  destruct (Qltb 3 (q1 / 100000)) eqn:E1, (Qltb 3 (q2 / 100000)) eqn:E2;
    repeat match goal with
    | H : Qltb _ _ = true |- _ => apply Qltb_lt in H
    | H : Qltb _ _ = false |- _ => apply Qltb_ge in H
    end; lra.
Qed.

Lemma floor_at_least z x : (inject_Z z <= x)%Q -> (z <= Qfloor (x + (1 # 2)))%Z.
Proof. intros H. rewrite <- (floor_half z) at 1. apply Qfloor_resp_le. lra. Qed.

Lemma floor_at_most z x : (x <= inject_Z z)%Q -> (Qfloor (x + (1 # 2)) <= z)%Z.
Proof.
  intros H. apply Z.le_trans with (Qfloor (inject_Z z + (1 # 2))).
  - apply Qfloor_resp_le. lra.
  - by rewrite floor_half.
Qed.

Lemma sentinel_valid req :
  Multi.ok (Multi.validateRiskSentinel req) = true ->
  exists l q,
    getp req "leverage" = VNum (Fin l) /\ (1 <= l)%Q
    /\ getp req "notional_value_usd" = VNum (Fin q) /\ (0 < q)%Q.
Proof.
  rewrite validateRiskSentinel_spec. intros H. apply finish_ok' in H.
  cbn [concat MultiSpec.riskSentinelViolations] in H. accepted.
  match goal with Hx : violation _ "leverage" _ = [] |- _ =>
    apply violation_nil, orb_false_iff in Hx as [Hp Hl] end.
  match goal with Hx : violation _ "notional_value_usd" _ = [] |- _ =>
    apply violation_nil, negb_false_iff in Hx; rename Hx into Hn end.
  apply negb_false_iff in Hp.
  destruct (getp req "leverage") as [| | |[| | |l]| | |]; try discriminate.
  destruct (getp req "notional_value_usd") as [| | |[| | |q]| | |]; try discriminate.
  exists l, q. repeat split.
  - cbn [js_lt ToPrimitive ToNumber] in Hl. unfold num, of_Z in Hl.
    cbn [ToNumber num_ltb] in Hl. by apply Qltb_ge in Hl.
  - cbn [Multi.isPositiveNumber isFinite andb] in Hn. unfold num_gtb, of_Z in Hn.
    cbn [num_ltb] in Hn. by apply Qltb_lt in Hn.
Qed.

Lemma num_geb_Z a b : num_geb (of_Z a) (of_Z b) = (b <=? a)%Z.
Proof. unfold num_geb. apply num_leb_Z. Qed.

Lemma js_ge_Fin a b : js_ge (VNum (Fin a)) (VNum (Fin b)) = true <-> (b <= a)%Q.
Proof. rewrite js_ge_num. unfold num_geb. apply num_leb_Fin. Qed.

(** Property X12.  For every validated risk_sentinel request the risk_score is
    an integer within 20..100; decision and size factor follow its bands
    (reject and 0 from 80, reduce and 0.5 from 60, approve and 1 below); a
    request with leverage 1 never scores above 50, and a leverage of 7 or more
    is always rejected. *)
Theorem risk_sentinel_bands (now : string) (req : obj) :
  Multi.ok (Multi.validateRiskSentinel req) = true ->
  let d := Multi.buildRiskSentinelDeliverable now req (Multi.validateRiskSentinel req) in
  exists score,
    prop "risk_score" d = num score
    /\ (20 <= score <= 100)%Z
    /\ prop "decision" d
       = VStr (if (80 <=? score)%Z then "reject"
               else if (60 <=? score)%Z then "reduce" else "approve")
    /\ prop "recommended_size_factor" d
       = VNum (if (80 <=? score)%Z then of_Z 0
               else if (60 <=? score)%Z then Fin (1 # 2) else of_Z 1)
    /\ (getp req "leverage" = num 1 -> (score <= 50)%Z)
    /\ (js_ge (getp req "leverage") (num 7) = true -> (80 <= score)%Z).
Proof.
  intros Hok d. destruct (sentinel_valid req Hok) as (l & q & Hl & Hl1 & Hq & Hq0).
  destruct (sentinel_fields now req _ Hok) as (_ & Hs & Hd & Hf & _).
  fold d in Hs, Hd, Hf. cbv zeta in Hs, Hd, Hf.
  rewrite (sentinelScore_formula req l q Hl Hq) in Hs, Hd, Hf.
  rewrite !num_geb_Z in Hd, Hf.
  destruct (sentinelRaw_bounds l q Hl1 Hq0) as (Hlo & Hspot & Hlev).
  pose proof (floor_at_least 20 _ Hlo) as Hk.
  eexists. split; [exact Hs|]. split; [lia|]. split; [exact Hd|]. split; [exact Hf|].
  split.
  - rewrite Hl. intros [= E]. assert (Hone : (l == 1)%Q) by (by rewrite E).
    pose proof (floor_at_most 50 _ (Hspot Hone)). lia.
  - rewrite Hl. unfold num, of_Z. rewrite js_ge_Fin. intros H7.
    pose proof (floor_at_least 80 _ (Hlev H7)). lia.
Qed.

Lemma risk_sentinel_bands_witness :
  let req := Scenario.sentinel (num 250000) in
  let d := Multi.buildRiskSentinelDeliverable "now" req (Multi.validateRiskSentinel req) in
  (Multi.ok (Multi.validateRiskSentinel req) = true /\ getp req "leverage" = num 1)
  /\ exists score,
       prop "risk_score" d = num score /\ (score <= 50)%Z
       /\ prop "decision" d
          = VStr (if (80 <=? score)%Z then "reject"
                  else if (60 <=? score)%Z then "reduce" else "approve").
Proof.
  intros req d.
  assert (Hok : Multi.ok (Multi.validateRiskSentinel req) = true)
    by (vm_compute; reflexivity).
  assert (Hl : getp req "leverage" = num 1) by (vm_compute; reflexivity).
  split; [split; assumption|].
  destruct (risk_sentinel_bands "now" req Hok) as (score & Hs & _ & Hd & _ & Hspot & _).
  exists score. split; [exact Hs|]. split; [exact (Hspot Hl) | exact Hd].
Defined.

(** Property X13.  For two validated risk_sentinel requests, if the second has
    at least the leverage and at least the notional_value_usd of the first,
    its risk_score is at least that of the first. *)
Theorem risk_sentinel_monotone (now : string) (req1 req2 : obj) :
  Multi.ok (Multi.validateRiskSentinel req1) = true ->
  Multi.ok (Multi.validateRiskSentinel req2) = true ->
  js_ge (getp req2 "leverage") (getp req1 "leverage") = true ->
  js_ge (getp req2 "notional_value_usd") (getp req1 "notional_value_usd") = true ->
  js_ge
    (prop "risk_score"
       (Multi.buildRiskSentinelDeliverable now req2 (Multi.validateRiskSentinel req2)))
    (prop "risk_score"
       (Multi.buildRiskSentinelDeliverable now req1 (Multi.validateRiskSentinel req1)))
  = true.
Proof.
  intros Hok1 Hok2.
  destruct (sentinel_valid req1 Hok1) as (l1 & q1 & Hl1 & _ & Hq1 & _).
  destruct (sentinel_valid req2 Hok2) as (l2 & q2 & Hl2 & _ & Hq2 & _).
  destruct (sentinel_fields now req1 _ Hok1) as (_ & -> & _).
  destruct (sentinel_fields now req2 _ Hok2) as (_ & -> & _).
  rewrite Hl1, Hl2, Hq1, Hq2, !js_ge_Fin. intros Hl Hq.
  rewrite (sentinelScore_formula req1 l1 q1 Hl1 Hq1),
    (sentinelScore_formula req2 l2 q2 Hl2 Hq2).
  rewrite js_ge_num, num_geb_Z. apply Z.leb_le.
  apply Z.min_le_compat_l, Qfloor_half_mono. by apply sentinelRaw_mono.
Qed.

Lemma risk_sentinel_monotone_witness :
  let req1 := Scenario.sentinel (num 50000) in
  let req2 := <["leverage" := num 3]> (Scenario.sentinel (num 250000)) in
  (Multi.ok (Multi.validateRiskSentinel req1) = true
   /\ Multi.ok (Multi.validateRiskSentinel req2) = true)
  /\ prop "risk_score"
       (Multi.buildRiskSentinelDeliverable "now" req1 (Multi.validateRiskSentinel req1))
     = num 25
  /\ js_ge
       (prop "risk_score"
          (Multi.buildRiskSentinelDeliverable "now" req2 (Multi.validateRiskSentinel req2)))
       (prop "risk_score"
          (Multi.buildRiskSentinelDeliverable "now" req1 (Multi.validateRiskSentinel req1)))
     = true.
Proof.
  intros req1 req2.
  assert (H1 : Multi.ok (Multi.validateRiskSentinel req1) = true)
    by (vm_compute; reflexivity).
  assert (H2 : Multi.ok (Multi.validateRiskSentinel req2) = true)
    by (vm_compute; reflexivity).
  split; [split; assumption|]. split; [vm_compute; reflexivity|].
  apply (risk_sentinel_monotone "now" req1 req2 H1 H2); vm_compute; reflexivity.
Defined.

(** ** gas_execution_optimizer *)

Lemma gas_fields now req val :
  Multi.ok val = true ->
  let d := Multi.buildGasExecutionDeliverable now req val in
  prop "validation_passed" d = VBool true
  /\ prop "recommended_gas_price_wei" d = VNum (Computed.recommendedGas req)
  /\ prop "baseline_gas_price_wei" (prop "summary" d) = Computed.baseGas req
  /\ prop "triggered" (prop "baseline_present" (prop "coverage" d))
     = VBool (Multi.isPositiveNumber (getp req "current_gas_price_wei"))
  /\ prop "suggested_priority" d = getp req "urgency".
Proof.
  intros Hok d. subst d.
  unfold Multi.buildGasExecutionDeliverable, Computed.recommendedGas, Computed.baseGas,
    Computed.multiplier.
  rewrite Hok. cbn [negb]. cbv zeta.
  repeat split; reflexivity.
Qed.

Lemma gas_valid req :
  Multi.ok (Multi.validateGasExecution req) = true ->
  exists g, getp req "current_gas_price_wei" = VNum (Fin g) /\ (0 <= g)%Q.
Proof.
  rewrite validateGasExecution_spec. intros H. apply finish_ok' in H.
  cbn [concat MultiSpec.gasExecutionViolations] in H. accepted.
  match goal with Hx : violation _ "current_gas_price_wei" _ = [] |- _ =>
    apply violation_nil, negb_false_iff in Hx; rename Hx into Hg end.
  destruct (getp req "current_gas_price_wei") as [| | |[| | |g]| | |]; try discriminate.
  exists g. split; [reflexivity|].
  cbn [Multi.isNonNegativeNumber isFinite andb] in Hg. unfold num_geb, of_Z in Hg.
  by apply num_leb_Fin in Hg.
Qed.

Lemma gas_urgency req u :
  Multi.ok (Multi.validateGasExecution req) = true ->
  In u ["low"; "normal"; "high"] ->
  Multi.ok (Multi.validateGasExecution (<["urgency" := VStr u]> req)) = true.
Proof.
  rewrite !validateGasExecution_spec. intros H Hu. apply finish_ok' in H.
  apply finish_ok'. cbn [concat MultiSpec.gasExecutionViolations] in *. accepted.
  read_req.
  assert (Hw : violation
                 (negb (isNonEmptyString (VStr u))
                  || negb (Multi.oneOf (VStr u) ["low"; "normal"; "high"]))
                 "urgency" "must be one of low, normal, high" = []).
  { cbn [In] in Hu. repeat destruct Hu as [<-|Hu]; try reflexivity. destruct Hu. }
  repeat match goal with Hx : violation _ _ _ = [] |- _ => rewrite Hx; clear Hx end.
  reflexivity.
Qed.

Lemma baseGas_positive req g :
  getp req "current_gas_price_wei" = VNum (Fin g) -> (0 <= g)%Q ->
  exists b, ToNumber (Computed.baseGas req) = Fin b /\ (0 < b)%Q
            /\ ((0 < g)%Q -> b = g)
            /\ ((g == 0)%Q -> b = inject_Z 20000000000).
Proof.
  intros Hg H0. unfold Computed.baseGas. rewrite Hg.
  cbn [Multi.isPositiveNumber isFinite andb]. unfold num_gtb, of_Z. cbn [num_ltb].
  destruct (Qltb (inject_Z 0) g) eqn:E; cbn [negb ToNumber].
  - apply Qltb_lt in E. change (inject_Z 0) with 0%Q in E.
    exists g. repeat split; auto. intros Hz. lra.
  - apply Qltb_ge in E. change (inject_Z 0) with 0%Q in E.
    eexists. split; [reflexivity|]. split; [reflexivity|]. split; [intros; lra | reflexivity].
Qed.

Lemma recommendedGas_urgency req u :
  Computed.baseGas (<["urgency" := VStr u]> req) = Computed.baseGas req
  /\ Computed.multiplier (<["urgency" := VStr u]> req)
     = (if String.eqb u "high" then Fin (6 # 5)
        else if String.eqb u "low" then Fin (9 # 10) else of_Z 1).
Proof.
  unfold Computed.baseGas, Computed.multiplier. read_req. split; reflexivity.
Qed.

(** Property X14.  For a validated gas_execution_optimizer request, setting
    urgency to low, normal and high gives recommended gas prices in
    non-decreasing order; with current_gas_price_wei 0 they are 18, 20 and 24
    gwei (the 20 gwei default scaled by 0.9, 1 and 1.2), and with a positive
    integer price the normal recommendation is that price. *)
Theorem gas_recommendation_by_urgency (now : string) (req : obj) :
  Multi.ok (Multi.validateGasExecution req) = true ->
  let price (urgency : string) :=
    let r := <["urgency" := VStr urgency]> req in
    prop "recommended_gas_price_wei"
      (Multi.buildGasExecutionDeliverable now r (Multi.validateGasExecution r)) in
  js_ge (price "normal") (price "low") = true
  /\ js_ge (price "high") (price "normal") = true
  /\ (getp req "current_gas_price_wei" = num 0 ->
      price "low" = num 18000000000
      /\ price "normal" = num 20000000000
      /\ price "high" = num 24000000000)
  /\ (forall z, (0 < z)%Z -> getp req "current_gas_price_wei" = num z ->
      price "normal" = num z).
Proof.
  intros Hok price. destruct (gas_valid req Hok) as (g & Hg & Hg0).
  destruct (baseGas_positive req g Hg Hg0) as (b & Hb & Hb0 & Hpos & Hzero).
  assert (Hprice : forall u, In u ["low"; "normal"; "high"] ->
            price u = VNum (Math_round (num_mul (Fin b)
                        (if String.eqb u "high" then Fin (6 # 5)
                         else if String.eqb u "low" then Fin (9 # 10) else of_Z 1)))).
  { intros u Hu. subst price. cbv beta zeta.
    destruct (gas_fields now (<["urgency" := VStr u]> req) _ (gas_urgency req u Hok Hu))
      as (_ & -> & _).
    unfold Computed.recommendedGas.
    destruct (recommendedGas_urgency req u) as [-> ->]. by rewrite Hb. }
  rewrite (Hprice "low"), (Hprice "normal"), (Hprice "high") by (simpl; auto).
  cbn [String.eqb Ascii.eqb Bool.eqb]. unfold of_Z at 1 2 3. cbn [num_mul]. unfold fin.
  rewrite !Math_round_Fin, !js_ge_num, !num_geb_Z.
  split; [|split; [|split]].
  - apply Z.leb_le, Qfloor_half_mono. rewrite !Qred_correct.
    change (inject_Z 1) with 1%Q. lra.
  - apply Z.leb_le, Qfloor_half_mono. rewrite !Qred_correct.
    change (inject_Z 1) with 1%Q. lra.
  - rewrite Hg. intros [= E]. rewrite (Hzero ltac:(by rewrite E)).
    repeat split; reflexivity.
  - intros z Hz. rewrite Hg. intros [= E].
    assert (b = g) as -> by (apply Hpos; rewrite E; change 0%Q with (inject_Z 0);
                             by rewrite <- Zlt_Qlt).
    subst g. unfold num. f_equal. unfold of_Z at 1. cbn [num_mul]. unfold fin.
    rewrite Math_round_Fin. unfold of_Z. do 2 f_equal.
    rewrite <- (floor_half z) at 2. apply Qfloor_comp. rewrite Qred_correct.
    change (inject_Z 1) with 1%Q. ring.
Qed.

Lemma gas_recommendation_by_urgency_witness :
  let req : obj :=
    list_to_map [
      ("client_agent_id", VStr "x"); ("chain", VStr "base");
      ("transaction_type", VStr "swap"); ("urgency", VStr "normal");
      ("expected_notional_usd", num 1000); ("current_gas_price_wei", num 0) ] in
  let price (urgency : string) :=
    let r := <["urgency" := VStr urgency]> req in
    prop "recommended_gas_price_wei"
      (Multi.buildGasExecutionDeliverable "now" r (Multi.validateGasExecution r)) in
  (Multi.ok (Multi.validateGasExecution req) = true
   /\ getp req "current_gas_price_wei" = num 0)
  /\ price "low" = num 18000000000
  /\ price "normal" = num 20000000000
  /\ price "high" = num 24000000000.
Proof.
  intros req price.
  assert (Hok : Multi.ok (Multi.validateGasExecution req) = true)
    by (vm_compute; reflexivity).
  assert (Hz : getp req "current_gas_price_wei" = num 0) by (vm_compute; reflexivity).
  split; [split; assumption|].
  exact (proj1 (proj2 (proj2 (gas_recommendation_by_urgency "now" req Hok))) Hz).
Defined.

(** ** strategy_safety_audit *)

Lemma audit_valid req :
  Multi.ok (Multi.validateStrategyAudit req) = true ->
  exists c rest l y,
    getp req "contracts_involved" = VArr (c :: rest)
    /\ getp req "max_leverage" = VNum (Fin l) /\ (1 <= l)%Q
    /\ getp req "target_yield_apy" = VNum (Fin y) /\ (0 <= y)%Q.
Proof.
  rewrite validateStrategyAudit_spec. intros H. apply finish_ok' in H.
  cbn [concat MultiSpec.strategyAuditViolations] in H. accepted.
  match goal with Hx : violation _ "max_leverage" _ = [] |- _ =>
    apply violation_nil, orb_false_iff in Hx as [Hp Hl] end.
  match goal with Hx : violation _ "target_yield_apy" _ = [] |- _ =>
    apply violation_nil, negb_false_iff in Hx; rename Hx into Hy end.
  apply negb_false_iff in Hp.
  match goal with Hx : MultiSpec.contractsViolations req = [] |- _ =>
    unfold MultiSpec.contractsViolations in Hx; rename Hx into Hc end.
  destruct (getp req "contracts_involved") as [| | | | |[|c rest]|]; try discriminate.
  destruct (getp req "max_leverage") as [| | |[| | |l]| | |]; try discriminate.
  destruct (getp req "target_yield_apy") as [| | |[| | |y]| | |]; try discriminate.
  exists c, rest, l, y. repeat split.
  - cbn [js_lt ToPrimitive ToNumber] in Hl. unfold num, of_Z in Hl.
    cbn [ToNumber num_ltb] in Hl. by apply Qltb_ge in Hl.
  - cbn [Multi.isNonNegativeNumber isFinite andb] in Hy. unfold num_geb, of_Z in Hy.
    by apply num_leb_Fin in Hy.
Qed.

Lemma js_gt_Fin q k : js_gt (VNum (Fin q)) (num k) = Qltb (inject_Z k) q.
Proof. reflexivity. Qed.

Lemma Qltb_inject_mono a b q :
  (a <= b)%Z -> Qltb (inject_Z b) q = true -> Qltb (inject_Z a) q = true.
Proof.
  intros Hab H. apply Qltb_lt in H. apply Qltb_lt.
  apply Qle_lt_trans with (inject_Z b); [by rewrite <- Zle_Qle | exact H].
Qed.

(** Reads the score of an audit whose rating contributes [k]. *)
Ltac score_is k :=
  match goal with
  | n := length _ |- _ =>
      transitivity
        (VNum (Math_min (of_Z 100)
                 (num_add (of_Z k)
                    (Math_min (num_mul (ToNumber (num (Z.of_nat n))) (of_Z 5)) (of_Z 20)))));
      [reflexivity|]
  end.

(** Property X15.  For a validated strategy_safety_audit request the builder
    returns; risk_rating is high when max_leverage > 3 or target_yield_apy >
    40, else medium when max_leverage > 2 or target_yield_apy > 20, else low;
    the summary's risk_score is 70, 40 or 20 accordingly plus min(5 times the
    number of contracts, 20); issues is empty exactly when max_leverage <= 2
    and target_yield_apy <= 30, in particular for every low rating. *)
Theorem strategy_audit_rating (now : string) (req : obj) :
  Multi.ok (Multi.validateStrategyAudit req) = true ->
  exists d contracts,
    Multi.buildStrategyAuditDeliverable now req (Multi.validateStrategyAudit req) = Normal d
    /\ getp req "contracts_involved" = VArr contracts
    /\ contracts <> []
    /\ let leverage := getp req "max_leverage" in
       let apy := getp req "target_yield_apy" in
       let high := js_gt leverage (num 3) || js_gt apy (num 40) in
       let medium := js_gt leverage (num 2) || js_gt apy (num 20) in
       prop "risk_rating" d
       = VStr (if high then "high" else if medium then "medium" else "low")
       /\ prop "risk_score" (prop "summary" d)
          = num ((if high then 70 else if medium then 40 else 20)
                 + Z.min (5 * Z.of_nat (length contracts)) 20)
       /\ (prop "issues" d = VArr [] <->
           js_gt leverage (num 2) = false /\ js_gt apy (num 30) = false)
       /\ (medium = false -> prop "issues" d = VArr []).
Proof.
  intros Hok. destruct (audit_valid req Hok) as (c & rest & l & y & Hc & Hl & Hl1 & Hy & Hy0).
  unfold Multi.buildStrategyAuditDeliverable. rewrite Hok, Hc, Hl, Hy.
  cbn [negb Multi.js_length]. cbv zeta.
  eexists. exists (c :: rest). split; [reflexivity|]. split; [reflexivity|].
  split; [discriminate|].
  rewrite !js_gt_Fin.
  assert (H32 := Qltb_inject_mono 2 3 l ltac:(lia)).
  assert (H42 := Qltb_inject_mono 20 40 y ltac:(lia)).
  assert (H43 := Qltb_inject_mono 30 40 y ltac:(lia)).
  assert (H31 := Qltb_inject_mono 20 30 y ltac:(lia)).
  set (n := length (c :: rest)).
  assert (Hn : (1 <= Z.of_nat n)%Z) by (subst n; cbn [length]; lia).
  assert (Hscore : forall k, (0 <= k)%Z ->
            Math_min (of_Z 100)
              (num_add (of_Z k) (Math_min (num_mul (ToNumber (num (Z.of_nat n))) (of_Z 5)) (of_Z 20)))
            = of_Z (Z.min 100 (k + Z.min (Z.of_nat n * 5) 20))).
  { intros k Hk. cbn [ToNumber num]. rewrite num_mul_Z, Math_min_Z, num_add_Z, Math_min_Z.
    reflexivity. }
  destruct (Qltb (inject_Z 3) l) eqn:E3, (Qltb (inject_Z 2) l) eqn:E2,
    (Qltb (inject_Z 40) y) eqn:E40, (Qltb (inject_Z 30) y) eqn:E30,
    (Qltb (inject_Z 20) y) eqn:E20;
    try (specialize (H32 eq_refl); discriminate);
    try (specialize (H42 eq_refl); discriminate);
    try (specialize (H43 eq_refl); discriminate);
    try (specialize (H31 eq_refl); discriminate);
    cbn [orb fst snd app prop getp object];
    (split; [reflexivity|]);
    (split; [first [score_is 70%Z | score_is 40%Z | score_is 20%Z];
             rewrite Hscore by lia; unfold num; do 2 f_equal; lia|]);
    (split; [split; [intros [= ?] || (intros _; split; reflexivity)
                    | intros [? ?]; (discriminate || reflexivity)]
            | intros ?; (discriminate || reflexivity)]).
Qed.

Lemma strategy_audit_rating_witness :
  let req : obj :=
    list_to_map [
      ("client_agent_id", VStr "x"); ("strategy_name", VStr "loop");
      ("chain", VStr "base"); ("strategy_description", VStr "leveraged staking");
      ("contracts_involved", VArr [VStr "0xabc"; VStr "0xdef"]);
      ("max_leverage", num 2); ("target_yield_apy", num 25) ] in
  Multi.ok (Multi.validateStrategyAudit req) = true
  /\ exists d,
       Multi.buildStrategyAuditDeliverable "now" req (Multi.validateStrategyAudit req)
       = Normal d
       /\ prop "risk_rating" d = VStr "medium"
       /\ prop "risk_score" (prop "summary" d) = num 50
       /\ prop "issues" d = VArr [].
Proof.
  intros req.
  assert (Hok : Multi.ok (Multi.validateStrategyAudit req) = true)
    by (vm_compute; reflexivity).
  split; [exact Hok|].
  destruct (strategy_audit_rating "now" req Hok) as (d & cs & Hd & Hc & _ & Hr & Hs & Hi & _).
  exists d. split; [exact Hd|].
  vm_compute in Hc. injection Hc as <-.
  split; [exact Hr|]. split; [exact Hs|].
  apply Hi. split; reflexivity.
Defined.

(** ** portfolio_rebalancer *)

Lemma imap_accepted {A} (P : A -> Prop) (g : nat -> A -> list string) (l : list A) :
  (forall i x, g i x = [] -> P x) ->
  concat (imap g l) = [] -> Forall P l.
Proof.
  revert g. induction l as [|x l IH]; intros g Hg H; [constructor|].
  cbn [imap concat] in H. apply app_eq_nil in H as [Hx Hl].
  constructor; [by apply (Hg 0%nat)|].
  apply (IH (g ∘ S)); [|exact Hl]. intros i y. apply Hg.
Qed.

Lemma position_accepted idx p :
  MultiSpec.positionViolations idx p = [] ->
  filled (prop "asset" p) /\ positive (prop "notional_usd" p).
Proof.
  unfold MultiSpec.positionViolations.
  destruct p as [| | | | |items|o]; try discriminate; intros H.
  accepted.
  match goal with Hx : violation _ _ "must be a non-empty string" = [] |- _ =>
    apply violation_nil, negb_false_iff in Hx; rename Hx into Ha end.
  apply violation_nil, negb_false_iff in H.
  split; [exact Ha|].
  destruct (prop "notional_usd" (VObj o)) as [| | |[| | |q]| | |]; try discriminate.
  exists q. split; [reflexivity|].
  cbn [Multi.isPositiveNumber isFinite andb] in H. unfold num_gtb, of_Z in H.
  cbn [num_ltb] in H. by apply Qltb_lt in H.
Qed.

Lemma portfolio_valid req val :
  Multi.validatePortfolioRebalancer req = Normal val -> Multi.ok val = true ->
  exists p rest,
    getp req "current_positions" = VArr (p :: rest)
    /\ Forall (fun p => filled (prop "asset" p) /\ positive (prop "notional_usd" p))
         (p :: rest).
Proof.
  rewrite validatePortfolioRebalancer_spec. intros [= <-] H. apply finish_ok' in H.
  cbn [concat MultiSpec.portfolioViolations] in H. accepted.
  match goal with Hx : MultiSpec.positionsViolations req = [] |- _ =>
    unfold MultiSpec.positionsViolations in Hx; rename Hx into Hp end.
  destruct (getp req "current_positions") as [| | | | |[|p rest]|]; try discriminate.
  exists p, rest. split; [reflexivity|].
  apply (imap_accepted _ MultiSpec.positionViolations); [|exact Hp].
  intros i x. apply position_accepted.
Qed.

Lemma member_position p k :
  positive (prop "notional_usd" p) -> member p k = Normal (prop k p).
Proof. intros (q & Hq & _). destruct p; try discriminate. reflexivity. Qed.

Lemma sum_notional_positions l :
  Forall (fun p => filled (prop "asset" p) /\ positive (prop "notional_usd" p)) l ->
  forall s, (0 <= s)%Q ->
  exists t, Multi.sum_notional l (VNum (Fin s)) = Normal (VNum (Fin t))
            /\ (s <= t)%Q /\ (l <> [] -> (s < t)%Q).
Proof.
  induction 1 as [|p l [_ Hp] _ IH]; intros s Hs.
  - exists s. split; [reflexivity|]. split; [lra|]. congruence.
  - cbn [Multi.sum_notional]. rewrite (member_position p _ Hp).
    destruct Hp as (q & -> & Hq). cbn [mbind completion_bind].
    change (Multi.js_add (VNum (Fin s)) (VNum (Fin q))) with (VNum (Fin (Qred (s + q)))).
    destruct (IH (Qred (s + q))) as (t & Ht & Hle & _).
    { rewrite Qred_correct. lra. }
    exists t. split; [exact Ht|]. rewrite Qred_correct in Hle. split; [lra|]. intros _. lra.
Qed.

Lemma stable_positions_filter l :
  Forall (fun p => filled (prop "asset" p) /\ positive (prop "notional_usd" p)) l ->
  Multi.stable_positions ["USDC"; "USDT"; "DAI"] l = Normal (List.filter stablecoin l).
Proof.
  induction 1 as [|p l [Ha Hp] _ IH]; [reflexivity|].
  cbn [Multi.stable_positions List.filter]. rewrite (member_position p _ Hp).
  unfold stablecoin at 1. unfold filled in Ha.
  destruct (prop "asset" p) as [| | | |a| |]; try discriminate.
  cbn [mbind completion_bind]. rewrite IH. cbn [mbind completion_bind mret completion_ret].
  reflexivity.
Qed.

Lemma allocations_positions total l :
  Forall (fun p => filled (prop "asset" p) /\ positive (prop "notional_usd" p)) l ->
  exists allocs,
    Multi.allocations total l = Normal allocs
    /\ map (prop "asset") allocs = map (prop "asset") l
    /\ map (prop "notional_usd") allocs = map (prop "notional_usd") l.
Proof.
  induction 1 as [|p l [_ Hp] _ (allocs & IH & Ha & Hn)]; [by exists []|].
  cbn [Multi.allocations]. rewrite !(member_position p _ Hp).
  cbn [mbind completion_bind]. rewrite IH. cbn [mbind completion_bind mret completion_ret].
  eexists. split; [reflexivity|]. cbn [map]. rewrite Ha, Hn. split; reflexivity.
Qed.

Lemma Forall_kept {A} (P : A -> Prop) (f : A -> bool) l :
  Forall P l -> Forall P (List.filter f l).
Proof.
  induction 1 as [|x l Hx _ IH]; [constructor|]. cbn [List.filter].
  destruct (f x); [by constructor | exact IH].
Qed.






(** ** The venue of a quote *)















(** ** Delivery by the five-job provider *)

Lemma is_string_eq s v : is_string s v = true -> v = VStr s.
Proof.
  destruct v; try discriminate. cbn [is_string]. intros H.
  apply String.eqb_eq in H. by subst.
Qed.

Lemma sentinel_built now req :
  let d := Multi.buildRiskSentinelDeliverable now req (Multi.validateRiskSentinel req) in
  exists passed errors,
    prop "job_name" d = VStr "risk_sentinel"
    /\ prop "validation_passed" d = VBool passed
    /\ prop "validation_errors" d = VArr errors
    /\ (passed = true <-> errors = []).
Proof.
  cbv zeta. rewrite validateRiskSentinel_spec.
  destruct (concat (MultiSpec.riskSentinelViolations req)) as [|x l].
  - exists true, []. repeat split; reflexivity.
  - exists false, (map VStr (x :: l)). repeat split; try reflexivity; discriminate.
Qed.

Lemma gas_built now req :
  let d := Multi.buildGasExecutionDeliverable now req (Multi.validateGasExecution req) in
  exists passed errors,
    prop "job_name" d = VStr "gas_execution_optimizer"
    /\ prop "validation_passed" d = VBool passed
    /\ prop "validation_errors" d = VArr errors
    /\ (passed = true <-> errors = []).
Proof.
  cbv zeta. rewrite validateGasExecution_spec.
  destruct (concat (MultiSpec.gasExecutionViolations req)) as [|x l].
  - exists true, []. repeat split; reflexivity.
  - exists false, (map VStr (x :: l)). repeat split; try reflexivity; discriminate.
Qed.

Lemma intel_built now req :
  let d := Multi.buildMarketIntelDeliverable now req (Multi.validateMarketIntel req) in
  exists passed errors,
    prop "job_name" d = VStr "market_intelligence_feed"
    /\ prop "validation_passed" d = VBool passed
    /\ prop "validation_errors" d = VArr errors
    /\ (passed = true <-> errors = []).
Proof.
  cbv zeta. rewrite validateMarketIntelFeed_spec.
  destruct (concat (MultiSpec.marketIntelViolations req)) as [|x l].
  - exists true, []. repeat split; reflexivity.
  - exists false, (map VStr (x :: l)). repeat split; try reflexivity; discriminate.
Qed.

Lemma audit_built now req :
  exists d passed errors,
    Multi.buildStrategyAuditDeliverable now req (Multi.validateStrategyAudit req) = Normal d
    /\ prop "job_name" d = VStr "strategy_safety_audit"
    /\ prop "validation_passed" d = VBool passed
    /\ prop "validation_errors" d = VArr errors
    /\ (passed = true <-> errors = []).
Proof.
  destruct (Multi.ok (Multi.validateStrategyAudit req)) eqn:Hok.
  - destruct (audit_valid req Hok) as (c & rest & l & y & Hc & _).
    unfold Multi.buildStrategyAuditDeliverable. rewrite Hok, Hc.
    cbn [negb Multi.js_length mbind completion_bind mret completion_ret]. cbv zeta.
    eexists. exists true, []. repeat split; reflexivity.
  - unfold Multi.buildStrategyAuditDeliverable. rewrite Hok. cbn [negb mret completion_ret].
    revert Hok. rewrite validateStrategyAudit_spec.
    destruct (concat (MultiSpec.strategyAuditViolations req)) as [|x l]; [discriminate|].
    intros _. eexists. exists false, (map VStr (x :: l)).
    repeat split; try reflexivity; discriminate.
Qed.

Lemma portfolio_built now req :
  exists val d passed errors,
    Multi.validatePortfolioRebalancer req = Normal val
    /\ Multi.buildPortfolioRebalancerDeliverable now req val = Normal d
    /\ prop "job_name" d = VStr "portfolio_rebalancer"
    /\ prop "validation_passed" d = VBool passed
    /\ prop "validation_errors" d = VArr errors
    /\ (passed = true <-> errors = []).
Proof.
  pose proof (validatePortfolioRebalancer_spec req) as Hval.
  set (val := Multi.finish (concat (MultiSpec.portfolioViolations req))) in *.
  exists val. destruct (Multi.ok val) eqn:Hok.
  - destruct (portfolio_valid req val Hval Hok) as (p & rest & Hp & Hgood).
    destruct (sum_notional_positions (p :: rest) Hgood 0%Q ltac:(lra)) as (t & Ht & _).
    assert (Hstable : Forall (fun p => filled (prop "asset" p)
                                       /\ positive (prop "notional_usd" p))
                        (List.filter stablecoin (p :: rest))) by (by apply Forall_kept).
    destruct (sum_notional_positions _ Hstable 0%Q ltac:(lra)) as (u & Hu & _).
    destruct (allocations_positions (VNum (Fin t)) (p :: rest) Hgood) as (allocs & Hal & _).
    unfold Multi.buildPortfolioRebalancerDeliverable. rewrite Hok, Hp.
    cbn [negb Multi.positions_of mbind completion_bind mret completion_ret].
    change (VNum (Fin 0%Q)) with (num 0) in Ht, Hu.
    rewrite Ht. cbn [mbind completion_bind]. rewrite (stable_positions_filter _ Hgood).
    cbn [mbind completion_bind]. rewrite Hu. cbn [mbind completion_bind]. rewrite Hal.
    cbn [mbind completion_bind]. cbv zeta.
    eexists. exists true, []. split; [exact Hval|]. repeat split; reflexivity.
  - unfold Multi.buildPortfolioRebalancerDeliverable. rewrite Hok.
    cbn [negb mret completion_ret]. revert Hok. subst val.
    destruct (concat (MultiSpec.portfolioViolations req)) as [|x l]; [discriminate|].
    intros _. eexists. exists false, (map VStr (x :: l)). split; [exact Hval|].
    repeat split; try reflexivity; discriminate.
Qed.

Lemma or_else_again a b : or_else (or_else a b) b = or_else a b.
Proof. unfold or_else. destruct (truthy a) eqn:E; [by rewrite E | by destruct (truthy b)]. Qed.

Lemma or_else_kept a b : truthy a = true -> or_else a b = a.
Proof. unfold or_else. by intros ->. Qed.

Lemma multi_dispatch now jobName requirement :
  exists d passed errors,
    Multi.buildDeliverableForJob now (or_else jobName (VStr "unknown")) requirement = Normal d
    /\ prop "job_name" d = or_else jobName (VStr "unknown")
    /\ prop "validation_passed" d = VBool passed
    /\ prop "validation_errors" d = VArr errors
    /\ (passed = true <-> errors = []).
Proof.
  set (name := or_else jobName (VStr "unknown")).
  unfold Multi.buildDeliverableForJob. cbv zeta.
  destruct (is_string "risk_sentinel" name) eqn:E1.
  { apply is_string_eq in E1. rewrite E1.
    destruct (sentinel_built now (Multi.fields_of requirement)) as (p & e & H).
    eexists. exists p, e. split; [reflexivity | exact H]. }
  destruct (is_string "gas_execution_optimizer" name) eqn:E2.
  { apply is_string_eq in E2. rewrite E2.
    destruct (gas_built now (Multi.fields_of requirement)) as (p & e & H).
    eexists. exists p, e. split; [reflexivity | exact H]. }
  destruct (is_string "strategy_safety_audit" name) eqn:E3.
  { apply is_string_eq in E3. rewrite E3.
    destruct (audit_built now (Multi.fields_of requirement)) as (d & p & e & Hd & H).
    exists d, p, e. split; [exact Hd | exact H]. }
  destruct (is_string "market_intelligence_feed" name) eqn:E4.
  { apply is_string_eq in E4. rewrite E4.
    destruct (intel_built now (Multi.fields_of requirement)) as (p & e & H).
    eexists. exists p, e. split; [reflexivity | exact H]. }
  destruct (is_string "portfolio_rebalancer" name) eqn:E5.
  { apply is_string_eq in E5. rewrite E5.
    destruct (portfolio_built now (Multi.fields_of requirement))
      as (val & d & p & e & Hval & Hd & H).
    exists d, p, e. rewrite Hval. cbn [mbind completion_bind]. split; [exact Hd | exact H]. }
  eexists. exists false, [VStr "Unknown or unsupported job_name."].
  split; [reflexivity|]. split; [apply or_else_again|].
  repeat split; try reflexivity; discriminate.
Qed.

(** Property X18.  In the five-job provider a pending delivery memo (nextPhase
    3) never raises and leaves the cache as it is, whatever the cache holds
    for the job (nothing, any job name, any requirement value); the
    deliverable's job_name is the cached name (unknown when there is none),
    and its validation_passed is true exactly when its validation_errors is
    empty. *)
Theorem multi_delivery_total (now : string) (jobCache : gmap Z Multi.CachedJob)
    (job : Multi.Job) (memo : Multi.Memo) :
  Multi.status memo = "PENDING" ->
  Multi.nextPhase memo = 3%Z ->
  exists d passed errors,
    Multi.onNewTask now jobCache job (Some memo) = Normal (jobCache, Multi.Deliver d)
    /\ prop "job_name" d = Multi.cached_jobName jobCache (Multi.id job)
    /\ prop "validation_passed" d = VBool passed
    /\ prop "validation_errors" d = VArr errors
    /\ (passed = true <-> errors = []).
Proof.
  intros Hs Hp. unfold Multi.onNewTask. rewrite Hs, Hp.
  cbn [String.eqb Ascii.eqb Bool.eqb negb Z.eqb Pos.eqb].
  unfold Multi.cached_jobName.
  destruct (multi_dispatch now
              (from_option Multi.jobName VUndef (jobCache !! Multi.id job))
              (Multi.cached_requirement jobCache (Multi.id job)))
    as (d & p & e & Hd & H).
  exists d, p, e. rewrite Hd. cbn [mbind completion_bind mret completion_ret].
  split; [reflexivity | exact H].
Qed.

Lemma multi_delivery_total_witness :
  let memo := {| Multi.status := "PENDING"; Multi.nextPhase := 3;
                 Multi.structuredContent := VUndef |} in
  let job := {| Multi.id := 7; Multi.input := VUndef |} in
  let jobCache : gmap Z Multi.CachedJob :=
    {[ 7%Z := {| Multi.jobName := VStr "portfolio_rebalancer";
                 Multi.requirement := VStr "rebalance everything" |} ]} in
  exists d errors,
    Multi.onNewTask "now" jobCache job (Some memo) = Normal (jobCache, Multi.Deliver d)
    /\ prop "job_name" d = VStr "portfolio_rebalancer"
    /\ prop "validation_passed" d = VBool false
    /\ prop "validation_errors" d = VArr errors
    /\ errors <> [].
Proof.
  intros memo job jobCache.
  destruct (multi_delivery_total "now" jobCache job memo eq_refl eq_refl)
    as (d & passed & errors & Hd & Hn & Hp & He & Hiff).
  exists d, errors.
  assert (Ed := Hd). vm_compute in Ed. injection Ed as Ed.
  rewrite <- Ed in Hp. vm_compute in Hp. injection Hp as <-.
  split; [exact Hd|]. split; [rewrite Hn; reflexivity|]. split; [by rewrite <- Ed|].
  split; [exact He|]. intros E. apply Hiff in E. discriminate.
Defined.
(** Property X19.  In the five-job provider a pending negotiation memo
    (nextPhase 1) never raises and is always accepted; it caches, at the job's
    id only, a truthy job name and a truthy requirement, and a pending
    delivery memo for the same job then delivers buildDeliverableForJob of
    exactly these two, with job_name equal to the cached name. *)
Theorem multi_negotiation_then_delivery (now : string) (jobCache : gmap Z Multi.CachedJob)
    (job : Multi.Job) (negotiation delivery : Multi.Memo) :
  Multi.status negotiation = "PENDING" -> Multi.nextPhase negotiation = 1%Z ->
  Multi.status delivery = "PENDING" -> Multi.nextPhase delivery = 3%Z ->
  exists cache' name requirement d,
    Multi.onNewTask now jobCache job (Some negotiation)
    = Normal (cache',
              Multi.Respond true
                "Accepted by AegisAI provider — validation and risk logic will be applied at delivery.")
    /\ cache' !! Multi.id job
       = Some {| Multi.jobName := name; Multi.requirement := requirement |}
    /\ (forall other, other <> Multi.id job -> cache' !! other = jobCache !! other)
    /\ truthy name = true /\ truthy requirement = true
    /\ Multi.buildDeliverableForJob now name requirement = Normal d
    /\ prop "job_name" d = name
    /\ Multi.onNewTask now cache' job (Some delivery) = Normal (cache', Multi.Deliver d).
Proof.
  intros Hs1 Hp1 Hs3 Hp3. unfold Multi.onNewTask at 1. rewrite Hs1, Hp1.
  cbn [String.eqb Ascii.eqb Bool.eqb negb Z.eqb Pos.eqb].
  match goal with |- context [let '(_, _) := ?p in _] =>
    destruct p as [name requirement] eqn:E end.
  assert (Hname : exists n, name = or_else n (VStr "unknown")).
  { destruct (Multi.isObjectLike (Multi.structuredContent negotiation));
      [|destruct (Multi.isObjectLike (Multi.input job)) eqn:Ei]; injection E as <- _; eauto.
    by exists VUndef. }
  assert (Hreq : truthy requirement = true).
  { destruct (Multi.isObjectLike (Multi.structuredContent negotiation));
      [|destruct (Multi.isObjectLike (Multi.input job)) eqn:Ei]; injection E as _ <-;
      try reflexivity; apply or_else_truthy; try reflexivity.
    unfold Multi.isObjectLike in Ei. by apply andb_true_iff in Ei as [Ei _]. }
  destruct Hname as [n ->].
  destruct (multi_dispatch now n requirement) as (d & p & e & Hd & Hn & _).
  eexists. exists (or_else n (VStr "unknown")), requirement, d.
  split; [reflexivity|]. rewrite lookup_insert_eq. split; [reflexivity|].
  split; [intros other Ho; by rewrite lookup_insert_ne|].
  split; [by apply or_else_truthy|]. split; [exact Hreq|]. split; [exact Hd|].
  split; [exact Hn|].
  unfold Multi.onNewTask. rewrite Hs3, Hp3.
  cbn [String.eqb Ascii.eqb Bool.eqb negb Z.eqb Pos.eqb].
  unfold Multi.cached_jobName, Multi.cached_requirement. rewrite lookup_insert_eq.
  cbn [from_option Multi.jobName Multi.requirement].
  rewrite or_else_again, (or_else_kept requirement) by exact Hreq. rewrite Hd. reflexivity.
Qed.

Lemma multi_negotiation_then_delivery_witness :
  let job := {| Multi.id := 7; Multi.input := VUndef |} in
  let negotiation :=
    {| Multi.status := "PENDING"; Multi.nextPhase := 1;
       Multi.structuredContent :=
         object [("name", VStr "risk_sentinel");
                 ("requirement", VObj (Scenario.sentinel (num 250000)))] |} in
  let delivery :=
    {| Multi.status := "PENDING"; Multi.nextPhase := 3; Multi.structuredContent := VUndef |} in
  exists cache' d,
    Multi.onNewTask "now" ∅ job (Some negotiation)
    = Normal (cache',
              Multi.Respond true
                "Accepted by AegisAI provider — validation and risk logic will be applied at delivery.")
    /\ Multi.onNewTask "now" cache' job (Some delivery) = Normal (cache', Multi.Deliver d)
    /\ prop "job_name" d = VStr "risk_sentinel".
Proof.
  intros job negotiation delivery.
  destruct (multi_negotiation_then_delivery "now" ∅ job negotiation delivery
              eq_refl eq_refl eq_refl eq_refl)
    as (cache' & name & requirement & d & Hn & Hc & _ & _ & _ & _ & Hj & Hd).
  exists cache', d. split; [exact Hn|]. split; [exact Hd|].
  assert (En := Hn). vm_compute in En. injection En as En.
  rewrite <- En in Hc. vm_compute in Hc. injection Hc as <- _.
  exact Hj.
Defined.

(** ** The provider in front of the resources server *)

Lemma venue_depth_cases e query :
  (exists code text,
     Server.venue_depth e query = Server.refuse code text
     /\ In (code, text)
          [ (400%Z, "Unknown asset_in/asset_out. Provide token addresses or extend BASE_TOKENS map.");
            (400%Z, "notional_usd must be > 0");
            (500%Z, "Failed to compute venue depth from subgraphs.") ])
  \/ (exists q tokenA tokenB aero uni,
        Server.aerodromeBestPool e tokenA tokenB = Normal aero
        /\ Server.uniswapV3BestPool e tokenA tokenB = Normal uni
        /\ let venues :=
             Base.sort_by_depth
               ((if truthy aero then [Server.aerodrome_venue (Fin q) aero] else [])
                ++ (if truthy uni then [Server.uniswap_venue (Fin q) uni] else []))%list in
           Server.venue_depth e query
           = {| Server.status := 200;
                Server.body :=
                  {| Base.body_ok := true;
                     Base.message := VUndef;
                     Base.data := Some
                       {| Base.venues := map Server.json_object venues;
                          Base.best_by_depth := Server.json_object <$> head venues |} |} |}).
Proof.
  unfold Server.venue_depth, Server.venue_depth_try.
  destruct (Server.normAddrOrSymbol
              (VStr (trim (ToString (or_else (getp query "asset_in") (VStr ""))))))
    as [tokenA|]; [|left; do 2 eexists; split; [reflexivity | simpl; auto]].
  destruct (Server.normAddrOrSymbol
              (VStr (trim (ToString (or_else (getp query "asset_out") (VStr ""))))))
    as [tokenB|]; [|left; do 2 eexists; split; [reflexivity | simpl; auto]].
  match goal with |- context [negb (isFinite ?n) || num_leb ?n (of_Z 0)] =>
    destruct (negb (isFinite n) || num_leb n (of_Z 0)) eqn:E;
      [left; do 2 eexists; split; [reflexivity | simpl; auto]
      | apply positive_toNumber in E as (q & -> & _)] end.
  destruct (Server.aerodromeBestPool e tokenA tokenB) as [aero|] eqn:Ea;
    [|left; do 2 eexists; split; [reflexivity | simpl; auto]].
  destruct (Server.uniswapV3BestPool e tokenA tokenB) as [uni|] eqn:Eu;
    [|left; do 2 eexists; split; [reflexivity | simpl; auto]].
  right. exists q, tokenA, tokenB, aero, uni. repeat split; assumption.
Qed.

Lemma graphEndpoint_configured e id endpoint :
  Server.graphEndpoint e id = Normal endpoint ->
  truthy (Server.env (Server.GRAPH_API_KEY e)) = true /\ truthy (Server.env id) = true.
Proof.
  unfold Server.graphEndpoint.
  destruct (truthy (Server.env (Server.GRAPH_API_KEY e))); [|discriminate].
  destruct (truthy (Server.env id)); [|discriminate]. auto.
Qed.

Lemma aerodrome_configured e a b pool :
  Server.aerodromeBestPool e a b = Normal pool ->
  truthy (Server.env (Server.GRAPH_API_KEY e)) = true
  /\ truthy (Server.env (Server.AERODROME_SUBGRAPH_ID e)) = true.
Proof.
  unfold Server.aerodromeBestPool.
  destruct (Server.graphEndpoint e (Server.AERODROME_SUBGRAPH_ID e)) eqn:E; [|discriminate].
  intros _. by apply graphEndpoint_configured in E.
Qed.

Lemma uniswap_configured e a b pool :
  Server.uniswapV3BestPool e a b = Normal pool ->
  truthy (Server.env (Server.UNISWAPV3_SUBGRAPH_ID e)) = true.
Proof.
  unfold Server.uniswapV3BestPool.
  destruct (Server.graphEndpoint e (Server.UNISWAPV3_SUBGRAPH_ID e)) eqn:E; [|discriminate].
  intros _. by apply graphEndpoint_configured in E as [_ E].
Qed.

(** What the provider makes of the depth resource of this server. *)
Lemma served_depth e chain assetIn assetOut notional :
  let f := Base.fetchBaseVenueDepth (Server.served e chain) assetIn assetOut notional in
  (exists text,
     f = {| Base.f_ok := false;
            Base.f_evidence :=
              [ {| Base.source := "resources/base-venue-depth";
                   Base.outcome := Base.error (VStr text) |} ];
            Base.f_data := None |}
     /\ In text
          [ "Unknown asset_in/asset_out. Provide token addresses or extend BASE_TOKENS map.";
            "notional_usd must be > 0";
            "Failed to compute venue depth from subgraphs." ])
  \/ (exists d,
        f = {| Base.f_ok := true;
               Base.f_evidence :=
                 [ {| Base.source := "resources/base-venue-depth";
                      Base.outcome := Base.freshness_seconds 60 |} ];
               Base.f_data := Some d |}
        /\ Forall listed_venue (Base.venues d)
        /\ Base.best_by_depth d = head (Base.venues d)
        /\ truthy (Server.env (Server.GRAPH_API_KEY e)) = true
        /\ truthy (Server.env (Server.AERODROME_SUBGRAPH_ID e)) = true
        /\ truthy (Server.env (Server.UNISWAPV3_SUBGRAPH_ID e)) = true).
Proof.
  cbv zeta. unfold Base.fetchBaseVenueDepth, Server.served. cbn [Base.venue_depth].
  match goal with |- context [Server.venue_depth e ?q] =>
    destruct (venue_depth_cases e q)
      as [(code & text & -> & Hin)|(q' & a & b & aero & uni & Ha & Hu & ->)] end.
  - left. exists text. cbn [In] in Hin.
    destruct Hin as [[= <- <-]|[[= <- <-]|[[= <- <-]|[]]]];
      (split; [reflexivity | simpl; auto]).
  - right. eexists. split; [reflexivity|].
    destruct (venues_of_response q' aero uni) as (_ & Hl & Hh & _).
    destruct (aerodrome_configured _ _ _ _ Ha) as [Hk Hi].
    pose proof (uniswap_configured _ _ _ _ Hu) as Hj.
    cbn [Base.venues Base.best_by_depth]. auto.
Qed.

Lemma served_estimate e chain req q :
  getp req "notional_value_usd" = VNum (Fin q) ->
  exists z,
    Observed.estSlipBps (Server.served e chain) req = num z /\ (1 <= z <= 9999)%Z.
Proof.
  intros Hq. unfold Observed.estSlipBps, Observed.best, Observed.depth.
  destruct (served_depth e chain (getp req "asset_in") (getp req "asset_out")
              (getp req "notional_value_usd"))
    as [(text & -> & _)|(d & -> & Hl & Hb & _)]; cbn [Base.f_data mbind option_bind].
  - destruct (fallbackSlipBps_Z req q Hq) as (z & -> & Hz). exists z. split; [reflexivity | lia].
  - rewrite Hb. destruct Hl as [|v l (_ & z & Hv & Hz & _) _]; cbn [head].
    + destruct (fallbackSlipBps_Z req q Hq) as (z & -> & Hz).
      exists z. split; [reflexivity | lia].
    + unfold Base.opt_prop. cbn [from_option]. rewrite Hv.
      exists z. split; [reflexivity | lia].
Qed.

(** Property X20.  When the resources of the Base-only provider are served by
    the repository's resources server (base-gas-profile and base-venue-depth),
    every validated pre_trade_risk_pack request gets an integer slippage
    estimate within 1..9999 and an integer risk_score within 11..100, whatever
    the subgraph gateway answers; the gas analysis always reports
    congestion_level normal and an estimated gas price of 2600000000 wei. *)
Theorem served_pre_trade_numbers (e : Server.Env) (chain : string) (r req : obj)
    (val : Base.Validation) :
  Base.validatePreTradeRiskPack r = (req, val) -> Base.ok val = true ->
  let d := Base.buildPreTradeRiskPackDeliverable (Server.served e chain) req val in
  exists estimate score,
    prop "estimated_slippage_bps_at_size" (prop "liquidity_analysis" d) = num estimate
    /\ (1 <= estimate <= 9999)%Z
    /\ prop "risk_score" d = num score
    /\ (11 <= score <= 100)%Z
    /\ prop "congestion_level" (prop "gas_analysis" d) = VStr "normal"
    /\ prop "estimated_gas_price_wei" (prop "gas_analysis" d) = num 2600000000.
Proof.
  intros Hv Hok d.
  destruct (preTrade_valid _ _ _ Hv Hok) as (q & l & c & Hq & _ & Hl & _).
  destruct (preTrade_fields (Server.served e chain) req val Hok)
    as (_ & Hs & _ & _ & He & Hc & _).
  cbv zeta in *. subst d. rewrite Hs, He, Hc.
  destruct (served_estimate e chain req q Hq) as (z & Hz & Hzr). rewrite Hz.
  destruct (riskScore_Z req (num z) (Observed.congestion (Server.served e chain) req) q l
              Hq Hl ltac:(discriminate)) as (s & -> & Hsr).
  exists z, s. repeat split; try reflexivity; try lia.
  unfold Base.buildPreTradeRiskPackDeliverable. rewrite Hok. reflexivity.
Qed.

Lemma served_pre_trade_numbers_witness :
  let r := Scenario.requirement in
  let req := (Base.validatePreTradeRiskPack r).1 in
  let val := (Base.validatePreTradeRiskPack r).2 in
  let d := Base.buildPreTradeRiskPackDeliverable
             (Server.served Deployment.gateway "base") req val in
  Base.ok val = true
  /\ exists score,
       prop "risk_score" d = num score /\ (11 <= score <= 100)%Z
       /\ prop "estimated_gas_price_wei" (prop "gas_analysis" d) = num 2600000000.
Proof.
  intros r req val d.
  assert (Hok : Base.ok val = true) by (vm_compute; reflexivity).
  split; [exact Hok|].
  destruct (served_pre_trade_numbers Deployment.gateway "base" r req val
              (surjective_pairing (Base.validatePreTradeRiskPack r)) Hok)
    as (z & s & _ & _ & Hs & Hr & _ & Hg).
  exists s. split; [exact Hs|]. split; [exact Hr | exact Hg].
Defined.

(** Property X21.  If GRAPH_API_KEY, AERODROME_SUBGRAPH_ID or
    UNISWAPV3_SUBGRAPH_ID is unset or empty, /resources/base-venue-depth
    answers every query with status 400 or 500 and no data, and the pre-trade
    deliverable of every validated request then reports best_by_depth null,
    the default depth 300000, the fallback slippage estimate (an integer
    within 15..180), the fallback assumption, and the request's own
    execution_venue as recommended venue. *)
Theorem unconfigured_server_fallback (e : Server.Env) (chain : string) (r req : obj)
    (val : Base.Validation) :
  truthy (Server.env (Server.GRAPH_API_KEY e)) = false
  \/ truthy (Server.env (Server.AERODROME_SUBGRAPH_ID e)) = false
  \/ truthy (Server.env (Server.UNISWAPV3_SUBGRAPH_ID e)) = false ->
  (forall query,
     Base.data (Server.body (Server.venue_depth e query)) = None
     /\ (Server.status (Server.venue_depth e query) = 400%Z
         \/ Server.status (Server.venue_depth e query) = 500%Z))
  /\ (Base.validatePreTradeRiskPack r = (req, val) -> Base.ok val = true ->
      let d := Base.buildPreTradeRiskPackDeliverable (Server.served e chain) req val in
      prop "best_by_depth" (prop "liquidity_analysis" d) = VNull
      /\ prop "estimated_liquidity_depth_usd" (prop "liquidity_analysis" d) = num 300000
      /\ (exists z,
            prop "estimated_slippage_bps_at_size" (prop "liquidity_analysis" d) = num z
            /\ (15 <= z <= 180)%Z)
      /\ prop "assumptions" d
         = Base.strings
             ["No venue depth returned from subgraphs. Falling back to conservative estimates."]
      /\ prop "recommended_venue" (prop "execution_plan" d) = getp req "execution_venue").
Proof.
  intros Hmissing. split.
  - intros query.
    destruct (venue_depth_cases e query)
      as [(code & text & -> & Hin)|(q & a & b & aero & uni & Ha & Hu & _)].
    + split; [reflexivity|]. cbn [In] in Hin.
      destruct Hin as [[= <- _]|[[= <- _]|[[= <- _]|[]]]]; auto.
    + apply aerodrome_configured in Ha as [Hk Hi]. apply uniswap_configured in Hu.
      destruct Hmissing as [H|[H|H]]; congruence.
  - intros Hv Hok d.
    assert (Hbest : Observed.best (Server.served e chain) req = None).
    { unfold Observed.best, Observed.depth.
      destruct (served_depth e chain (getp req "asset_in") (getp req "asset_out")
                  (getp req "notional_value_usd"))
        as [(text & -> & _)|(d' & _ & _ & _ & Hk & Hi & Hj)]; [reflexivity|].
      destruct Hmissing as [H|[H|H]]; congruence. }
    destruct (preTrade_valid _ _ _ Hv Hok) as (q & l & c & Hq & _).
    destruct (preTrade_fields (Server.served e chain) req val Hok)
      as (_ & _ & _ & _ & He & _).
    destruct (preTrade_more_fields (Server.served e chain) req val Hok)
      as (_ & _ & Hd & Hb & Ha & Hr).
    cbv zeta in *. subst d. rewrite He, Hd, Hb, Ha, Hr. unfold Observed.estSlipBps.
    rewrite Hbest. cbn [Base.opt_prop Base.or_null from_option coalesce nullish truthy].
    split; [reflexivity|]. split; [reflexivity|].
    split; [destruct (fallbackSlipBps_Z req q Hq) as (z & -> & Hz); by exists z|].
    split; [reflexivity|].
    destruct (preTrade_normal_form r) as (_ & _ & _ & _ & _ & _ & (s & Hs & Hw) & _).
    { rewrite validatePreTradeRiskPack_spec in Hv. injection Hv as _ <-.
      by apply finish_ok in Hok. }
    rewrite validatePreTradeRiskPack_spec in Hv. injection Hv as <- _.
    rewrite Hs. cbn [or_else truthy].
    cbn [In] in Hw. destruct Hw as [<-|[<-|[<-|[<-|[]]]]]; reflexivity.
Qed.

Lemma unconfigured_server_fallback_witness :
  let r := Scenario.requirement in
  let req := (Base.validatePreTradeRiskPack r).1 in
  let val := (Base.validatePreTradeRiskPack r).2 in
  let d := Base.buildPreTradeRiskPackDeliverable
             (Server.served Deployment.keyless "base") req val in
  (truthy (Server.env (Server.GRAPH_API_KEY Deployment.keyless)) = false
   /\ Base.ok val = true)
  /\ prop "best_by_depth" (prop "liquidity_analysis" d) = VNull
  /\ prop "recommended_venue" (prop "execution_plan" d) = VStr "unknown".
Proof.
  intros r req val d.
  assert (Hk : truthy (Server.env (Server.GRAPH_API_KEY Deployment.keyless)) = false)
    by reflexivity.
  assert (Hok : Base.ok val = true) by (vm_compute; reflexivity).
  split; [split; assumption|].
  destruct (proj2 (unconfigured_server_fallback Deployment.keyless "base" r req val
                     (or_introl Hk))
              (surjective_pairing (Base.validatePreTradeRiskPack r)) Hok)
    as (Hb & _ & _ & _ & Hr).
  split; [exact Hb|]. etransitivity; [exact Hr|]. vm_compute. reflexivity.
Defined.
(** Property X22.  When the gas resource is served by the repository's
    base-gas-profile handler, the market_intelligence_feed deliverable of
    every validated request of the Base-only provider has no alerts
    (alerts_count 0), gas_regime normal with the no-stress risk note, and one
    evidence entry, for the gas profile with freshness_seconds 60: the served
    profile has congestion_level normal and no variance_hint. *)
Theorem served_feed_never_alerts (e : Server.Env) (chain : string) (r : obj) :
  let req := (Base.validateMarketIntel r).1 in
  let val := (Base.validateMarketIntel r).2 in
  Base.ok val = true ->
  exists d,
    Base.buildMarketIntelDeliverable (Server.served e chain) req val = Normal d
    /\ prop "alerts" d = VArr []
    /\ prop "alerts_count" (prop "stats" d) = num 0
    /\ prop "gas_regime" (prop "regime" d) = VStr "normal"
    /\ prop "risk_note" (prop "regime" d)
       = VStr "No broad network stress detected; normal execution recommended."
    /\ prop "evidence" d
       = VArr [ object [("source", VStr "resources/base-gas-profile");
                        ("freshness_seconds", num 60)] ].
Proof.
  intros req val Hok. subst req val. rewrite validateMarketIntel_spec in *.
  cbn [fst snd] in *.
  destruct (intel_normal_form r) as (_ & _ & _ & _ & (names & Hn & _) & _);
    [by apply finish_ok in Hok|].
  unfold Base.buildMarketIntelDeliverable. rewrite Hok, Hn. cbn [negb]. cbv zeta.
  assert (Hi : Base.iterate (VArr (map VStr names)) = Normal (map VStr names))
    by reflexivity.
  rewrite Hi. cbn [mbind completion_bind mret completion_ret].
  eexists. split; [reflexivity|]. repeat split; reflexivity.
Qed.

Lemma served_feed_never_alerts_witness :
  let r : obj :=
    list_to_map [
      ("client_agent_id", VStr "x"); ("chain", VStr "base");
      ("lookback_minutes", num 60); ("minimum_notional_usd", num 1000);
      ("focus_assets", VArr [VStr "WETH"]); ("severity_floor", VStr "high") ] in
  let req := (Base.validateMarketIntel r).1 in
  let val := (Base.validateMarketIntel r).2 in
  Base.ok val = true
  /\ exists d,
       Base.buildMarketIntelDeliverable (Server.served Deployment.keyless "base") req val
       = Normal d
       /\ prop "alerts" d = VArr [].
Proof.
  intros r req val.
  assert (Hok : Base.ok val = true) by (vm_compute; reflexivity).
  split; [exact Hok|].
  destruct (served_feed_never_alerts Deployment.keyless "base" r Hok) as (d & Hd & Ha & _).
  exists d. split; assumption.
Defined.

(** ** The static resources *)

Lemma trim_lower s : trim (toLowerCase s) = toLowerCase (trim s).
Proof. unfold trim, toLowerCase. by rewrite !chars_text, trim_chars_lower. Qed.

Lemma normalizeRiskTolerance_cases v :
  In (Static.normalizeRiskTolerance v) ["conservative"; "moderate"; "aggressive"].
Proof.
  unfold Static.normalizeRiskTolerance. destruct v; try (simpl; tauto).
  destruct (negb _); [simpl; tauto|]. cbv zeta.
  destruct (includes _ _) eqn:E; [by apply includes_In | simpl; tauto].
Qed.

Lemma normalizeObjective_cases v :
  In (Static.normalizeObjective v) ["maximize_yield"; "preserve_capital"; "balanced"].
Proof.
  unfold Static.normalizeObjective. destruct v; try (simpl; tauto).
  destruct (negb _); [simpl; tauto|]. cbv zeta.
  destruct (includes _ _) eqn:E; [by apply includes_In | simpl; tauto].
Qed.

Lemma normalizeChain_shape v :
  trim (Static.normalizeChain v) = Static.normalizeChain v
  /\ toLowerCase (Static.normalizeChain v) = Static.normalizeChain v.
Proof.
  unfold Static.normalizeChain. destruct v; try (split; reflexivity).
  destruct (negb _); [split; reflexivity|].
  split; [by rewrite trim_lower, trim_idem | apply toLowerCase_idem].
Qed.

(** Property X23.  For every value, normalizeRiskTolerance and
    normalizeObjective return one of their three allowed words and are
    idempotent; normalizeChain returns a trimmed lower-case string, which it
    maps to itself unless it is empty (a blank chain normalizes to the empty
    string, and the empty string to base). *)
Theorem normalizers_fixed_points (v : value) :
  let risk := Static.normalizeRiskTolerance v in
  let objective := Static.normalizeObjective v in
  let chain := Static.normalizeChain v in
  In risk ["conservative"; "moderate"; "aggressive"]
  /\ Static.normalizeRiskTolerance (VStr risk) = risk
  /\ In objective ["maximize_yield"; "preserve_capital"; "balanced"]
  /\ Static.normalizeObjective (VStr objective) = objective
  /\ trim chain = chain
  /\ toLowerCase chain = chain
  /\ Static.normalizeChain (VStr chain) = (if String.eqb chain "" then "base" else chain).
Proof.
  cbv zeta. pose proof (normalizeRiskTolerance_cases v) as Hr.
  pose proof (normalizeObjective_cases v) as Ho.
  destruct (normalizeChain_shape v) as [Ht Hl].
  split; [exact Hr|]. split.
  { cbn [In] in Hr. destruct Hr as [<-|[<-|[<-|[]]]]; reflexivity. }
  split; [exact Ho|]. split.
  { cbn [In] in Ho. destruct Ho as [<-|[<-|[<-|[]]]]; reflexivity. }
  split; [exact Ht|]. split; [exact Hl|].
  unfold Static.normalizeChain at 1. cbn [truthy].
  destruct (String.eqb (Static.normalizeChain v) ""); cbn [negb]; [reflexivity|].
  by rewrite Ht, Hl.
Qed.

(** Property X24.  For every query, /resources/portfolio-templates answers
    with the normalized risk_tolerance and target_objective, with the template
    that the table holds for exactly this pair (the moderate/balanced fallback
    is never needed), and with target weights that sum to 100. *)
Theorem portfolio_templates_total (now : string) (query : obj) :
  let r := Static.portfolio_templates now query in
  exists risk objective template,
    prop "risk_tolerance" r = VStr risk
    /\ risk = Static.normalizeRiskTolerance (getp query "risk_tolerance")
    /\ prop "target_objective" r = VStr objective
    /\ objective
       = Static.normalizeObjective
           (or_else (getp query "target_objective") (getp query "objective"))
    /\ Static.templates !! risk ≫= (.!! objective) = Some template
    /\ prop "template" r = Static.template_value template
    /\ total_weight (prop "template" r) = of_Z 100.
Proof.
  cbv zeta. unfold Static.portfolio_templates. cbv zeta.
  pose proof (normalizeRiskTolerance_cases (getp query "risk_tolerance")) as Hr.
  pose proof (normalizeObjective_cases
                (or_else (getp query "target_objective") (getp query "objective"))) as Ho.
  set (risk := Static.normalizeRiskTolerance _) in *.
  set (objective := Static.normalizeObjective _) in *.
  clearbody risk objective. exists risk, objective.
  cbn [In] in Hr, Ho.
  destruct Hr as [<-|[<-|[<-|[]]]]; destruct Ho as [<-|[<-|[<-|[]]]];
    eexists; (split; [reflexivity|]); (split; [reflexivity|]); (split; [reflexivity|]);
    (split; [reflexivity|]); (split; [vm_compute; reflexivity|]);
    split; vm_compute; reflexivity.
Qed.

(** Property X25.  For the validators of the Base-only provider, the letter
    case of a string in chain, side, execution_venue, urgency or
    severity_floor does not matter: replacing the string by its lower-case
    form gives the same verdict, the same errors and the same normalized
    request. *)
Theorem enumerated_fields_ignore_case (v : Validator) (name s : string) (req : obj) :
  In name (enumerated_fields v) ->
  validate v (<[name := VStr s]> req) = validate v (<[name := VStr (toLowerCase s)]> req)
  /\ normalize v (<[name := VStr s]> req)
     = normalize v (<[name := VStr (toLowerCase s)]> req).
Proof.
  intros Hin. destruct v; try (by destruct Hin); unfold validate, normalize.
  - by rewrite (preTrade_lower_case name s req Hin).
  - by rewrite (quote_lower_case name s req Hin).
  - by rewrite (intel_lower_case name s req Hin).
Qed.

Lemma enumerated_fields_ignore_case_witness :
  let req := Scenario.trade (num 1000) (num 50) (num 1) in
  In "side" (enumerated_fields PreTradeRiskPack)
  /\ validate PreTradeRiskPack (<["side" := VStr "BUY"]> req)
     = validate PreTradeRiskPack (<["side" := VStr "buy"]> req)
  /\ getp (normalize PreTradeRiskPack (<["side" := VStr "BUY"]> req)) "side" = VStr "buy".
Proof.
  intros req.
  assert (Hin : In "side" (enumerated_fields PreTradeRiskPack)) by (simpl; auto).
  split; [exact Hin|].
  destruct (enumerated_fields_ignore_case PreTradeRiskPack "side" "BUY" req Hin) as [Hv Hn].
  split; [exact Hv|]. rewrite Hn. vm_compute. reflexivity.
Defined.
